(** * Accolade sales portal: the validators, the session store and the
      registration write path of [server.js] and of its two sibling
      revisions, embedded as executable definitions.

    Three revisions of the server are covered:
    - [server.js]: single-event registration, students keyed by phone,
      member and admin roles (module [Portal]);
    - the multi-event revision, students keyed by an external student
      code (module [Batch]);
    - the first revision, without roles (module [First]).

    JavaScript strings are sequences of UTF-16 code units, request
    payloads are JSON objects, and every [await] on the database client
    is a point where other requests may run. *)

From Stdlib Require Import ZArith NArith Lia DecimalString.
From stdpp Require Import base decidable option list numbers strings gmap.

Local Open Scope Z_scope.
Local Open Scope nat_scope.

(** ** JavaScript values *)

(** A string is the list of its UTF-16 code units; [length] is the
    JavaScript [.length]. *)
Abbreviation jsstring := (list N) (only parsing).

(** String literals of the source (all of them are Basic Latin). *)
Definition lit (s : string) : jsstring :=
  map Ascii.N_of_ascii (String.list_ascii_of_string s).

(** JSON values as [express.json()] hands them to a route, plus
    [undefined] for an absent property.  [JNum z] is the number [z], a
    safe integer (below 2^53 in absolute value), on which
    [Number::toString] is the decimal numeral.  A property that is a
    fraction, a larger number (whose digits [String] does not print in
    full, and from 10^21 on prints with an exponent) or a nested object
    is outside this type; no validator accepts the text of one. *)
#[warnings="-register-all"]
Inductive jsval : Type :=
  | JUndefined
  | JNull
  | JBool (b : bool)
  | JNum (z : Z)
  | JStr (s : list N)
  | JArr (l : list jsval).

(** Decimal numeral of an integer. *)
Definition decimal (z : Z) : jsstring :=
  lit (NilZero.string_of_int (Z.to_int z)).

(** [String(v)].  An array is joined with commas, its [null] and
    [undefined] elements rendering as the empty string. *)
Fixpoint ToString (v : jsval) : jsstring :=
  match v with
  | JUndefined => lit "undefined"
  | JNull => lit "null"
  | JBool true => lit "true"
  | JBool false => lit "false"
  | JNum z => decimal z
  | JStr s => s
  | JArr l =>
      (fix join (l : list jsval) : jsstring :=
         match l with
         | [] => []
         | x :: rest =>
             let e := match x with
                      | JUndefined | JNull => []
                      | _ => ToString x
                      end in
             match rest with
             | [] => e
             | _ => e ++ 44%N :: join rest
             end
         end) l
  end.

(** Truthiness, as tested by [!v] and [v ? a : b]. *)
Definition truthy (v : jsval) : bool :=
  match v with
  | JUndefined | JNull => false
  | JBool b => b
  | JNum z => negb (Z.eqb z 0)
  | JStr s => negb (Nat.eqb (length s) 0)
  | JArr _ => true
  end.

(** ** String primitives used by the validators *)

(** WhiteSpace and LineTerminator code units, the ones [trim] strips. *)
Definition is_ws (c : N) : bool :=
  ((9 <=? c) && (c <=? 13) || (c =? 32) || (c =? 160) || (c =? 5760)
   || (8192 <=? c) && (c <=? 8202) || (c =? 8232) || (c =? 8233)
   || (c =? 8239) || (c =? 8287) || (c =? 12288) || (c =? 65279))%N.

Fixpoint trim_start (s : jsstring) : jsstring :=
  match s with
  | c :: rest => if is_ws c then trim_start rest else s
  | [] => []
  end.

Definition trim_end (s : jsstring) : jsstring := rev (trim_start (rev s)).

Definition trim (s : jsstring) : jsstring := trim_end (trim_start s).

(** The character class of [sanitize]: less-than, greater-than, double
    quote, single quote and backquote. *)
Definition dangerous (c : N) : bool :=
  ((c =? 60) || (c =? 62) || (c =? 34) || (c =? 39) || (c =? 96))%N.

(** Global replacement of that class by the empty string: every code
    unit of the class is deleted. *)
Fixpoint strip (s : jsstring) : jsstring :=
  match s with
  | [] => []
  | c :: rest => if dangerous c then strip rest else c :: strip rest
  end.

(** [s.slice(0, n)]. *)
Definition slice0 (n : nat) (s : jsstring) : jsstring := take n s.

(** [s.includes(c)] for a one-unit needle. *)
Definition includes (c : N) (s : jsstring) : bool := existsb (N.eqb c) s.

(** [toLowerCase] and [toUpperCase] on Basic Latin text (code units
    below 128): there the JavaScript functions map A-Z and a-z onto each
    other and change nothing else.  Beyond Basic Latin they map other
    letters too and may change the length of the text, which these
    definitions do not: they leave such code units alone.  A statement
    that names a case-mapped text is therefore stated for Basic Latin
    text; the others use of the two mappings only that they are
    functions of the text, and that they yield none of the five
    characters [sanitize] deletes. *)
Definition lower (c : N) : N := if ((65 <=? c) && (c <=? 90))%N then (c + 32)%N else c.
Definition upper (c : N) : N := if ((97 <=? c) && (c <=? 122))%N then (c - 32)%N else c.
Definition toLowerCase (s : jsstring) : jsstring := map lower s.
Definition toUpperCase (s : jsstring) : jsstring := map upper s.

(** ** Regular expressions of the validators

    Both expressions are anchored ([^...$], no [m] flag) sequences of
    atoms [X{n}] over three kinds of character class. *)
Inductive cclass : Type :=
  | Digit            (* \d *)
  | HexI             (* [0-9a-f] under the i flag *)
  | Chr (c : N).     (* a literal code unit *)

Definition in_class (k : cclass) (c : N) : bool :=
  match k with
  | Digit => ((48 <=? c) && (c <=? 57))%N
  | HexI => ((48 <=? c) && (c <=? 57) || (97 <=? c) && (c <=? 102)
             || (65 <=? c) && (c <=? 70))%N
  | Chr d => (c =? d)%N
  end.

(** Consume exactly [n] code units of class [k]. *)
Fixpoint eat (k : cclass) (n : nat) (s : jsstring) : option jsstring :=
  match n with
  | O => Some s
  | S n' =>
      match s with
      | c :: rest => if in_class k c then eat k n' rest else None
      | [] => None
      end
  end.

(** [/^p$/.test(s)]. *)
Fixpoint re_test (p : list (cclass * nat)) (s : jsstring) : bool :=
  match p with
  | [] => match s with [] => true | _ => false end
  | (k, n) :: p' =>
      match eat k n s with
      | Some rest => re_test p' rest
      | None => false
      end
  end.

Definition uuid_re : list (cclass * nat) :=
  [(HexI, 8); (Chr 45, 1); (HexI, 4); (Chr 45, 1); (HexI, 4); (Chr 45, 1);
   (HexI, 4); (Chr 45, 1); (HexI, 12)].

Definition phone_re : list (cclass * nat) := [(Digit, 10)].

(** ** Validators (identical in the three revisions) *)

Definition isUUID (v : jsval) : bool := re_test uuid_re (ToString v).

Definition isPhone (v : jsval) : bool := re_test phone_re (ToString v).

Definition isEmail (v : jsval) : bool :=
  match v with
  | JStr s => includes 64 s && (length s <=? 254)
  | _ => false
  end.

Definition sanitize (v : jsval) : jsstring :=
  slice0 500 (strip (trim (ToString v))).

(** ** Replies

    [res.json(obj)] answers with status 200 and the object;
    [res.status(n).json({ error: msg })] with status [n] and the message. *)
Inductive reply : Type :=
  | Json (fields : list (string * jsval))
  | Reject (status : Z) (error : list N).

Definition status_of (r : reply) : Z :=
  match r with
  | Json _ => 200
  | Reject n _ => n
  end.

(** ** Session store ([sessions], [requireAuth], login and logout)

    The identity snapshot kept for a token.  [role] is the text of the
    Members row; the first revision stores no role and never reads it. *)
Record identity : Type := Identity {
  user_id : list N;
  user_name : list N;
  user_email : list N;
  user_role : list N
}.

(** The process: a clock in milliseconds, the [sessions] map and the
    timers registered by [setTimeout] (due time and captured token). *)
Record Proc : Type := MkProc {
  clock : Z;
  sessions : gmap (list N) identity;
  timers : list (Z * list N)
}.

(** [12 * 60 * 60 * 1000] *)
Definition TTL : Z := 12 * 60 * 60 * 1000.

(** [sessions.set(token, ident); setTimeout(() => sessions.delete(token), TTL)] *)
Definition session_create (token : list N) (ident : identity) (p : Proc) : Proc :=
  {| clock := clock p;
     sessions := <[token := ident]> (sessions p);
     timers := timers p ++ [((clock p + TTL)%Z, token)] |}.

(** [requireAuth]: the [x-session] header is absent ([JUndefined]) or a
    string.  Either the reply 401 that ends the request, or [req.user]
    for the route behind it. *)
Definition requireAuth (header : jsval) (p : Proc) : reply + identity :=
  match header with
  | JStr token =>
      if truthy header
      then match sessions p !! token with
           | Some user => inr user
           | None => inl (Reject 401 (lit "Not logged in."))
           end
      else inl (Reject 401 (lit "Not logged in."))
  | _ => inl (Reject 401 (lit "Not logged in."))
  end.

(** POST /api/login.  [found] is the outcome of the Members query
    ([None] for [error || !data]) and [token] the value of [makeToken()]. *)
Definition post_login (body : gmap string jsval) (found : option identity)
    (token : list N) (p : Proc) : reply * Proc :=
  let email := default JUndefined (body !! "email"%string) in
  let password := default JUndefined (body !! "password"%string) in
  if negb (truthy email) || negb (truthy password)
  then (Reject 400 (lit "Missing fields."), p)
  else if negb (isEmail email) then (Reject 400 (lit "Invalid email."), p)
  else match found with
       | None => (Reject 401 (lit "Invalid email or password."), p)
       | Some data =>
           (Json [("token"%string, JStr token); ("name"%string, JStr (user_name data));
                  ("role"%string, JStr (user_role data))],
            session_create token data p)
       end.

(** POST /api/logout, behind [requireAuth]. *)
Definition post_logout (header : jsval) (p : Proc) : reply * Proc :=
  match requireAuth header p with
  | inl refusal => (refusal, p)
  | inr _ =>
      (Json [("ok"%string, JBool true)],
       {| clock := clock p;
          sessions := delete (ToString header) (sessions p);
          timers := timers p |})
  end.

(** A timer callback at time [now]: [sessions.delete(token)] if due. *)
Definition expire (now : Z) (m : gmap (list N) identity) (t : Z * list N)
    : gmap (list N) identity :=
  if (fst t <=? now)%Z then delete (snd t) m else m.

(** The event loop reaching time [now]: every timer that is due runs its
    callback and is discarded. *)
Definition fire (now : Z) (p : Proc) : Proc :=
  {| clock := now;
     sessions := foldl (expire now) (sessions p) (timers p);
     timers := filter (fun t => (now < fst t)%Z) (timers p) |}.

(** What can happen to the process between two observations. *)
Inductive step : Type :=
  | Login (body : gmap string jsval) (found : option identity) (token : list N)
  | Logout (header : jsval)
  | Elapse (ms : Z).

Definition do_step (e : step) (p : Proc) : Proc :=
  match e with
  | Login body found token => snd (post_login body found token p)
  | Logout header => snd (post_logout header p)
  | Elapse ms => fire (clock p + Z.max 0 ms)%Z p
  end.

Definition do_steps (es : list step) (p : Proc) : Proc := foldl (fun p e => do_step e p) p es.

(** ** Persistence gateway

    The tables the routes touch, with the columns they read or write.
    Identifiers are UUID texts; [cost] and [amount_paid] are JSON numbers
    as the client library returns and sends them. *)
Record Event : Type := MkEvent {
  ev_id : list N;
  ev_title : list N;
  ev_cost : jsval
}.

(** [st_code] is the [student_id] column of the multi-event revision
    (absent, hence [None], on rows written by the other two). *)
Record Student : Type := MkStudent {
  st_id : list N;
  st_code : option (list N);
  st_name : list N;
  st_phone : list N;
  st_email : list N
}.

Record Registration : Type := MkRegistration {
  rg_id : list N;
  rg_student : list N;
  rg_event : list N;
  rg_member : list N;
  rg_method : list N;
  rg_txn : jsval;
  rg_amount : jsval
}.

(** The object a route passes to [insert] or [update]: the properties of
    the source, with the values the route put there.  The gateway stores
    [event_id] and [payment_method] as text. *)
Record NewRegistration : Type := MkNewRegistration {
  student_id : list N;
  event_id : jsval;
  member_id : list N;
  payment_method : jsval;
  transaction_id : jsval;
  amount_paid : jsval
}.

Definition stored (rid : list N) (o : NewRegistration) : Registration :=
  {| rg_id := rid; rg_student := student_id o; rg_event := ToString (event_id o);
     rg_member := member_id o; rg_method := ToString (payment_method o);
     rg_txn := transaction_id o; rg_amount := amount_paid o |}.

(** The database.  [serial] feeds the generated identifiers.  Whether
    [Registrations.event_id] is checked against [Events] belongs to the
    deployed schema, which the server does not define: [event_fk] records
    it and every statement below holds for both settings. *)
Record Db : Type := MkDb {
  Events : list Event;
  Students : list Student;
  Registrations : list Registration;
  serial : N;
  event_fk : bool
}.

(** The error object of the client library. *)
Record PgError : Type := MkPgError {
  code : list N;
  message : list N
}.

Inductive result (A : Type) : Type :=
  | Data (a : A)
  | Error (e : PgError).
Arguments Data {A} a.
Arguments Error {A} e.

Definition unique_violation : PgError :=
  {| code := lit "23505";
     message := lit "duplicate key value violates unique constraint" |}.

Definition fk_violation : PgError :=
  {| code := lit "23503";
     message := lit "insert or update on table violates foreign key constraint" |}.

(** What [.single()] and [.maybeSingle()] report on a wrong row count. *)
Definition not_single : PgError :=
  {| code := lit "PGRST116";
     message := lit "JSON object requested, multiple (or no) rows returned" |}.

(** Sixteen hexadecimal digits of a counter, as a generated identifier. *)
Definition hex_digit (d : N) : N := (if d <? 10 then 48 + d else 87 + d)%N.

Fixpoint hex (width : nat) (n : N) : list N :=
  match width with
  | O => []
  | S w => hex w (n / 16)%N ++ [hex_digit (n mod 16)%N]
  end.

Definition gen_id (n : N) : list N :=
  lit "00000000-0000-4000-8000-" ++ hex 12 n.

Definition with_students (l : list Student) (db : Db) : Db :=
  {| Events := Events db; Students := l; Registrations := Registrations db;
     serial := serial db; event_fk := event_fk db |}.

Definition with_registrations (l : list Registration) (db : Db) : Db :=
  {| Events := Events db; Students := Students db; Registrations := l;
     serial := serial db; event_fk := event_fk db |}.

Definition bump (db : Db) : Db :=
  {| Events := Events db; Students := Students db; Registrations := Registrations db;
     serial := N.succ (serial db); event_fk := event_fk db |}.

(** Modelled from the spec: the uniqueness constraints of the Students
    table (phone, email and the external student code are each unique),
    which the schema declares and the routes only observe as error
    23505. *)
Definition students_unique (l : list Student) : Prop :=
  NoDup (map st_phone l) /\ NoDup (map st_email l)
  /\ NoDup (omap st_code l).

(** Modelled from the spec: at most one Registration per (student, event)
    pair, a uniqueness constraint of the persistence layer. *)
Definition pair_of (r : Registration) : list N * list N := (rg_student r, rg_event r).

Definition registrations_unique (l : list Registration) : Prop :=
  NoDup (map pair_of l).

Definition event_exists (db : Db) (eid : list N) : Prop :=
  eid ∈ map ev_id (Events db).

#[global] Instance event_exists_dec db eid : Decision (event_exists db eid).
Proof. unfold event_exists. apply _. Defined.

(** The referential check on a set of rows, when the schema has it. *)
Definition events_known (db : Db) (l : list Registration) : Prop :=
  if event_fk db then Forall (fun r => event_exists db (rg_event r)) l else True.

#[global] Instance events_known_dec db l : Decision (events_known db l).
Proof. unfold events_known, event_exists. destruct (event_fk db); apply _. Defined.

(** [from('Events').select('cost').eq('id', id).single()] *)
Definition events_cost (eid : list N) (db : Db) : result jsval * Db :=
  match filter (fun e => ev_id e = eid) (Events db) with
  | [e] => (Data (ev_cost e), db)
  | _ => (Error not_single, db)
  end.

(** [from('Events').select('id, cost').in('id', ids)] *)
Definition events_in (eids : list (list N)) (db : Db) : result (list Event) * Db :=
  (Data (filter (fun e => ev_id e ∈ eids) (Events db)), db).

(** [.maybeSingle()] over the students selected by [P]. *)
Definition students_maybe (P : Student -> Prop) `{!∀ s, Decision (P s)}
    (db : Db) : result (option Student) * Db :=
  match filter P (Students db) with
  | [] => (Data None, db)
  | [s] => (Data (Some s), db)
  | _ => (Error not_single, db)
  end.

(** [from('Students').update(changes).eq('id', sid)] *)
Definition students_update (sid : list N) (changes : Student -> Student)
    (db : Db) : result unit * Db :=
  let l := map (fun s => if decide (st_id s = sid) then changes s else s) (Students db) in
  if decide (students_unique l)
  then (Data (), with_students l db)
  else (Error unique_violation, db).

(** [from('Students').insert(row).select().single()]: the identifier is
    generated, the row is returned. *)
Definition students_insert (code : option (list N)) (name email phone : list N)
    (db : Db) : result Student * Db :=
  let row := {| st_id := gen_id (serial db); st_code := code; st_name := name;
                st_phone := phone; st_email := email |} in
  if decide (students_unique (Students db ++ [row]))
  then (Data row, bump (with_students (Students db ++ [row]) db))
  else (Error unique_violation, db).

(** [from('Registrations').select('event_id').eq('student_id', sid).in('event_id', ids)] *)
Definition registrations_of (sid : list N) (eids : list (list N))
    (db : Db) : result (list (list N)) * Db :=
  (Data (map rg_event
           (filter (fun r => rg_student r = sid /\ rg_event r ∈ eids) (Registrations db))),
   db).

(** Identifiers for a batch of new rows, in order. *)
Fixpoint number (n : N) (rows : list NewRegistration) : list Registration :=
  match rows with
  | [] => []
  | o :: rest => stored (gen_id n) o :: number (N.succ n) rest
  end.

(** [from('Registrations').insert(rows)]: one statement, so either every
    row is stored or none is. *)
Definition registrations_insert (rows : list NewRegistration) (db : Db) : result unit * Db :=
  let l := Registrations db ++ number (serial db) rows in
  if decide (registrations_unique l)
  then if decide (events_known db (number (serial db) rows))
       then (Data (),
             {| Events := Events db; Students := Students db; Registrations := l;
                serial := (serial db + N.of_nat (length rows))%N;
                event_fk := event_fk db |})
       else (Error fk_violation, db)
  else (Error unique_violation, db).

(** [from('Registrations').select('member_id').eq('id', id).single()] *)
Definition registration_owner (rid : list N) (db : Db) : result (list N) * Db :=
  match filter (fun r => rg_id r = rid) (Registrations db) with
  | [r] => (Data (rg_member r), db)
  | _ => (Error not_single, db)
  end.

(** [from('Registrations').update(changes).eq('id', id)] *)
Definition registrations_update (rid : list N) (changes : Registration -> Registration)
    (db : Db) : result unit * Db :=
  let l := map (fun r => if decide (rg_id r = rid) then changes r else r) (Registrations db) in
  if decide (registrations_unique l)
  then if decide (events_known db (filter (fun r => rg_id r = rid) l))
       then (Data (), with_registrations l db)
       else (Error fk_violation, db)
  else (Error unique_violation, db).

(** [from('Registrations').delete().eq('id', id)] *)
Definition registrations_delete (rid : list N) (db : Db) : result unit * Db :=
  (Data (), with_registrations (filter (fun r => rg_id r <> rid) (Registrations db)) db).

(** ** Route handlers as programs

    A handler is a tree of database calls: [Await op k] is
    [const x = await op; k x].  Running it threads the database through
    the calls; [env n] is what the other requests do to the database
    while the handler is suspended before its [n]-th call. *)
Inductive Prog (A : Type) : Type :=
  | Ret (a : A)
  | Await {X : Type} (op : Db -> X * Db) (k : X -> Prog A).
Arguments Ret {A} a.
Arguments Await {A X} op k.

Fixpoint run {A : Type} (env : nat -> Db -> Db) (n : nat) (p : Prog A) (db : Db) : A * Db :=
  match p with
  | Ret a => (a, db)
  | Await op k => let '(x, db') := op (env n db) in run env (S n) (k x) db'
  end.

(** No other request runs. *)
Definition alone : nat -> Db -> Db := fun _ db => db.

Definition exec {A : Type} (p : Prog A) (db : Db) : A * Db := run alone 0 p db.

(** One other request commits [f] while the handler waits before its
    [k]-th call. *)
Definition racing (k : nat) (f : Db -> Db) : nat -> Db -> Db :=
  fun n db => if Nat.eqb n k then f db else db.

Notation "'let!' x ':=' op 'in' k" := (Await op (fun x => k))
  (at level 10, x pattern, op at level 99, k at level 200, only parsing).

Fixpoint bind {A B : Type} (p : Prog A) (f : A -> Prog B) : Prog B :=
  match p with
  | Ret a => f a
  | Await op k => Await op (fun x => bind (k x) f)
  end.

(** A block that either ends the request with a reply ([return
    res.status(..)...]) or falls through with a value. *)
Definition or_return {A : Type} (p : Prog (reply + A)) (k : A -> Prog reply) : Prog reply :=
  bind p (fun r => match r with inl refusal => Ret refusal | inr a => k a end).

Notation "'let?' x ':=' p 'in' k" := (or_return p (fun x => k))
  (at level 10, x pattern, p at level 99, k at level 200, only parsing).

(** ** Pieces shared by the routes *)

(** [req.body.k] *)
Definition field (body : gmap string jsval) (k : string) : jsval :=
  default JUndefined (body !! k).

(** [v === 'text'] *)
Definition is_text (t : string) (v : jsval) : bool :=
  match v with
  | JStr s => bool_decide (s = lit t)
  | _ => false
  end.

(** [['cash','upi'].includes(v)] *)
Definition method_listed (v : jsval) : bool := is_text "cash" v || is_text "upi" v.

(** [transaction_id ? sanitize(transaction_id) : null] *)
Definition clean_txn (v : jsval) : jsval :=
  if truthy v then JStr (sanitize v) else JNull.

(** [payment_method === 'upi' ? cleanTxn : null] *)
Definition txn_for (method cleanTxn : jsval) : jsval :=
  if is_text "upi" method then cleanTxn else JNull.

(** The object of [update({ name, email })] on Students. *)
Definition set_name_email (name email : list N) (s : Student) : Student :=
  {| st_id := st_id s; st_code := st_code s; st_name := name;
     st_phone := st_phone s; st_email := email |}.

(** The object of [update({ name, phone_number, email })] on Students. *)
Definition set_contact (name phone email : list N) (s : Student) : Student :=
  {| st_id := st_id s; st_code := st_code s; st_name := name;
     st_phone := phone; st_email := email |}.

Definition ok_true : reply := Json [("ok"%string, JBool true)].

(** ** [server.js] *)
Module Portal.

(** The early returns of POST /api/register, in order; [None] when the
    request passes them all. *)
Definition register_checks
    (name phone email event_id payment_method transaction_id : jsval) : option reply :=
  if negb (truthy name) || negb (truthy phone) || negb (truthy email)
     || negb (truthy event_id) || negb (truthy payment_method)
  then Some (Reject 400 (lit "Missing required fields."))
  else if negb (isPhone phone) then Some (Reject 400 (lit "Phone must be exactly 10 digits."))
  else if negb (isEmail email) then Some (Reject 400 (lit "Invalid email address."))
  else if negb (isUUID event_id) then Some (Reject 400 (lit "Invalid event."))
  else if negb (method_listed payment_method)
  then Some (Reject 400 (lit "Invalid payment method."))
  else if is_text "upi" payment_method && negb (truthy transaction_id)
  then Some (Reject 400 (lit "UPI transaction ID required."))
  else None.

(** The object POST /api/register inserts. *)
Definition new_row (user : identity)
    (event_id payment_method transaction_id cost : jsval) (studentId : list N)
    : NewRegistration :=
  let cleanTxn := clean_txn transaction_id in
  {| student_id := studentId;
     event_id := event_id;
     member_id := user_id user;
     payment_method := payment_method;
     transaction_id := txn_for payment_method cleanTxn;
     amount_paid := cost |}.

(** The insert that ends POST /api/register and the reply it leads to. *)
Definition register_insert (user : identity)
    (event_id payment_method transaction_id cost : jsval) (studentId : list N)
    : Prog reply :=
  let! regErr := registrations_insert
      [new_row user event_id payment_method transaction_id cost studentId] in
  match regErr with
  | Error e =>
      if decide (code e = lit "23505")
      then Ret (Reject 400 (lit "Student already registered for this event."))
      else Ret (Reject 500 (lit "Failed to create registration."))
  | Data _ => Ret ok_true
  end.

(** The student block: [studentId] for the phone, found (and updated)
    or inserted. *)
Definition upsert_student (cleanName cleanEmail phone : list N) : Prog (reply + list N) :=
  let! existing := students_maybe (fun s => st_phone s = phone) in
  match existing with
  | Data (Some st) =>
      let! _ := students_update (st_id st) (set_name_email cleanName cleanEmail) in
      Ret (inr (st_id st))
  | _ =>
      let! inserted := students_insert None cleanName cleanEmail phone in
      match inserted with
      | Error stuErr =>
          if decide (code stuErr = lit "23505")
          then Ret (inl (Reject 400 (lit "Email already used by another student.")))
          else Ret (inl (Reject 500 (lit "Failed to save student.")))
      | Data newStu => Ret (inr (st_id newStu))
      end
  end.

(** The body of the route, on the destructured request body. *)
Definition register (user : identity)
    (name phone email event_id payment_method transaction_id : jsval) : Prog reply :=
  match register_checks name phone email event_id payment_method transaction_id with
  | Some refusal => Ret refusal
  | None =>
      let cleanName := sanitize name in
      let cleanEmail := toLowerCase (sanitize email) in
      let! ev := events_cost (ToString event_id) in
      match ev with
      | Error _ => Ret (Reject 400 (lit "Event not found."))
      | Data cost =>
          let? studentId := upsert_student cleanName cleanEmail (ToString phone) in
          register_insert user event_id payment_method transaction_id cost studentId
      end
  end.

(** POST /api/register, behind [requireAuth]: the six properties the
    route takes from [req.body]. *)
Definition post_register (user : identity) (body : gmap string jsval) : Prog reply :=
  register user (field body "name") (field body "phone") (field body "email")
           (field body "event_id") (field body "payment_method")
           (field body "transaction_id").

(** The early return, if any, that a request body runs into. *)
Definition register_refusal (body : gmap string jsval) : option reply :=
  register_checks (field body "name") (field body "phone") (field body "email")
                  (field body "event_id") (field body "payment_method")
                  (field body "transaction_id").

(** The ownership test of PUT and DELETE /api/sales/:id; [true] when the
    request is let through. *)
Definition canMutate (user : identity) (owner : list N) : bool :=
  negb (negb (bool_decide (user_role user = lit "admin"))
        && negb (bool_decide (owner = user_id user))).

Definition sales_checks (rid : list N)
    (student_id name phone email event_id payment_method transaction_id : jsval)
    : option reply :=
  if negb (isUUID (JStr rid)) || negb (isUUID (JStr (ToString student_id)))
     || negb (isUUID (JStr (ToString event_id)))
  then Some (Reject 400 (lit "Invalid IDs."))
  else if negb (truthy name) || negb (truthy phone) || negb (truthy email)
          || negb (truthy payment_method)
  then Some (Reject 400 (lit "Missing fields."))
  else if negb (isPhone phone) then Some (Reject 400 (lit "Phone must be 10 digits."))
  else if negb (isEmail email) then Some (Reject 400 (lit "Invalid email."))
  else if negb (method_listed payment_method)
  then Some (Reject 400 (lit "Invalid payment method."))
  else if is_text "upi" payment_method && negb (truthy transaction_id)
  then Some (Reject 400 (lit "UPI transaction ID required."))
  else None.

Definition sales_refusal (rid : list N) (body : gmap string jsval) : option reply :=
  sales_checks rid (field body "student_id") (field body "name") (field body "phone")
               (field body "email") (field body "event_id") (field body "payment_method")
               (field body "transaction_id").

(** The changes PUT /api/sales/:id writes to the registration. *)
Definition edit_registration (event_id payment_method transaction_id cost : jsval)
    (r : Registration) : Registration :=
  {| rg_id := rg_id r; rg_student := rg_student r;
     rg_event := ToString event_id;
     rg_member := rg_member r;
     rg_method := ToString payment_method;
     rg_txn := txn_for payment_method (clean_txn transaction_id);
     rg_amount := cost |}.

Definition edit (user : identity) (rid : list N)
    (student_id name phone email event_id payment_method transaction_id : jsval)
    : Prog reply :=
  match sales_checks rid student_id name phone email event_id payment_method
                     transaction_id with
  | Some refusal => Ret refusal
  | None =>
      let! check := registration_owner rid in
      match check with
      | Error _ => Ret (Reject 404 (lit "Registration not found."))
      | Data owner =>
          if negb (canMutate user owner) then Ret (Reject 403 (lit "Not authorized."))
          else
            let! ev := events_cost (ToString event_id) in
            match ev with
            | Error _ => Ret (Reject 400 (lit "Event not found."))
            | Data cost =>
                let cleanName := sanitize name in
                let cleanEmail := toLowerCase (sanitize email) in
                let! _ := students_update (ToString student_id)
                    (set_contact cleanName (ToString phone) cleanEmail) in
                let! regErr := registrations_update rid
                    (edit_registration event_id payment_method transaction_id cost) in
                match regErr with
                | Error e => Ret (Reject 500 (message e))
                | Data _ => Ret ok_true
                end
            end
      end
  end.

(** PUT /api/sales/:id, behind [requireAuth]. *)
Definition put_sales (user : identity) (rid : list N) (body : gmap string jsval)
    : Prog reply :=
  edit user rid (field body "student_id") (field body "name") (field body "phone")
       (field body "email") (field body "event_id") (field body "payment_method")
       (field body "transaction_id").

(** DELETE /api/sales/:id, behind [requireAuth]. *)
Definition delete_sales (user : identity) (rid : list N) : Prog reply :=
  if negb (isUUID (JStr rid)) then Ret (Reject 400 (lit "Invalid ID."))
  else
    let! check := registration_owner rid in
    match check with
    | Error _ => Ret (Reject 404 (lit "Not found."))
    | Data owner =>
        if negb (canMutate user owner) then Ret (Reject 403 (lit "Not authorized."))
        else
          let! deleted := registrations_delete rid in
          match deleted with
          | Error e => Ret (Reject 500 (message e))
          | Data _ => Ret ok_true
          end
    end.

End Portal.

(** ** The multi-event revision *)
Module Batch.

(** [event_ids?.length], truthy or not. *)
Definition has_length (v : jsval) : bool :=
  match v with
  | JArr l => negb (Nat.eqb (length l) 0)
  | JStr s => negb (Nat.eqb (length s) 0)
  | _ => false
  end.

(** The elements of [v] when [Array.isArray(v)]. *)
Definition elements (v : jsval) : option (list jsval) :=
  match v with
  | JArr l => Some l
  | _ => None
  end.

Definition register_checks
    (student_id name phone email event_ids payment_method transaction_id : jsval)
    : option reply :=
  if negb (truthy student_id) || negb (truthy name) || negb (truthy phone)
     || negb (truthy email) || negb (has_length event_ids) || negb (truthy payment_method)
  then Some (Reject 400 (lit "Missing required fields."))
  else if negb (isPhone phone) then Some (Reject 400 (lit "Phone must be 10 digits."))
  else if negb (isEmail email) then Some (Reject 400 (lit "Invalid email."))
  else if match elements event_ids with
          | None => true
          | Some ids => existsb (fun i => negb (isUUID i)) ids
          end
  then Some (Reject 400 (lit "Invalid event selection."))
  else if negb (method_listed payment_method)
  then Some (Reject 400 (lit "Invalid payment method."))
  else if is_text "upi" payment_method && negb (truthy transaction_id)
  then Some (Reject 400 (lit "UPI transaction ID required."))
  else None.

Definition register_refusal (body : gmap string jsval) : option reply :=
  register_checks (field body "student_id") (field body "name") (field body "phone")
                  (field body "email") (field body "event_ids")
                  (field body "payment_method") (field body "transaction_id").

(** [alreadyRegistered.has(eid)]: only a string can equal a stored id. *)
Definition has (registered : gset (list N)) (eid : jsval) : bool :=
  match eid with
  | JStr s => bool_decide (s ∈ registered)
  | _ => false
  end.

(** [Object.fromEntries(eventsData.map(e => [e.id, e.cost]))]: a later
    entry replaces an earlier one with the same key. *)
Definition eventMap (eventsData : list Event) : gmap (list N) jsval :=
  foldl (fun m e => <[ev_id e := ev_cost e]> m) ∅ eventsData.

(** [eventMap[eid]] *)
Definition cost_of (eventsData : list Event) (eid : jsval) : jsval :=
  default JUndefined (eventMap eventsData !! ToString eid).

(** The objects built for the events not yet registered. *)
Definition new_rows (user : identity) (payment_method transaction_id : jsval)
    (eventsData : list Event) (studentDbId : list N) (newEventIds : list jsval)
    : list NewRegistration :=
  map (fun eid =>
         {| student_id := studentDbId;
            event_id := eid;
            member_id := user_id user;
            payment_method := payment_method;
            transaction_id := txn_for payment_method (clean_txn transaction_id);
            amount_paid := cost_of eventsData eid |})
      newEventIds.

(** [new Set((existingRegs || []).map(r => r.event_id))] *)
Definition alreadyRegistered (existingRegs : result (list (list N))) : gset (list N) :=
  list_to_set (match existingRegs with Data l => l | Error _ => [] end).

(** [event_ids.filter(eid => !alreadyRegistered.has(eid))] *)
Definition newEventIds (registered : gset (list N)) (event_ids : list jsval) : list jsval :=
  List.filter (fun eid => negb (has registered eid)) event_ids.

(** From the duplicate check to the reply. *)
Definition register_new (user : identity) (event_ids : list jsval)
    (payment_method transaction_id : jsval)
    (eventsData : list Event) (studentDbId : list N) : Prog reply :=
  let! existingRegs := registrations_of studentDbId (map ToString event_ids) in
  let registered := alreadyRegistered existingRegs in
  let fresh := newEventIds registered event_ids in
  if Nat.eqb (length fresh) 0
  then Ret (Reject 400 (lit "Student is already registered for all selected events."))
  else
    let registrations :=
      new_rows user payment_method transaction_id eventsData studentDbId fresh in
    let! regErr := registrations_insert registrations in
    match regErr with
    | Error e => Ret (Reject 500 (lit "Failed to create registration: " ++ message e))
    | Data _ =>
        let skipped := size registered in
        Ret (Json [("ok"%string, JBool true);
                   ("count"%string, JNum (Z.of_nat (length registrations)));
                   ("skipped"%string, JNum (Z.of_nat skipped))])
    end.

(** The student block: [studentDbId] for the student code, found (and
    updated) or inserted. *)
Definition upsert_student (cleanStudId cleanName cleanEmail phone : list N)
    : Prog (reply + list N) :=
  let! existing := students_maybe (fun s => st_code s = Some cleanStudId) in
  match existing with
  | Data (Some st) =>
      let! _ := students_update (st_id st) (set_contact cleanName phone cleanEmail) in
      Ret (inr (st_id st))
  | _ =>
      let! inserted := students_insert (Some cleanStudId) cleanName cleanEmail phone in
      match inserted with
      | Error stuErr =>
          if decide (code stuErr = lit "23505")
          then Ret (inl (Reject 400 (lit "Phone or email already used by another student.")))
          else Ret (inl (Reject 500 (lit "Failed to save student.")))
      | Data newStu => Ret (inr (st_id newStu))
      end
  end.

(** The body of the route, on the destructured request body. *)
Definition register (user : identity)
    (student_id name phone email event_ids payment_method transaction_id : jsval)
    : Prog reply :=
  match register_checks student_id name phone email event_ids payment_method
                        transaction_id with
  | Some refusal => Ret refusal
  | None =>
      let ids := default [] (elements event_ids) in
      let cleanName := sanitize name in
      let cleanEmail := toLowerCase (sanitize email) in
      let cleanStudId := toUpperCase (sanitize student_id) in
      let! evs := events_in (map ToString ids) in
      match evs with
      | Error _ => Ret (Reject 400 (lit "One or more events not found."))
      | Data eventsData =>
          if Nat.eqb (length eventsData) 0
          then Ret (Reject 400 (lit "One or more events not found."))
          else
            let? studentDbId :=
              upsert_student cleanStudId cleanName cleanEmail (ToString phone) in
            register_new user ids payment_method transaction_id eventsData studentDbId
      end
  end.

(** The student block as the route runs it on a body. *)
Definition upsert_of (body : gmap string jsval) : Prog (reply + list N) :=
  upsert_student (toUpperCase (sanitize (field body "student_id")))
                 (sanitize (field body "name"))
                 (toLowerCase (sanitize (field body "email")))
                 (ToString (field body "phone")).

(** POST /api/register, several events in one call. *)
Definition post_register (user : identity) (body : gmap string jsval) : Prog reply :=
  register user (field body "student_id") (field body "name") (field body "phone")
           (field body "email") (field body "event_ids") (field body "payment_method")
           (field body "transaction_id").

End Batch.

(** ** The first revision: no roles, a member edits only what it sold *)
Module First.

(** [req.sp], the snapshot this revision keeps for a token. *)
Record member : Type := Member {
  sp_id : list N;
  sp_name : list N;
  sp_email : list N
}.

Definition sales_checks (rid : list N)
    (student_id name phone email event_id payment_method transaction_id : jsval)
    : option reply :=
  if negb (truthy name) || negb (truthy phone) || negb (truthy email)
     || negb (truthy event_id) || negb (truthy payment_method)
  then Some (Reject 400 (lit "Missing required fields."))
  else if negb (isUUID (JStr rid)) then Some (Reject 400 (lit "Invalid registration ID."))
  else if negb (isUUID (JStr (ToString student_id)))
  then Some (Reject 400 (lit "Invalid student ID."))
  else if negb (isPhone (JStr (ToString phone)))
  then Some (Reject 400 (lit "Phone must be exactly 10 digits."))
  else if negb (isEmail email) then Some (Reject 400 (lit "Invalid email address."))
  else if negb (isUUID (JStr (ToString event_id))) then Some (Reject 400 (lit "Invalid event."))
  else if negb (method_listed payment_method)
  then Some (Reject 400 (lit "Invalid payment method."))
  else if is_text "upi" payment_method && negb (truthy transaction_id)
  then Some (Reject 400 (lit "UPI transaction ID is required."))
  else None.

Definition sales_refusal (rid : list N) (body : gmap string jsval) : option reply :=
  sales_checks rid (field body "student_id") (field body "name") (field body "phone")
               (field body "email") (field body "event_id") (field body "payment_method")
               (field body "transaction_id").

(** [!check || check.member_id !== req.sp.id], negated. *)
Definition owns (sp : member) (check : result (list N)) : bool :=
  match check with
  | Data owner => bool_decide (owner = sp_id sp)
  | Error _ => false
  end.

Definition edit (sp : member) (rid : list N)
    (student_id name phone email event_id payment_method transaction_id : jsval)
    : Prog reply :=
  match sales_checks rid student_id name phone email event_id payment_method
                     transaction_id with
  | Some refusal => Ret refusal
  | None =>
      let! check := registration_owner rid in
      if negb (owns sp check) then Ret (Reject 403 (lit "Not authorized."))
      else
        let cleanName := sanitize name in
        let cleanEmail := toLowerCase (sanitize email) in
        let! ev := events_cost (ToString event_id) in
        match ev with
        | Error _ => Ret (Reject 400 (lit "Event not found."))
        | Data cost =>
            let! stuErr := students_update (ToString student_id)
                (set_contact cleanName (ToString phone) cleanEmail) in
            match stuErr with
            | Error _ => Ret (Reject 500 (lit "Failed to update student."))
            | Data _ =>
                let! regErr := registrations_update rid
                    (Portal.edit_registration event_id payment_method transaction_id cost) in
                match regErr with
                | Error _ => Ret (Reject 500 (lit "Failed to update registration."))
                | Data _ => Ret ok_true
                end
            end
        end
  end.

(** PUT /api/sales/:id *)
Definition put_sales (sp : member) (rid : list N) (body : gmap string jsval) : Prog reply :=
  edit sp rid (field body "student_id") (field body "name") (field body "phone")
       (field body "email") (field body "event_id") (field body "payment_method")
       (field body "transaction_id").

(** DELETE /api/sales/:id *)
Definition delete_sales (sp : member) (rid : list N) : Prog reply :=
  if negb (isUUID (JStr rid)) then Ret (Reject 400 (lit "Invalid ID."))
  else
    let! check := registration_owner rid in
    if negb (owns sp check) then Ret (Reject 403 (lit "Not authorized."))
    else
      let! deleted := registrations_delete rid in
      match deleted with
      | Error _ => Ret (Reject 500 (lit "Failed to delete."))
      | Data _ => Ret ok_true
      end.

End First.

(** ** Vocabulary of the statements *)

(** A string none of whose code units [strip] would delete. *)
Definition harmless (s : list N) : Prop := Forall (fun c => dangerous c = false) s.

(** The first code unit, if any, is not white space. *)
Definition starts_clean (s : list N) : Prop :=
  match s with
  | [] => True
  | c :: _ => is_ws c = false
  end.

(** A decimal digit. *)
Definition is_digit (c : N) : Prop := (48 <= c <= 57)%N.

(** The steps that neither issue [tok] again nor log it out. *)
Definition leaves_alone (tok : list N) (e : step) : Prop :=
  match e with
  | Login _ _ token => token <> tok
  | Logout header => header <> JStr tok
  | Elapse _ => True
  end.

(** What the store holds for a token issued with expiry time [due]. *)
Definition live_until (tok : list N) (ident : identity) (due : Z) (p : Proc) : Prop :=
  ((clock p < due)%Z ->
     sessions p !! tok = Some ident
     /\ (due, tok) ∈ timers p
     /\ forall d, (d, tok) ∈ timers p -> d = due)
  /\ ((due <= clock p)%Z -> sessions p !! tok = None).

(** A call that leaves the Events and Registrations tables and the
    schema as they are (it may write Students). *)
Definition keeps_sales (db db' : Db) : Prop :=
  Events db' = Events db /\ Registrations db' = Registrations db
  /\ event_fk db' = event_fk db.

(** The rule of C10 on a stored row. *)
Definition txn_rule (r : Registration) : Prop :=
  (rg_method r = lit "cash" -> rg_txn r = JNull)
  /\ (rg_txn r <> JNull -> rg_method r = lit "upi").

(** The keys POST /api/register takes from the body, in each revision. *)
Definition portal_keys : list string :=
  ["name"; "phone"; "email"; "event_id"; "payment_method"; "transaction_id"]%string.

Definition batch_keys : list string :=
  ["student_id"; "name"; "phone"; "email"; "event_ids"; "payment_method";
   "transaction_id"]%string.

(** The student [sid] holds a registration for event [e]. *)
Definition registered_for (db : Db) (sid e : list N) : Prop :=
  (sid, e) ∈ map pair_of (Registrations db).

#[global] Instance registered_for_dec db sid e : Decision (registered_for db sid e).
Proof. unfold registered_for. apply _. Defined.

(** ** A small deployment, for concrete runs *)
Module Sample.

Definition alice : identity :=
  {| user_id := lit "11111111-1111-4111-8111-111111111111"; user_name := lit "Alice";
     user_email := lit "alice@club.org"; user_role := lit "member" |}.

Definition bob : identity :=
  {| user_id := lit "22222222-2222-4222-8222-222222222222"; user_name := lit "Bob";
     user_email := lit "bob@club.org"; user_role := lit "member" |}.

Definition root : identity :=
  {| user_id := lit "33333333-3333-4333-8333-333333333333"; user_name := lit "Root";
     user_email := lit "root@club.org"; user_role := lit "admin" |}.

Definition quiz : list N := lit "aaaaaaaa-aaaa-4aaa-8aaa-aaaaaaaaaaa1".
Definition dance : list N := lit "aaaaaaaa-aaaa-4aaa-8aaa-aaaaaaaaaaa2".
(** An identifier that no event carries. *)
Definition ghost : list N := lit "aaaaaaaa-aaaa-4aaa-8aaa-aaaaaaaaaaa3".

Definition events : list Event :=
  [ {| ev_id := quiz; ev_title := lit "Quiz"; ev_cost := JNum 100 |};
    {| ev_id := dance; ev_title := lit "Dance"; ev_cost := JNum 250 |} ].

(** No student, no registration yet. *)
Definition fresh_db (fk : bool) : Db :=
  {| Events := events; Students := []; Registrations := []; serial := 0; event_fk := fk |}.

Definition asha : Student :=
  {| st_id := gen_id 0; st_code := Some (lit "S1"); st_name := lit "Asha";
     st_phone := lit "9876543210"; st_email := lit "asha@mail.in" |}.

(** Asha is known and holds no registration. *)
Definition known_db (fk : bool) : Db :=
  {| Events := events; Students := [asha]; Registrations := []; serial := 1;
     event_fk := fk |}.

(** Asha, registered for the quiz by Bob. *)
Definition quiz_row : NewRegistration :=
  {| student_id := gen_id 0; event_id := JStr quiz; member_id := user_id bob;
     payment_method := JStr (lit "cash"); transaction_id := JNull;
     amount_paid := JNum 100 |}.

Definition sold_db (fk : bool) : Db := snd (registrations_insert [quiz_row] (known_db fk)).

(** The body of a single-event request; [extra] is whatever else the
    client chose to send. *)
Definition single_body (eid : list N) (method : string) (txn : jsval)
    (extra : list (string * jsval)) : gmap string jsval :=
  list_to_map
    ([("name", JStr (lit "Asha")); ("phone", JStr (lit "9876543210"));
      ("email", JStr (lit "asha@mail.in")); ("event_id", JStr eid);
      ("payment_method", JStr (lit method)); ("transaction_id", txn)]%string ++ extra).

(** The body of an edit of one of Asha's registrations. *)
Definition edit_body (eid : list N) (method : string) (txn : jsval) : gmap string jsval :=
  list_to_map
    [("student_id", JStr (gen_id 0)); ("name", JStr (lit "Asha"));
     ("phone", JStr (lit "9876543210")); ("email", JStr (lit "asha@mail.in"));
     ("event_id", JStr eid); ("payment_method", JStr (lit method));
     ("transaction_id", txn)]%string.

(** The body of a batch request for Asha. *)
Definition batch_body (ids : list jsval) (method : string) (txn : jsval)
    : gmap string jsval :=
  list_to_map
    [("student_id", JStr (lit "s1")); ("name", JStr (lit "Asha"));
     ("phone", JStr (lit "9876543210")); ("email", JStr (lit "asha@mail.in"));
     ("event_ids", JArr ids); ("payment_method", JStr (lit method));
     ("transaction_id", txn)]%string.

(** A concurrent request that registers Asha for the quiz. *)
Definition rival (db : Db) : Db := snd (registrations_insert [quiz_row] db).

(** An idle process at time 0. *)
Definition idle : Proc := {| clock := 0; sessions := ∅; timers := [] |}.

End Sample.

(** ** More of the routes *)

(** [requireAdmin]: the reply 403 that ends the request, if any. *)
Definition requireAdmin (user : identity) : option reply :=
  if bool_decide (user_role user = lit "admin") then None
  else Some (Reject 403 (lit "Admin access required.")).

(** [v || ''] *)
Definition or_empty (v : jsval) : jsval := if truthy v then v else JStr [].

(** GET /api/sales: the registrations the query selects for the caller
    (a member's own, all of them for an admin).  The order of the answer
    (by [registered_at]) and the embedded student, event and member
    columns are left out. *)
Definition sales_of (user : identity) (db : Db) : list Registration :=
  if negb (bool_decide (user_role user = lit "admin"))
  then filter (fun r => rg_member r = user_id user) (Registrations db)
  else Registrations db.

(** What POST /api/students/lookup of the multi-event revision answers:
    the 400 refusal, [status: 'found'] with the student and the event ids
    of its registrations, or [status: 'new']. *)
Inductive lookup_reply : Type :=
  | LookupRefused (r : reply)
  | LookupFound (student : Student) (registeredEventIds : list (list N))
  | LookupNew.

(** POST /api/students/lookup, behind [requireAuth]. *)
Definition students_lookup (body : gmap string jsval) : Prog lookup_reply :=
  let studentId := toUpperCase (sanitize (or_empty (field body "student_id"))) in
  if Nat.eqb (length studentId) 0
  then Ret (LookupRefused (Reject 400 (lit "Enter a Student ID.")))
  else
    let! byId := students_maybe (fun s => st_code s = Some studentId) in
    match byId with
    | Data (Some st) =>
        let! regs := (fun db =>
          (map rg_event (filter (fun r => rg_student r = st_id st) (Registrations db)), db)) in
        Ret (LookupFound st regs)
    | _ => Ret LookupNew
    end.

(** ** Members (admin only), [server.js] *)
Module Admin.

Record Member : Type := MkMember {
  mb_id : list N;
  mb_name : list N;
  mb_email : list N;
  mb_password : list N;
  mb_role : list N
}.

(** The Members table and the counter of its generated identifiers.
    Whether the [id] column has type [uuid] or [text] belongs to the
    deployed schema, which the server does not define: [id_uuid] records
    it, and every statement on the members routes holds for both
    settings. *)
Record Table : Type := MkTable {
  members : list Member;
  next_id : N;
  id_uuid : bool
}.

(** [.eq('id', id)] on a stored id, for an [id] that passed [isUUID]: a
    [uuid] column compares the values, that is the hexadecimal digits
    whatever their case; a [text] column compares the code units. *)
Definition same_id (t : Table) (stored given : list N) : Prop :=
  if id_uuid t then map lower stored = map lower given else stored = given.

#[global] Instance same_id_dec t stored given : Decision (same_id t stored given).
Proof. unfold same_id. destruct (id_uuid t); apply _. Defined.

(** The uniqueness of [email], which the routes observe as error 23505
    ([Email already exists.]). *)
Definition emails_unique (l : list Member) : Prop := NoDup (map mb_email l).

(** [from('Members').insert({ name, email, password, role })] *)
Definition members_insert (name email password role : list N) (t : Table)
    : result unit * Table :=
  let row := {| mb_id := gen_id (next_id t); mb_name := name; mb_email := email;
                mb_password := password; mb_role := role |} in
  if decide (emails_unique (members t ++ [row]))
  then (Data (), {| members := members t ++ [row]; next_id := N.succ (next_id t);
                    id_uuid := id_uuid t |})
  else (Error unique_violation, t).

(** The [updates] object of PUT /api/members/:id: a property is present
    or not. *)
Record Updates : Type := MkUpdates {
  up_role : option (list N);
  up_password : option (list N);
  up_name : option (list N);
  up_email : option (list N)
}.

Definition apply_updates (u : Updates) (m : Member) : Member :=
  {| mb_id := mb_id m;
     mb_name := default (mb_name m) (up_name u);
     mb_email := default (mb_email m) (up_email u);
     mb_password := default (mb_password m) (up_password u);
     mb_role := default (mb_role m) (up_role u) |}.

(** [from('Members').update(updates).eq('id', id)] *)
Definition members_update (mid : list N) (u : Updates) (t : Table) : result unit * Table :=
  let l := map (fun m => if decide (same_id t (mb_id m) mid) then apply_updates u m else m)
               (members t) in
  if decide (emails_unique l)
  then (Data (), {| members := l; next_id := next_id t; id_uuid := id_uuid t |})
  else (Error unique_violation, t).

(** [from('Members').delete().eq('id', id)] *)
Definition members_delete (mid : list N) (t : Table) : result unit * Table :=
  (Data (), {| members := filter (fun m => ~ same_id t (mb_id m) mid) (members t);
               next_id := next_id t; id_uuid := id_uuid t |}).

(** [Object.keys(updates).length], zero or not. *)
Definition no_updates (u : Updates) : bool :=
  match up_role u, up_password u, up_name u, up_email u with
  | None, None, None, None => true
  | _, _, _, _ => false
  end.

Section WithHash.

(** [sha256(str)], hex digest of the text. *)
Variable sha256 : list N -> list N.

(** POST /api/members, behind [requireAuth] and [requireAdmin]. *)
Definition post_members (user : identity) (body : gmap string jsval) (t : Table)
    : reply * Table :=
  match requireAdmin user with
  | Some refusal => (refusal, t)
  | None =>
      let name := sanitize (or_empty (field body "name")) in
      let email := toLowerCase (sanitize (or_empty (field body "email"))) in
      let pw := ToString (or_empty (field body "password")) in
      let role := if is_text "admin" (field body "role") then lit "admin" else lit "member" in
      if Nat.eqb (length name) 0 then (Reject 400 (lit "Name is required."), t)
      else if negb (isEmail (JStr email)) then (Reject 400 (lit "Invalid email."), t)
      else if length pw <? 8
      then (Reject 400 (lit "Password must be at least 8 characters."), t)
      else
        match members_insert name email (sha256 pw) role t with
        | (Error e, t') =>
            if decide (code e = lit "23505")
            then (Reject 400 (lit "Email already exists."), t')
            else (Reject 500 (message e), t')
        | (Data _, t') => (ok_true, t')
        end
  end.

(** The [updates] object PUT /api/members/:id builds, or the 400 reply
    that interrupts the building. *)
Definition build_updates (body : gmap string jsval) : reply + Updates :=
  let role := field body "role" in
  let password := field body "password" in
  let name := field body "name" in
  let email := field body "email" in
  let u_role :=
    if truthy role && (is_text "admin" role || is_text "member" role)
    then Some (ToString role) else None in
  if truthy password && (length (ToString password) <? 8)
  then inl (Reject 400 (lit "Password too short."))
  else
    let u_password := if truthy password then Some (sha256 (ToString password)) else None in
    let u_name := if truthy name then Some (sanitize name) else None in
    let e := toLowerCase (sanitize email) in
    if truthy email && negb (isEmail (JStr e))
    then inl (Reject 400 (lit "Invalid email."))
    else
      inr {| up_role := u_role; up_password := u_password; up_name := u_name;
             up_email := if truthy email then Some e else None |}.

(** PUT /api/members/:id, behind [requireAuth] and [requireAdmin]. *)
Definition put_members (user : identity) (mid : list N) (body : gmap string jsval)
    (t : Table) : reply * Table :=
  match requireAdmin user with
  | Some refusal => (refusal, t)
  | None =>
      if negb (isUUID (JStr mid)) then (Reject 400 (lit "Invalid ID."), t)
      else
        match build_updates body with
        | inl refusal => (refusal, t)
        | inr updates =>
            if no_updates updates then (Reject 400 (lit "Nothing to update."), t)
            else
              match members_update mid updates t with
              | (Error e, t') => (Reject 500 (message e), t')
              | (Data _, t') => (ok_true, t')
              end
        end
  end.

(** DELETE /api/members/:id, behind [requireAuth] and [requireAdmin]. *)
Definition delete_members (user : identity) (mid : list N) (t : Table) : reply * Table :=
  match requireAdmin user with
  | Some refusal => (refusal, t)
  | None =>
      if negb (isUUID (JStr mid)) then (Reject 400 (lit "Invalid ID."), t)
      else if bool_decide (mid = user_id user)
      then (Reject 400 (lit "You can't delete yourself."), t)
      else
        match members_delete mid t with
        | (Error e, t') => (Reject 500 (message e), t')
        | (Data _, t') => (ok_true, t')
        end
  end.

(** The Members query of POST /api/login:
    [.eq('email', ..).eq('password', ..).single()], as the snapshot the
    session keeps; [None] for [error || !data]. *)
Definition members_find (email password : list N) (t : Table) : option identity :=
  match filter (fun m => mb_email m = email /\ mb_password m = password) (members t) with
  | [m] => Some {| user_id := mb_id m; user_name := mb_name m; user_email := mb_email m;
                   user_role := mb_role m |}
  | _ => None
  end.

(** POST /api/login against the table: the query looks for
    [email.toLowerCase().trim()] and [sha256(String(password))]. *)
Definition login (body : gmap string jsval) (token : list N) (t : Table) (p : Proc)
    : reply * Proc :=
  post_login body
    (members_find (trim (toLowerCase (ToString (field body "email"))))
                  (sha256 (ToString (field body "password"))) t)
    token p.

End WithHash.

End Admin.

(** ** The register route of the first revision *)
Module Early.

Definition register_checks
    (name phone email event_id payment_method transaction_id : jsval) : option reply :=
  if negb (truthy name) || negb (truthy phone) || negb (truthy email)
     || negb (truthy event_id) || negb (truthy payment_method)
  then Some (Reject 400 (lit "Missing required fields."))
  else if negb (isPhone (JStr (ToString phone)))
  then Some (Reject 400 (lit "Phone must be exactly 10 digits."))
  else if negb (isEmail email) then Some (Reject 400 (lit "Invalid email address."))
  else if negb (isUUID (JStr (ToString event_id))) then Some (Reject 400 (lit "Invalid event."))
  else if negb (method_listed payment_method)
  then Some (Reject 400 (lit "Invalid payment method."))
  else if is_text "upi" payment_method && negb (truthy transaction_id)
  then Some (Reject 400 (lit "UPI transaction ID is required."))
  else None.

Definition upsert_student (cleanName cleanEmail phone : list N) : Prog (reply + list N) :=
  let! existing := students_maybe (fun s => st_phone s = phone) in
  match existing with
  | Data (Some st) =>
      let! _ := students_update (st_id st) (set_name_email cleanName cleanEmail) in
      Ret (inr (st_id st))
  | _ =>
      let! inserted := students_insert None cleanName cleanEmail phone in
      match inserted with
      | Error stuErr =>
          if decide (code stuErr = lit "23505")
          then Ret (inl (Reject 400 (lit "This email is already used by another student.")))
          else Ret (inl (Reject 500 (lit "Failed to save student.")))
      | Data newStu => Ret (inr (st_id newStu))
      end
  end.

Definition register_insert (sp : First.member)
    (event_id payment_method transaction_id cost : jsval) (studentId : list N)
    : Prog reply :=
  let cleanTxn := clean_txn transaction_id in
  let! regErr := registrations_insert
      [{| student_id := studentId;
          event_id := event_id;
          member_id := First.sp_id sp;
          payment_method := payment_method;
          transaction_id := txn_for payment_method cleanTxn;
          amount_paid := cost |}] in
  match regErr with
  | Error e =>
      if decide (code e = lit "23505")
      then Ret (Reject 400 (lit "This student is already registered for this event."))
      else Ret (Reject 500 (lit "Failed to create registration."))
  | Data _ => Ret ok_true
  end.

Definition register (sp : First.member)
    (name phone email event_id payment_method transaction_id : jsval) : Prog reply :=
  match register_checks name phone email event_id payment_method transaction_id with
  | Some refusal => Ret refusal
  | None =>
      let cleanName := sanitize name in
      let cleanEmail := toLowerCase (sanitize email) in
      let! ev := events_cost (ToString event_id) in
      match ev with
      | Error _ => Ret (Reject 400 (lit "Event not found."))
      | Data cost =>
          let? studentId := upsert_student cleanName cleanEmail (ToString phone) in
          register_insert sp event_id payment_method transaction_id cost studentId
      end
  end.

(** POST /api/register *)
Definition post_register (sp : First.member) (body : gmap string jsval) : Prog reply :=
  register sp (field body "name") (field body "phone") (field body "email")
           (field body "event_id") (field body "payment_method")
           (field body "transaction_id").

End Early.

(** ** Student desk routes of the multi-event revision *)
Module Desk.

(** What POST /api/students/check-unique answers: a 400 refusal, or
    [{ unique, student_id }]. *)
Inductive unique_reply : Type :=
  | UniqueRefused (r : reply)
  | UniqueAnswer (unique : bool) (student_id : option (list N)).

(** [data?.student_id || null] *)
Definition code_or_null (data : option Student) : option (list N) :=
  match data with
  | Some st =>
      match st_code st with
      | Some c => if Nat.eqb (length c) 0 then None else Some c
      | None => None
      end
  | None => None
  end.

(** [const { data } = ...maybeSingle()] *)
Definition data_of (r : result (option Student)) : option Student :=
  match r with
  | Data d => d
  | Error _ => None
  end.

(** [!data] *)
Definition absent (data : option Student) : bool :=
  match data with
  | Some _ => false
  | None => true
  end.

(** POST /api/students/check-unique, behind [requireAuth]. *)
Definition check_unique (body : gmap string jsval) : Prog unique_reply :=
  let fld := field body "field" in
  let value := field body "value" in
  if negb (truthy fld) || negb (truthy value)
  then Ret (UniqueRefused (Reject 400 (lit "Missing field or value.")))
  else if is_text "phone" fld
  then
    if negb (isPhone value) then Ret (UniqueRefused (Reject 400 (lit "Invalid phone.")))
    else
      let! found := students_maybe (fun s => st_phone s = ToString value) in
      Ret (UniqueAnswer (absent (data_of found)) (code_or_null (data_of found)))
  else if is_text "email" fld
  then
    if negb (isEmail value) then Ret (UniqueRefused (Reject 400 (lit "Invalid email.")))
    else
      let! found := students_maybe (fun s => st_email s = toLowerCase (ToString value)) in
      Ret (UniqueAnswer (absent (data_of found)) (code_or_null (data_of found)))
  else Ret (UniqueRefused (Reject 400 (lit "field must be phone or email."))).

(** [from('Students').update({ name, phone_number, email, student_id }).eq('id', id)] *)
Definition set_all (name phone email code : list N) (s : Student) : Student :=
  {| st_id := st_id s; st_code := Some code; st_name := name;
     st_phone := phone; st_email := email |}.

(** PUT /api/students/:id, behind [requireAuth] and [requireAdmin]. *)
Definition put_students (user : identity) (sid : list N) (body : gmap string jsval)
    : Prog reply :=
  match requireAdmin user with
  | Some refusal => Ret refusal
  | None =>
      if negb (isUUID (JStr sid)) then Ret (Reject 400 (lit "Invalid ID."))
      else
        let name := sanitize (or_empty (field body "name")) in
        let phone := trim (ToString (or_empty (field body "phone"))) in
        let email := toLowerCase (sanitize (or_empty (field body "email"))) in
        let student_id := toUpperCase (sanitize (or_empty (field body "student_id"))) in
        if Nat.eqb (length name) 0 then Ret (Reject 400 (lit "Name is required."))
        else if negb (isPhone (JStr phone)) then Ret (Reject 400 (lit "Phone must be 10 digits."))
        else if negb (isEmail (JStr email)) then Ret (Reject 400 (lit "Invalid email."))
        else if Nat.eqb (length student_id) 0
        then Ret (Reject 400 (lit "Student ID is required."))
        else
          let! updated := students_update sid (set_all name phone email student_id) in
          match updated with
          | Error e =>
              if decide (code e = lit "23505")
              then Ret (Reject 400
                          (lit "Phone, email, or Student ID already used by another student."))
              else Ret (Reject 500 (message e))
          | Data _ => Ret ok_true
          end
  end.

End Desk.

(** ** Vocabulary of the further statements *)

(** The shape [isUUID] accepts: five groups of hexadecimal digits (either
    case) of lengths 8, 4, 4, 4 and 12, joined by hyphens. *)
Definition is_hex (c : N) : Prop :=
  (48 <= c <= 57 \/ 97 <= c <= 102 \/ 65 <= c <= 70)%N.

Definition hex_group (n : nat) (s : list N) : Prop := length s = n /\ Forall is_hex s.

Definition uuid_shape (s : list N) : Prop :=
  exists a b c d e,
    s = a ++ 45%N :: b ++ 45%N :: c ++ 45%N :: d ++ 45%N :: e
    /\ hex_group 8 a /\ hex_group 4 b /\ hex_group 4 c /\ hex_group 4 d /\ hex_group 12 e.

(** No white space at the end either. *)
Definition ends_clean (s : list N) : Prop := starts_clean (rev s).

(** A student row as the routes write it: markup-free name and email,
    a phone of ten digits. *)
Definition student_clean (s : Student) : Prop :=
  harmless (st_name s) /\ harmless (st_email s)
  /\ length (st_phone s) = 10 /\ Forall is_digit (st_phone s).

(** A registration row as the routes write it: the method is one of the
    two listed, a cash row has no transaction id, a UPI row has a
    markup-free one of at most 500 code units. *)
Definition registration_clean (r : Registration) : Prop :=
  (rg_method r = lit "cash" /\ rg_txn r = JNull)
  \/ (rg_method r = lit "upi"
      /\ exists t, rg_txn r = JStr t /\ harmless t /\ length t <= 500).

(** What the routes maintain on the rows they store. *)
Definition stored_clean (db : Db) : Prop :=
  Forall student_clean (Students db) /\ Forall registration_clean (Registrations db).

(** A handler that keeps [I], whatever it answers. *)
Definition keeps {A : Type} (I : Db -> Prop) (p : Prog A) : Prop :=
  forall db, I db -> I (snd (exec p db)).

(** Text within Basic Latin, where the case mappings of this file are
    those of JavaScript. *)
Definition basic_latin (s : list N) : Prop := Forall (fun c => (c < 128)%N) s.

(** A value whose numbers are safe integers, below 2^53 in absolute
    value: on it [ToString] is JavaScript's [String]. *)
Fixpoint printable (v : jsval) : Prop :=
  match v with
  | JNum z => (Z.abs z < 2 ^ 53)%Z
  | JArr l =>
      (fix all (l : list jsval) : Prop :=
         match l with
         | [] => True
         | x :: rest => printable x /\ all rest
         end) l
  | _ => True
  end.

(** An id in the lower-case spelling, the one the gateway prints. *)
Definition lower_case (s : list N) : Prop := map lower s = s.

(** Two spellings of one id: the same digits, whatever their case. *)
Definition same_digits (a b : list N) : Prop := map lower a = map lower b.

(** Every member is an admin or a plain member. *)
Definition roles_listed (l : list Admin.Member) : Prop :=
  Forall (fun m => Admin.mb_role m = lit "admin" \/ Admin.mb_role m = lit "member") l.

(** The process as it starts at time [t0]: [new Map()], no timer. *)
Definition started (t0 : Z) : Proc := {| clock := t0; sessions := ∅; timers := [] |}.

(** Every session has a timer that will end it within twelve hours. *)
Definition sessions_timed (p : Proc) : Prop :=
  forall tok ident, sessions p !! tok = Some ident ->
    exists d, (d, tok) ∈ timers p /\ (clock p < d <= clock p + TTL)%Z.

(** ** A club office, for concrete runs of the admin and desk routes *)
Module Office.

(** A stand-in for the digest; the statements hold for every function. *)
Definition digest (s : list N) : list N := lit "sha256:" ++ s.

(** Root, an admin, and Alice, a member, in a table whose ids are uuids. *)
Definition staff : Admin.Table :=
  {| Admin.members :=
       [ {| Admin.mb_id := user_id Sample.root; Admin.mb_name := lit "Root";
            Admin.mb_email := lit "root@club.org";
            Admin.mb_password := digest (lit "root-password");
            Admin.mb_role := lit "admin" |};
         {| Admin.mb_id := user_id Sample.alice; Admin.mb_name := lit "Alice";
            Admin.mb_email := lit "alice@club.org";
            Admin.mb_password := digest (lit "alice-password");
            Admin.mb_role := lit "member" |} ];
     Admin.next_id := 7;
     Admin.id_uuid := true |}.

(** Dora, an admin whose id has letters, and the table that holds her
    and Alice. *)
Definition dora : identity :=
  {| user_id := lit "dddddddd-dddd-4ddd-8ddd-dddddddddddd"; user_name := lit "Dora";
     user_email := lit "dora@club.org"; user_role := lit "admin" |}.

Definition dora_row : Admin.Member :=
  {| Admin.mb_id := user_id dora; Admin.mb_name := lit "Dora";
     Admin.mb_email := lit "dora@club.org";
     Admin.mb_password := digest (lit "dora-password");
     Admin.mb_role := lit "admin" |}.

Definition board (uuid : bool) : Admin.Table :=
  {| Admin.members :=
       [ dora_row;
         {| Admin.mb_id := user_id Sample.alice; Admin.mb_name := lit "Alice";
            Admin.mb_email := lit "alice@club.org";
            Admin.mb_password := digest (lit "alice-password");
            Admin.mb_role := lit "member" |} ];
     Admin.next_id := 7;
     Admin.id_uuid := uuid |}.

(** The body that adds Carol; it asks for a role that is not listed. *)
Definition carol_body : gmap string jsval :=
  list_to_map
    [("name", JStr (lit "Carol")); ("email", JStr (lit "Carol@Club.org"));
     ("password", JStr (lit "carol-password")); ("role", JStr (lit "owner"))]%string.

(** Carol's login, her email spelled in another case. *)
Definition carol_login : gmap string jsval :=
  list_to_map
    [("email", JStr (lit "carol@CLUB.org"));
     ("password", JStr (lit "carol-password"))]%string.

(** Alice as the first revision's session keeps her. *)
Definition early_alice : First.member :=
  First.Member (user_id Sample.alice) (user_name Sample.alice) (user_email Sample.alice).

(** A batch for Ravi, whom the database does not know. *)
Definition ravi_body : gmap string jsval :=
  list_to_map
    [("student_id", JStr (lit "s2")); ("name", JStr (lit "Ravi"));
     ("phone", JStr (lit "9123456780")); ("email", JStr (lit "Ravi@mail.in"));
     ("event_ids", JArr [JStr Sample.quiz]); ("payment_method", JStr (lit "cash"))]%string.

(** The bodies of the two check-unique calls for Ravi. *)
Definition ask_unique (fld : string) (value : list N) : gmap string jsval :=
  list_to_map [("field", JStr (lit fld)); ("value", JStr value)]%string.

(** An admin's correction of Asha's row. *)
Definition asha_fix : gmap string jsval :=
  list_to_map
    [("name", JStr (lit "Asha K")); ("phone", JStr (lit " 9876543210 "));
     ("email", JStr (lit "Asha.K@mail.in")); ("student_id", JStr (lit "s-1"))]%string.

End Office.

(** * Properties *)

(** ** Strings *)

Section Strings.
Implicit Types (s t : list N) (c : N).

Lemma trim_start_length s : length (trim_start s) <= length s.
Proof. induction s as [|c s IH]; simpl; [lia|]. destruct (is_ws c); simpl; lia. Qed.

Lemma trim_end_length s : length (trim_end s) <= length s.
Proof.
  unfold trim_end. rewrite length_rev.
  etransitivity; [apply trim_start_length|]. by rewrite length_rev.
Qed.

Lemma trim_length s : length (trim s) <= length s.
Proof.
  unfold trim. etransitivity; [apply trim_end_length|]. apply trim_start_length.
Qed.

Lemma strip_length s : length (strip s) <= length s.
Proof. induction s as [|c s IH]; simpl; [lia|]. destruct (dangerous c); simpl; lia. Qed.

Lemma strip_harmless s : harmless (strip s).
Proof.
  induction s as [|c s IH]; simpl; [constructor|].
  destruct (dangerous c) eqn:E; [done|]. by constructor.
Qed.

Lemma strip_id s : harmless s -> strip s = s.
Proof.
  induction 1 as [|c s Hc _ IH]; simpl; [done|]. by rewrite Hc, IH.
Qed.

Lemma trim_start_suffix s : exists pre, s = pre ++ trim_start s.
Proof.
  induction s as [|c s [pre IH]]; simpl; [by exists []|].
  destruct (is_ws c); [|by exists []].
  exists (c :: pre). simpl. by f_equal.
Qed.

Lemma trim_start_harmless s : harmless s -> harmless (trim_start s).
Proof.
  intros H. destruct (trim_start_suffix s) as [pre E].
  rewrite E in H. by apply Forall_app in H as [_ H].
Qed.

Lemma trim_harmless s : harmless s -> harmless (trim s).
Proof.
  intros H. unfold trim, trim_end, harmless.
  apply Forall_rev, trim_start_harmless, Forall_rev. by apply trim_start_harmless.
Qed.

Lemma trim_start_clean s : starts_clean (trim_start s).
Proof. induction s as [|c s IH]; simpl; [done|]. by destruct (is_ws c) eqn:E. Qed.

Lemma trim_start_id s : starts_clean s -> trim_start s = s.
Proof. destruct s as [|c s]; simpl; [done|]. by intros ->. Qed.

Lemma trim_start_snoc s c :
  trim_start (s ++ [c]) =
  match trim_start s with
  | [] => if is_ws c then [] else [c]
  | u => u ++ [c]
  end.
Proof.
  induction s as [|d s IH]; simpl; [done|].
  destruct (is_ws d); [exact IH|done].
Qed.

Lemma trim_end_cons c s :
  trim_end (c :: s) =
  match trim_end s with
  | [] => if is_ws c then [] else [c]
  | u => c :: u
  end.
Proof.
  unfold trim_end. simpl. rewrite trim_start_snoc.
  destruct (trim_start (rev s)) as [|d u] eqn:E; simpl.
  - by destruct (is_ws c).
  - rewrite rev_app_distr. simpl.
    destruct (rev u ++ [d]) eqn:E'; [by destruct (rev u)|done].
Qed.

Lemma trim_end_clean s : starts_clean s -> starts_clean (trim_end s).
Proof.
  destruct s as [|c s]; [done|]. simpl. intros Hc.
  rewrite trim_end_cons. destruct (trim_end s); simpl; [by rewrite Hc|done].
Qed.

Lemma trim_end_idem s : trim_end (trim_end s) = trim_end s.
Proof.
  unfold trim_end. rewrite rev_involutive.
  by rewrite (trim_start_id (trim_start (rev s))) by apply trim_start_clean.
Qed.

Lemma trim_idem s : trim (trim s) = trim s.
Proof.
  assert (H : trim_start (trim s) = trim s).
  { apply trim_start_id. unfold trim. apply trim_end_clean, trim_start_clean. }
  change (trim (trim s)) with (trim_end (trim_start (trim s))).
  rewrite H. unfold trim. apply trim_end_idem.
Qed.

Lemma sanitize_harmless v : harmless (sanitize v).
Proof.
  unfold sanitize, slice0, harmless. apply Forall_take, strip_harmless.
Qed.

Lemma sanitize_short v : length (sanitize v) <= 500.
Proof. unfold sanitize, slice0. rewrite length_take. lia. Qed.

(** On a string that is already harmless and short, [sanitize] only trims. *)
Lemma sanitize_clean s :
  harmless s -> length s <= 500 -> sanitize (JStr s) = trim s.
Proof.
  intros Hs Hl. unfold sanitize, slice0. simpl.
  rewrite strip_id by by apply trim_harmless.
  apply take_ge. pose proof (trim_length s). lia.
Qed.

End Strings.

(** C7, where it fails: deleting a leading [<] uncovers a space that a
    second pass trims. *)
Lemma sanitize_not_idempotent :
  ~ (forall x : list N,
       sanitize (JStr (sanitize (JStr x))) = sanitize (JStr x)
       /\ length (sanitize (JStr x)) <= length x).
Proof.
  intros H. destruct (H (lit "< a")) as [H1 _]. vm_compute in H1. discriminate H1.
Qed.

(** C7, amended: [sanitize] never lengthens its input; a second pass
    only trims the white space the first one uncovered or cut at, so it
    changes nothing when the first result has no white space at either
    end; and from the second pass on the result is stable. *)
Theorem sanitize_lengths_and_passes (x : list N) :
  length (sanitize (JStr x)) <= length x
  /\ sanitize (JStr (sanitize (JStr x))) = trim (sanitize (JStr x))
  /\ sanitize (JStr (sanitize (JStr (sanitize (JStr x)))))
     = sanitize (JStr (sanitize (JStr x))).
Proof.
  assert (Hpass : forall s, sanitize (JStr (sanitize (JStr s))) = trim (sanitize (JStr s))).
  { intros s. apply sanitize_clean; [apply sanitize_harmless|apply sanitize_short]. }
  split; [|split].
  - unfold sanitize, slice0. simpl. rewrite length_take.
    pose proof (strip_length (trim x)). pose proof (trim_length x). lia.
  - apply Hpass.
  - rewrite !Hpass. apply trim_idem.
Qed.

(** ** Validators *)

Lemma eat_spec k n s rest :
  eat k n s = Some rest <->
  exists pre, s = pre ++ rest /\ length pre = n /\ Forall (fun c => in_class k c = true) pre.
Proof.
  revert s. induction n as [|n IH]; intros s; simpl.
  - split.
    + intros [= ->]. by exists [].
    + intros ([|] & -> & Hl & _); [done|discriminate Hl].
  - destruct s as [|c s].
    + split; [done|]. intros ([|] & E & Hl & _); simplify_eq/=.
    + destruct (in_class k c) eqn:Ec.
      * rewrite IH. split.
        -- intros (pre & -> & <- & Hp). exists (c :: pre). by repeat constructor.
        -- intros ([|d pre] & E & Hl & Hp); simplify_eq/=.
           inversion_clear Hp. by exists pre.
      * split; [done|]. intros ([|d pre] & E & Hl & Hp); simplify_eq/=.
        inversion_clear Hp. congruence.
Qed.

Lemma in_class_digit c : in_class Digit c = true <-> is_digit c.
Proof. unfold is_digit. simpl. rewrite andb_true_iff, !N.leb_le. tauto. Qed.

Lemma phone_re_spec s :
  re_test phone_re s = true <-> length s = 10 /\ Forall is_digit s.
Proof.
  unfold phone_re, re_test.
  destruct (eat Digit 10 s) as [rest|] eqn:E.
  - apply eat_spec in E as (pre & -> & Hl & Hp).
    assert (Hd : Forall is_digit pre).
    { eapply Forall_impl; [exact Hp|]. intros c. apply in_class_digit. }
    destruct rest as [|c rest].
    + rewrite app_nil_r. tauto.
    + split; [done|]. intros [Hlen _]. rewrite length_app in Hlen. simpl in Hlen. lia.
  - split; [done|]. intros [Hl Hd]. exfalso.
    assert (eat Digit 10 s = Some []) as E'; [|congruence].
    apply eat_spec. exists s. rewrite app_nil_r. split_and!; [done..|].
    eapply Forall_impl; [exact Hd|]. intros c. apply in_class_digit.
Qed.

Lemma includes_spec c s : includes c s = true <-> c ∈ s.
Proof.
  unfold includes. rewrite existsb_exists. split.
  - intros (d & Hin & Hd). apply N.eqb_eq in Hd as ->. by apply list_elem_of_In.
  - intros Hin. exists c. split; [by apply list_elem_of_In|apply N.eqb_refl].
Qed.

(** C9, where it fails: [isPhone] converts its argument to text first, so
    the number 1234567890, which is no string, is accepted. *)
Lemma isPhone_accepts_a_number :
  ~ (forall v : jsval,
       isPhone v = true <-> exists s, v = JStr s /\ length s = 10 /\ Forall is_digit s).
Proof.
  intros H. destruct (H (JNum 1234567890)) as [H1 _].
  destruct (H1 eq_refl) as (s & Hs & _). discriminate Hs.
Qed.

(** C9, amended: [isPhone v] holds exactly when the text [String(v)] is
    ten decimal digits (for a string [v], when [v] itself is), [isEmail v]
    exactly when [v] is a string that contains [@] and has at most 254
    code units; both are total and boolean by construction. *)
Theorem isPhone_isEmail_spec (v : jsval) :
  (isPhone v = true <-> length (ToString v) = 10 /\ Forall is_digit (ToString v))
  /\ (forall s : list N, isPhone (JStr s) = true <-> length s = 10 /\ Forall is_digit s)
  /\ (isEmail v = true <-> exists s : list N, v = JStr s /\ 64%N ∈ s /\ length s <= 254)
  /\ (isPhone v = true \/ isPhone v = false)
  /\ (isEmail v = true \/ isEmail v = false).
Proof.
  split_and!.
  - apply phone_re_spec.
  - intros s. apply (phone_re_spec s).
  - destruct v as [| |b|z|s|l]; simpl;
      try (split; [done|intros (s' & [=] & _)]).
    rewrite andb_true_iff, includes_spec, Nat.leb_le. split.
    + intros [? ?]. by exists s.
    + intros (s' & [= <-] & ? & ?). done.
  - destruct (isPhone v); auto.
  - destruct (isEmail v); auto.
Qed.

(** ** Session store *)

Section Sessions.
Implicit Types (m : gmap (list N) identity) (l : list (Z * list N)) (p : Proc).

Lemma fire_sessions now p : sessions (fire now p) = foldl (expire now) (sessions p) (timers p).
Proof. done. Qed.

Lemma expire_absent now l m k : m !! k = None -> foldl (expire now) m l !! k = None.
Proof.
  revert m. induction l as [|t l IH]; intros m Hm; simpl; [done|].
  apply IH. unfold expire. destruct (fst t <=? now)%Z; [|done].
  destruct (decide (snd t = k)) as [->|]; [apply lookup_delete_eq|by rewrite lookup_delete_ne].
Qed.

Lemma expire_due now l m k d :
  (d, k) ∈ l -> (d <= now)%Z -> foldl (expire now) m l !! k = None.
Proof.
  revert m. induction l as [|t l IH]; intros m Hin Hd; [by apply elem_of_nil in Hin|].
  apply elem_of_cons in Hin as [<-|Hin]; simpl.
  - apply expire_absent. unfold expire. simpl.
    destruct (Z.leb_spec d now); [apply lookup_delete_eq|lia].
  - by apply IH.
Qed.

Lemma expire_later now l m k :
  (forall d, (d, k) ∈ l -> (now < d)%Z) -> foldl (expire now) m l !! k = m !! k.
Proof.
  revert m. induction l as [|[d t] l IH]; intros m H; simpl; [done|].
  rewrite IH.
  - unfold expire. simpl. destruct (Z.leb_spec d now); [|done].
    apply lookup_delete_ne. intros ->.
    specialize (H d (list_elem_of_here _ _)). lia.
  - intros d' Hin. apply H. by apply elem_of_cons; right.
Qed.

Lemma live_step tok ident due e p :
  leaves_alone tok e -> live_until tok ident due p -> live_until tok ident due (do_step e p).
Proof.
  intros Hq [Hlive Hdead]. destruct e as [body found token|header|ms]; simpl in *.
  - (* another login *)
    unfold post_login.
    repeat (match goal with |- context [if ?b then _ else _] => destruct b end;
            simpl; [by split|]).
    destruct found as [data|]; simpl; [|by split]. split; simpl.
    + intros Hc. destruct (Hlive Hc) as (Hs & Ht & Hu). split_and!.
      * by rewrite lookup_insert_ne.
      * apply elem_of_app. by left.
      * intros d [Hin|Hin]%elem_of_app; [by apply Hu|].
        apply list_elem_of_singleton in Hin. congruence.
    + intros Hc. rewrite lookup_insert_ne by done. by apply Hdead.
  - (* another logout *)
    unfold post_logout. destruct (requireAuth header p) eqn:Ha; simpl; [by split|].
    assert (ToString header <> tok) as Hne.
    { destruct header; simpl in *; try discriminate Ha. congruence. }
    split; simpl.
    + intros Hc. destruct (Hlive Hc) as (Hs & Ht & Hu). by rewrite lookup_delete_ne.
    + intros Hc. rewrite lookup_delete_ne by done. by apply Hdead.
  - (* time passes *)
    set (now := (clock p + Z.max 0 ms)%Z). split; simpl.
    + intros Hc. assert (clock p < due)%Z as Hb by lia.
      destruct (Hlive Hb) as (Hs & Ht & Hu). split_and!.
      * rewrite <- Hs. apply expire_later. intros d Hin. rewrite (Hu d Hin). exact Hc.
      * apply list_elem_of_filter. by split.
      * intros d [_ Hin]%list_elem_of_filter. by apply Hu.
    + intros Hc. destruct (Z.lt_ge_cases (clock p) due) as [Hb|Hb].
      * destruct (Hlive Hb) as (_ & Ht & _). by eapply expire_due.
      * apply expire_absent. by apply Hdead.
Qed.

Lemma live_steps tok ident due es p :
  Forall (leaves_alone tok) es -> live_until tok ident due p ->
  live_until tok ident due (do_steps es p).
Proof.
  revert p. induction es as [|e es IH]; intros p Hq Hl; simpl; [done|].
  inversion_clear Hq. apply IH; [done|]. by apply live_step.
Qed.

Lemma live_create tok ident p :
  (forall d, (d, tok) ∉ timers p) ->
  live_until tok ident (clock p + TTL) (session_create tok ident p).
Proof.
  intros Hfresh. split; simpl.
  - intros _. split_and!.
    + apply lookup_insert_eq.
    + apply elem_of_app. right. apply list_elem_of_singleton. done.
    + intros d [Hin|Hin]%elem_of_app; [by apply Hfresh in Hin|].
      apply list_elem_of_singleton in Hin. congruence.
  - unfold TTL. lia.
Qed.

(** Once logged out, a token stays unknown until it is issued again. *)
Lemma gone_step tok e p :
  (forall body found, e <> Login body found tok) ->
  sessions p !! tok = None -> sessions (do_step e p) !! tok = None.
Proof.
  intros Hq Hs. destruct e as [body found token|header|ms]; simpl.
  - unfold post_login.
    repeat (match goal with |- context [if ?b then _ else _] => destruct b end;
            simpl; [done|]).
    destruct found; simpl; [|done]. rewrite lookup_insert_ne; [done|].
    intros ->. by eapply Hq.
  - unfold post_logout. destruct (requireAuth header p); simpl; [done|].
    destruct (decide (ToString header = tok)) as [->|];
      [apply lookup_delete_eq|by rewrite lookup_delete_ne].
  - by apply expire_absent.
Qed.

End Sessions.

(** What [requireAuth] answers for a non-empty token, from the map. *)
Lemma requireAuth_lookup (tok : list N) (p : Proc) :
  tok <> [] ->
  requireAuth (JStr tok) p =
  match sessions p !! tok with
  | Some user => inr user
  | None => inl (Reject 401 (lit "Not logged in."))
  end.
Proof. intros Hne. unfold requireAuth, truthy. by destruct tok. Qed.

(** What a successful POST /api/login has done: the Members query found
    a row, the reply carries the token, and the process has gone through
    [sessions.set] and [setTimeout]. *)
Lemma post_login_json (body : gmap string jsval) (found : option identity)
    (tok : list N) (p : Proc) (f : list (string * jsval)) :
  fst (post_login body found tok p) = Json f ->
  exists ident,
    found = Some ident
    /\ f = [("token"%string, JStr tok); ("name"%string, JStr (user_name ident));
            ("role"%string, JStr (user_role ident))]
    /\ snd (post_login body found tok p) = session_create tok ident p.
Proof.
  unfold post_login.
  repeat (match goal with |- context [if ?b then _ else _] => destruct b end;
          simpl; [done|]).
  destruct found as [ident|]; simpl; [|done]. intros [= <-]. by exists ident.
Qed.

(** C8: a token issued at time [clock p] by a successful POST
    /api/login, and captured by no earlier timer (tokens are fresh
    random values), is the one the reply carries and resolves to the
    identity the Members query found at every later moment before
    [clock p + 12 h], and to nothing from then on, whatever other
    logins, logouts and waits happen in between; and a logout with the
    token leaves it unknown at once: [requireAuth] answers 401 right
    after, and still after any further steps that do not issue it
    again. *)
Theorem session_lifetime (p : Proc) (body : gmap string jsval)
    (found : option identity) (tok : list N) (f : list (string * jsval))
    (es : list step) :
  tok <> [] ->
  (forall d, (d, tok) ∉ timers p) ->
  Forall (leaves_alone tok) es ->
  fst (post_login body found tok p) = Json f ->
  let issued := snd (post_login body found tok p) in
  exists ident,
    found = Some ident
    /\ f = [("token"%string, JStr tok); ("name"%string, JStr (user_name ident));
            ("role"%string, JStr (user_role ident))]
    /\ TTL = 43200000%Z
    /\ requireAuth (JStr tok) (do_steps es issued)
       = (if (clock (do_steps es issued) <? clock p + TTL)%Z
          then inr ident
          else inl (Reject 401 (lit "Not logged in.")))
    /\ requireAuth (JStr tok) (snd (post_logout (JStr tok) (do_steps es issued)))
       = inl (Reject 401 (lit "Not logged in."))
    /\ (forall q : Proc,
          requireAuth (JStr tok) (snd (post_logout (JStr tok) q))
          = inl (Reject 401 (lit "Not logged in."))
          /\ requireAuth (JStr tok) (do_steps es (snd (post_logout (JStr tok) q)))
             = inl (Reject 401 (lit "Not logged in."))).
Proof.
  intros Hne Hfresh Hq Hlogin issued.
  destruct (post_login_json body found tok p f Hlogin) as (ident & Hfound & Hf & Hp).
  exists ident. subst issued. rewrite Hp.
  assert (forall q : Proc, sessions (snd (post_logout (JStr tok) q)) !! tok = None) as Hgone.
  { intros q. unfold post_logout. rewrite requireAuth_lookup by done.
    destruct (sessions q !! tok) eqn:Ha; simpl; [apply lookup_delete_eq|done]. }
  split_and!; [done|done|done| | |].
  - pose proof (live_steps tok ident _ es (session_create tok ident p) Hq
                  (live_create tok ident p Hfresh)) as [Hlive Hdead].
    rewrite requireAuth_lookup by done.
    destruct (Z.ltb_spec (clock (do_steps es (session_create tok ident p))) (clock p + TTL))
      as [Hc|Hc].
    + by destruct (Hlive Hc) as (-> & _).
    + by rewrite (Hdead Hc).
  - rewrite requireAuth_lookup by done. by rewrite Hgone.
  - intros q.
    assert (forall es' r, Forall (leaves_alone tok) es' ->
              sessions r !! tok = None -> sessions (do_steps es' r) !! tok = None) as Hall.
    { induction es' as [|e es' IH]; intros r Hq' Hr; simpl; [done|].
      inversion_clear Hq'. apply IH; [done|]. apply gone_step; [|done].
      intros body0 found0 ->. simpl in *. congruence. }
    rewrite !requireAuth_lookup by done.
    by rewrite Hgone, (Hall es _ Hq (Hgone q)).
Qed.

(** ** Running a handler with no other request in flight *)

Lemma run_alone {A : Type} (p : Prog A) (n : nat) (db : Db) :
  run alone n p db = exec p db.
Proof.
  unfold exec. revert n db.
  induction p as [a|X op k IH]; intros n db; simpl; [done|].
  unfold alone at 1 3. destruct (op db) as [x db']. by rewrite (IH x 1), (IH x (S n)).
Qed.

Lemma exec_await {A X : Type} (op : Db -> X * Db) (k : X -> Prog A) (db : Db) :
  exec (Await op k) db = exec (k (fst (op db))) (snd (op db)).
Proof.
  unfold exec at 1. simpl. unfold alone at 1.
  destruct (op db) as [x db']. apply run_alone.
Qed.

Lemma exec_ret {A : Type} (a : A) (db : Db) : exec (Ret a) db = (a, db).
Proof. done. Qed.

(** ** What the gateway calls change *)

Lemma events_cost_db eid db : snd (events_cost eid db) = db.
Proof. unfold events_cost. by repeat case_match. Qed.

Lemma events_cost_data eid db cost :
  fst (events_cost eid db) = Data cost ->
  exists e, filter (fun e => ev_id e = eid) (Events db) = [e] /\ cost = ev_cost e.
Proof.
  unfold events_cost. repeat case_match; simpl; intros [=]; subst. eauto.
Qed.

Lemma students_maybe_db (P : Student -> Prop) `{!forall s, Decision (P s)} db :
  snd (students_maybe P db) = db.
Proof. unfold students_maybe. by repeat case_match. Qed.

Lemma students_maybe_some (P : Student -> Prop) `{!forall s, Decision (P s)} db st :
  fst (students_maybe P db) = Data (Some st) -> filter P (Students db) = [st].
Proof. unfold students_maybe. repeat case_match; simpl; intros [=]; by subst. Qed.

Lemma keeps_sales_refl db : keeps_sales db db.
Proof. done. Qed.

Lemma students_update_keeps sid changes db :
  keeps_sales db (snd (students_update sid changes db)).
Proof. unfold students_update. by case_decide. Qed.

Lemma students_insert_keeps code name email phone db :
  keeps_sales db (snd (students_insert code name email phone db)).
Proof. unfold students_insert. by case_decide. Qed.

Lemma registrations_of_db sid eids db : snd (registrations_of sid eids db) = db.
Proof. done. Qed.

Lemma registration_owner_db rid db : snd (registration_owner rid db) = db.
Proof. unfold registration_owner. by repeat case_match. Qed.

Lemma registrations_insert_data rows db db' :
  registrations_insert rows db = (Data (), db') ->
  Registrations db' = Registrations db ++ number (serial db) rows
  /\ Events db' = Events db
  /\ Students db' = Students db
  /\ event_fk db' = event_fk db
  /\ registrations_unique (Registrations db ++ number (serial db) rows)
  /\ events_known db (number (serial db) rows).
Proof.
  unfold registrations_insert. repeat case_decide; intros [=]; by subst.
Qed.

Lemma registrations_insert_error rows db e :
  fst (registrations_insert rows db) = Error e ->
  snd (registrations_insert rows db) = db.
Proof.
  unfold registrations_insert. repeat case_decide; simpl; by intros [=].
Qed.

Lemma registrations_update_data rid changes db db' :
  registrations_update rid changes db = (Data (), db') ->
  Registrations db'
  = map (fun r => if decide (rg_id r = rid) then changes r else r) (Registrations db)
  /\ Events db' = Events db.
Proof.
  unfold registrations_update. repeat case_decide; intros [=]; by subst.
Qed.

(** ** Ownership guard *)

Lemma canMutate_spec (user : identity) (owner : list N) :
  Portal.canMutate user owner = true
  <-> user_role user = lit "admin" \/ user_id user = owner.
Proof.
  unfold Portal.canMutate.
  destruct (decide (user_role user = lit "admin")) as [Ha|Ha];
    destruct (decide (owner = user_id user)) as [Ho|Ho];
    rewrite ?(bool_decide_eq_true_2 _ Ha), ?(bool_decide_eq_false_2 _ Ha),
            ?(bool_decide_eq_true_2 _ Ho), ?(bool_decide_eq_false_2 _ Ho); simpl;
    split; auto; try done.
  intros [?|?]; congruence.
Qed.

Lemma isUUID_of_sales_checks rid a b c d e f g :
  Portal.sales_checks rid a b c d e f g = None -> isUUID (JStr rid) = true.
Proof.
  unfold Portal.sales_checks. destruct (isUUID (JStr rid)); [done|]. simpl. done.
Qed.

Lemma isUUID_of_first_checks rid a b c d e f g :
  First.sales_checks rid a b c d e f g = None -> isUUID (JStr rid) = true.
Proof.
  unfold First.sales_checks. destruct (isUUID (JStr rid)); [done|]. simpl.
  by case_match.
Qed.

(** C6: a well-formed edit or delete of a registration owned by [owner],
    sent by an actor that is neither admin nor [owner], is answered 403
    and leaves the database as it was; the guard lets a request through
    exactly when the actor is admin or the owner (in the first revision,
    which has no roles: exactly when it is the owner), and then the
    answer is never 403. *)
Theorem guard_refuses_strangers (db : Db) (rid owner : list N)
    (body : gmap string jsval) (user : identity) (sp : First.member) :
  fst (registration_owner rid db) = Data owner ->
  Portal.sales_refusal rid body = None ->
  First.sales_refusal rid body = None ->
  (Portal.canMutate user owner = true
   <-> user_role user = lit "admin" \/ user_id user = owner)
  /\ (user_role user <> lit "admin" -> user_id user <> owner ->
      exec (Portal.put_sales user rid body) db = (Reject 403 (lit "Not authorized."), db)
      /\ exec (Portal.delete_sales user rid) db = (Reject 403 (lit "Not authorized."), db))
  /\ (user_role user = lit "admin" \/ user_id user = owner ->
      status_of (fst (exec (Portal.put_sales user rid body) db)) <> 403%Z
      /\ status_of (fst (exec (Portal.delete_sales user rid) db)) <> 403%Z)
  /\ (First.sp_id sp <> owner ->
      exec (First.put_sales sp rid body) db = (Reject 403 (lit "Not authorized."), db)
      /\ exec (First.delete_sales sp rid) db = (Reject 403 (lit "Not authorized."), db))
  /\ (First.sp_id sp = owner ->
      status_of (fst (exec (First.put_sales sp rid body) db)) <> 403%Z
      /\ status_of (fst (exec (First.delete_sales sp rid) db)) <> 403%Z).
Proof.
  intros Hown Hp Hf.
  pose proof (registration_owner_db rid db) as Hdb.
  pose proof (isUUID_of_sales_checks _ _ _ _ _ _ _ _ Hp) as Hid.
  unfold Portal.sales_refusal in Hp. unfold First.sales_refusal in Hf.
  split; [apply canMutate_spec|].
  unfold Portal.put_sales, Portal.edit, Portal.delete_sales,
         First.put_sales, First.edit, First.delete_sales.
  rewrite Hp, Hf, Hid. simpl negb. cbv iota.
  rewrite !exec_await, Hown, Hdb. simpl First.owns.
  split_and!.
  - intros Ha Ho.
    assert (Portal.canMutate user owner = false) as ->; [|done].
    pose proof (canMutate_spec user owner) as [Hs _].
    destruct (Portal.canMutate user owner); [|done].
    destruct (Hs eq_refl); congruence.
  - intros Hc. apply canMutate_spec in Hc. rewrite Hc. simpl negb. cbv iota.
    rewrite !exec_await. split.
    + destruct (fst (events_cost _ db)); [|done].
      rewrite !exec_await.
      by destruct (fst (registrations_update _ _ _)).
    + by destruct (fst (registrations_delete _ _)).
  - intros Ho. rewrite bool_decide_eq_false_2 by congruence. done.
  - intros Ho. rewrite bool_decide_eq_true_2 by congruence. simpl negb. cbv iota.
    rewrite !exec_await. split.
    + destruct (fst (events_cost _ db)); [|done].
      rewrite !exec_await.
      destruct (fst (students_update _ _ _)); [|done].
      rewrite !exec_await.
      by destruct (fst (registrations_update _ _ _)).
    + by destruct (fst (registrations_delete _ _)).
Qed.

(** ** Single-event registration ([server.js]) *)

Lemma filter_map_same {A : Type} (P : A -> Prop) `{!forall a, Decision (P a)}
    (g : A -> A) (l : list A) :
  (forall a, P (g a) <-> P a) -> filter P (map g l) = map g (filter P l).
Proof.
  intros Hg. induction l as [|a l IH]; [done|]. simpl.
  rewrite !filter_cons.
  destruct (decide (P (g a))) as [Hd|Hd], (decide (P a)) as [Hd'|Hd'];
    simpl; rewrite ?IH; try done; exfalso;
    [by apply Hd', Hg|by apply Hd, Hg].
Qed.

(** The early returns are refusals. *)
Lemma register_checks_reject a b c d e f r :
  Portal.register_checks a b c d e f = Some r -> exists n msg, r = Reject n msg.
Proof.
  unfold Portal.register_checks. repeat case_match; intros [=]; subst; eauto.
Qed.

(** After the lookup-then-update or lookup-then-insert of a student by a
    key that the update keeps, the key selects exactly one row, the one
    whose id the route goes on with. *)
Lemma update_keeps_selected (P : Student -> Prop) `{!forall s, Decision (P s)}
    (st : Student) (changes : Student -> Student) (db : Db) :
  (forall s, P (changes s) <-> P s) -> (forall s, st_id (changes s) = st_id s) ->
  filter P (Students db) = [st] ->
  exists st', filter P (Students (snd (students_update (st_id st) changes db))) = [st']
              /\ st_id st' = st_id st.
Proof.
  intros HP Hid Hsel. unfold students_update. case_decide; simpl; [|eauto].
  rewrite filter_map_same; [rewrite Hsel; simpl|].
  - eexists. split; [done|]. by case_decide.
  - intros s. by case_decide.
Qed.

Lemma unique_key_selects_new {A : Type} (key : A -> option (list N)) (k : list N)
    (l : list A) (row : A) :
  NoDup (omap key (l ++ [row])) -> key row = Some k ->
  filter (fun a => key a = Some k) (l ++ [row]) = [row].
Proof.
  intros Hu Hrow. rewrite filter_app.
  assert (filter (fun a => key a = Some k) l = []) as ->.
  { destruct (filter (fun a => key a = Some k) l) as [|a l'] eqn:E; [done|]. exfalso.
    assert (a ∈ filter (fun a => key a = Some k) l) as Ha by (rewrite E; left).
    apply list_elem_of_filter in Ha as [Hka Hin].
    rewrite omap_app in Hu. apply NoDup_app in Hu as (_ & Hu & _).
    apply (Hu k).
    - apply list_elem_of_omap. by exists a.
    - simpl. rewrite Hrow. left. }
  simpl. rewrite filter_cons, decide_True by done. done.
Qed.

Lemma students_unique_phone l : students_unique l -> NoDup (omap (fun s => Some (st_phone s)) l).
Proof.
  intros (Hp & _ & _). clear -Hp.
  induction l as [|s l IH]; simpl in *; [constructor|].
  inversion_clear Hp. constructor; [|by apply IH].
  rewrite list_elem_of_omap. intros (x & Hx & [= E]).
  apply H. rewrite <- E. by apply list_elem_of_fmap_2.
Qed.

Lemma surjective_pair_eq {A B : Type} (x : A * B) : x = (fst x, snd x).
Proof. by destruct x. Qed.

Lemma inserted_selected_by_phone code name email phone db row :
  fst (students_insert code name email phone db) = Data row ->
  filter (fun s => st_phone s = phone)
         (Students (snd (students_insert code name email phone db))) = [row].
Proof.
  unfold students_insert. case_decide as Hu; simpl; [|done]. intros [= <-].
  apply students_unique_phone in Hu.
  apply unique_key_selects_new with (k := phone) in Hu; [|done].
  etransitivity; [|exact Hu]. apply list_filter_iff. intros s. split; congruence.
Qed.

Lemma inserted_selected_by_code c name email phone db row :
  fst (students_insert (Some c) name email phone db) = Data row ->
  filter (fun s => st_code s = Some c)
         (Students (snd (students_insert (Some c) name email phone db))) = [row].
Proof.
  unfold students_insert. case_decide as Hu; simpl; [|done]. intros [= <-].
  destruct Hu as (_ & _ & Hu).
  by apply unique_key_selects_new with (k := c) in Hu.
Qed.

Lemma exec_bind {A B : Type} (p : Prog A) (f : A -> Prog B) (db : Db) :
  exec (bind p f) db = exec (f (fst (exec p db))) (snd (exec p db)).
Proof.
  revert db. induction p as [a|X op k IH]; intros db; simpl; [done|].
  by rewrite !exec_await, IH.
Qed.

Lemma exec_or_return {A : Type} (p : Prog (reply + A)) (k : A -> Prog reply) (db : Db) :
  exec (or_return p k) db =
  match fst (exec p db) with
  | inl refusal => (refusal, snd (exec p db))
  | inr a => exec (k a) (snd (exec p db))
  end.
Proof. unfold or_return. rewrite exec_bind. by destruct (fst (exec p db)). Qed.

(** The student block of [server.js]: it writes Students only, and when
    it falls through, the phone selects exactly the student it names. *)
Lemma portal_upsert name email phone db :
  keeps_sales db (snd (exec (Portal.upsert_student name email phone) db))
  /\ match fst (exec (Portal.upsert_student name email phone) db) with
     | inr sid =>
         exists st, filter (fun s => st_phone s = phone)
                      (Students (snd (exec (Portal.upsert_student name email phone) db)))
                    = [st] /\ st_id st = sid
     | inl refusal =>
         snd (exec (Portal.upsert_student name email phone) db) = db
         /\ exists n msg, refusal = Reject n msg
     end.
Proof.
  unfold Portal.upsert_student. rewrite exec_await, students_maybe_db.
  assert (forall r : result (option Student),
    match r with Data (Some _) => False | _ => True end ->
    let p := (let! inserted := students_insert None name email phone in
              match inserted with
              | Error stuErr =>
                  if decide (code stuErr = lit "23505")
                  then Ret (inl (Reject 400 (lit "Email already used by another student.")))
                  else Ret (inl (Reject 500 (lit "Failed to save student.")))
              | Data newStu => Ret (inr (st_id newStu))
              end) in
    keeps_sales db (snd (exec p db))
    /\ match fst (exec p db) with
       | inr sid => exists st, filter (fun s => st_phone s = phone)
                                 (Students (snd (exec p db))) = [st] /\ st_id st = sid
       | inl refusal => snd (exec p db) = db /\ exists n msg, refusal = Reject n msg
       end) as Hnew.
  { intros _ _ p. subst p. rewrite exec_await.
    destruct (fst (students_insert None name email phone db)) as [row|e] eqn:Hi.
    - rewrite exec_ret. simpl. split; [apply students_insert_keeps|].
      exists row. split; [|done]. by apply inserted_selected_by_phone.
    - assert (snd (students_insert None name email phone db) = db) as ->.
      { revert Hi. unfold students_insert. by case_decide. }
      case_decide; rewrite exec_ret; simpl; eauto using keeps_sales_refl. }
  destruct (fst (students_maybe _ db)) as [[st|]|e] eqn:Hst; [|by apply (Hnew (Data None))
                                                              |by apply (Hnew (Error e))].
  apply students_maybe_some in Hst. rewrite exec_await, exec_ret. simpl.
  split; [apply students_update_keeps|].
  destruct (update_keeps_selected (fun s => st_phone s = phone) st
              (set_name_email name email) db) as (st' & Hsel & Hid); [done..|].
  by exists st'.
Qed.

(** The same block in the multi-event revision, keyed by student code. *)
Lemma batch_upsert sc name email phone db :
  keeps_sales db (snd (exec (Batch.upsert_student sc name email phone) db))
  /\ match fst (exec (Batch.upsert_student sc name email phone) db) with
     | inr sid =>
         exists st, filter (fun s => st_code s = Some sc)
                      (Students (snd (exec (Batch.upsert_student sc name email phone) db)))
                    = [st] /\ st_id st = sid
     | inl refusal =>
         snd (exec (Batch.upsert_student sc name email phone) db) = db
         /\ exists n msg, refusal = Reject n msg
     end.
Proof.
  unfold Batch.upsert_student. rewrite exec_await, students_maybe_db.
  assert (forall r : result (option Student),
    match r with Data (Some _) => False | _ => True end ->
    let p := (let! inserted := students_insert (Some sc) name email phone in
              match inserted with
              | Error stuErr =>
                  if decide (code stuErr = lit "23505")
                  then Ret (inl (Reject 400
                                   (lit "Phone or email already used by another student.")))
                  else Ret (inl (Reject 500 (lit "Failed to save student.")))
              | Data newStu => Ret (inr (st_id newStu))
              end) in
    keeps_sales db (snd (exec p db))
    /\ match fst (exec p db) with
       | inr sid => exists st, filter (fun s => st_code s = Some sc)
                                 (Students (snd (exec p db))) = [st] /\ st_id st = sid
       | inl refusal => snd (exec p db) = db /\ exists n msg, refusal = Reject n msg
       end) as Hnew.
  { intros _ _ p. subst p. rewrite exec_await.
    destruct (fst (students_insert (Some sc) name email phone db)) as [row|e] eqn:Hi.
    - rewrite exec_ret. simpl. split; [apply students_insert_keeps|].
      exists row. split; [|done]. by apply inserted_selected_by_code.
    - assert (snd (students_insert (Some sc) name email phone db) = db) as ->.
      { revert Hi. unfold students_insert. by case_decide. }
      case_decide; rewrite exec_ret; simpl; eauto using keeps_sales_refl. }
  destruct (fst (students_maybe _ db)) as [[st|]|e] eqn:Hst; [|by apply (Hnew (Data None))
                                                              |by apply (Hnew (Error e))].
  apply students_maybe_some in Hst. rewrite exec_await, exec_ret. simpl.
  split; [apply students_update_keeps|].
  destruct (update_keeps_selected (fun s => st_code s = Some sc) st
              (set_contact name phone email) db) as (st' & Hsel & Hid); [done..|].
  by exists st'.
Qed.

(** What a successful POST /api/register of [server.js] went through. *)
Lemma register_json user name phone email event_id pm txn db flds db' :
  exec (Portal.register user name phone email event_id pm txn) db = (Json flds, db') ->
  Portal.register_checks name phone email event_id pm txn = None
  /\ exists cost st dbm,
      fst (events_cost (ToString event_id) db) = Data cost
      /\ keeps_sales db dbm
      /\ filter (fun s => st_phone s = ToString phone) (Students dbm) = [st]
      /\ registrations_insert
           [Portal.new_row user event_id pm txn cost (st_id st)] dbm = (Data (), db').
Proof.
  unfold Portal.register.
  destruct (Portal.register_checks name phone email event_id pm txn) as [r|] eqn:Hc.
  { apply register_checks_reject in Hc as (n & msg & ->). by rewrite exec_ret. }
  intros H. split; [done|].
  rewrite exec_await, events_cost_db in H.
  destruct (fst (events_cost (ToString event_id) db)) as [cost|] eqn:Hev; [|done].
  exists cost. rewrite exec_or_return in H.
  destruct (portal_upsert (sanitize name) (toLowerCase (sanitize email)) (ToString phone) db)
    as [Hkeep Hup].
  destruct (fst (exec (Portal.upsert_student _ _ _) db)) as [refusal|sid] eqn:Hu.
  { destruct Hup as (_ & n & msg & ->). done. }
  destruct Hup as (st & Hsel & <-).
  exists st, (snd (exec (Portal.upsert_student (sanitize name)
                           (toLowerCase (sanitize email)) (ToString phone)) db)).
  split_and!; [done..|].
  revert H. unfold Portal.register_insert. rewrite exec_await.
  destruct (fst (registrations_insert _ _)) as [[]|e] eqn:Hi.
  - rewrite exec_ret. intros [= _ <-]. rewrite <- Hi. apply surjective_pair_eq.
  - case_decide; by rewrite exec_ret.
Qed.

Lemma batch_checks_reject a b c d e f g r :
  Batch.register_checks a b c d e f g = Some r -> exists n msg, r = Reject n msg.
Proof.
  unfold Batch.register_checks. repeat case_match; intros [=]; subst; eauto.
Qed.

Lemma batch_checks_array a b c d e f g :
  Batch.register_checks a b c d e f g = None ->
  exists ids, e = JArr ids /\ Forall (fun i => isUUID i = true) ids.
Proof.
  unfold Batch.register_checks. repeat case_match; intros [=]; subst; try done.
  destruct e; try done. simpl in *. simplify_eq. eexists. split; [done|].
  apply Forall_forall. intros i Hi.
  destruct (isUUID i) eqn:E; [done|]. exfalso.
  match goal with H : existsb _ _ = false |- _ => rename H into Hex end.
  apply not_true_iff_false in Hex. apply Hex, existsb_exists.
  exists i. rewrite E. split; [by apply list_elem_of_In|done].
Qed.

(** What a successful batch POST /api/register went through. *)
Lemma batch_json user student_id name phone email event_ids pm txn db flds db' :
  exec (Batch.register user student_id name phone email event_ids pm txn) db
  = (Json flds, db') ->
  Batch.register_checks student_id name phone email event_ids pm txn = None
  /\ exists ids st dbm,
      event_ids = JArr ids
      /\ keeps_sales db dbm
      /\ filter (fun s => st_code s = Some (toUpperCase (sanitize student_id)))
                (Students dbm) = [st]
      /\ let eventsData := filter (fun e => ev_id e ∈ map ToString ids) (Events db) in
         let registered :=
           Batch.alreadyRegistered (fst (registrations_of (st_id st) (map ToString ids) dbm)) in
         let fresh := Batch.newEventIds registered ids in
         registrations_insert (Batch.new_rows user pm txn eventsData (st_id st) fresh) dbm
         = (Data (), db')
         /\ flds = [("ok"%string, JBool true);
                    ("count"%string, JNum (Z.of_nat (length fresh)));
                    ("skipped"%string, JNum (Z.of_nat (size registered)))].
Proof.
  unfold Batch.register.
  destruct (Batch.register_checks student_id name phone email event_ids pm txn)
    as [r|] eqn:Hc.
  { apply batch_checks_reject in Hc as (n & msg & ->). by rewrite exec_ret. }
  intros H. split; [done|].
  apply batch_checks_array in Hc as (ids & -> & _). simpl in H.
  rewrite exec_await in H. simpl in H.
  destruct (length (filter _ (Events db)) =? 0); [done|].
  rewrite exec_or_return in H.
  destruct (batch_upsert (toUpperCase (sanitize student_id)) (sanitize name)
              (toLowerCase (sanitize email)) (ToString phone) db) as [Hkeep Hup].
  destruct (fst (exec (Batch.upsert_student _ _ _ _) db)) as [refusal|sid] eqn:Hu.
  { destruct Hup as (_ & n & msg & ->). done. }
  destruct Hup as (st & Hsel & <-).
  exists ids, st, (snd (exec (Batch.upsert_student (toUpperCase (sanitize student_id))
                     (sanitize name) (toLowerCase (sanitize email)) (ToString phone)) db)).
  do 3 (split; [done|]). cbv zeta.
  revert H. unfold Batch.register_new. rewrite exec_await. simpl fst. simpl snd.
  destruct (length (Batch.newEventIds _ ids) =? 0); [done|].
  rewrite exec_await.
  destruct (fst (registrations_insert _ _)) as [[]|e] eqn:Hi; [|done].
  rewrite exec_ret. intros [= <- <-].
  split; [|unfold Batch.new_rows; by rewrite length_map].
  rewrite <- Hi. apply surjective_pair_eq.
Qed.

(** ** Rows written by the routes *)

Lemma number_elem n rows r :
  r ∈ number n rows -> exists rid o, o ∈ rows /\ r = stored rid o.
Proof.
  revert n. induction rows as [|o rows IH]; intros n; simpl.
  - by intros ?%elem_of_nil.
  - intros [->|Hin]%elem_of_cons.
    + exists (gen_id n), o. split; [left|done].
    + destruct (IH _ Hin) as (rid & o' & Ho & ->). exists rid, o'. split; [by right|done].
Qed.

Lemma number_length n rows : length (number n rows) = length rows.
Proof. revert n. induction rows as [|o rows IH]; intros n; simpl; [done|]. by rewrite IH. Qed.

Lemma number_pairs n rows :
  map pair_of (number n rows)
  = map (fun o => (student_id o, ToString (event_id o))) rows.
Proof. revert n. induction rows as [|o rows IH]; intros n; simpl; [done|]. by rewrite IH. Qed.

Lemma method_listed_cases pm :
  method_listed pm = true -> pm = JStr (lit "cash") \/ pm = JStr (lit "upi").
Proof.
  unfold method_listed, is_text. destruct pm; try done.
  intros [H|H]%orb_true_iff; apply bool_decide_eq_true in H; subst; auto.
Qed.

Lemma txn_for_rule pm t :
  method_listed pm = true ->
  (ToString pm = lit "cash" -> txn_for pm (clean_txn t) = JNull)
  /\ (txn_for pm (clean_txn t) <> JNull -> ToString pm = lit "upi").
Proof.
  intros [-> | ->]%method_listed_cases; split; try done.
Qed.

Lemma portal_checks_method a b c d e f :
  Portal.register_checks a b c d e f = None -> method_listed e = true.
Proof.
  unfold Portal.register_checks. repeat case_match; intros [=].
  by destruct (method_listed e).
Qed.

Lemma batch_checks_method a b c d e f g :
  Batch.register_checks a b c d e f g = None -> method_listed f = true.
Proof.
  unfold Batch.register_checks. repeat case_match; intros [=]; try done.
  by destruct (method_listed f).
Qed.

Lemma sales_checks_method rid a b c d e f g :
  Portal.sales_checks rid a b c d e f g = None -> method_listed f = true.
Proof.
  unfold Portal.sales_checks. repeat case_match; intros [=].
  by destruct (method_listed f).
Qed.

Lemma sales_checks_reject rid a b c d e f g r :
  Portal.sales_checks rid a b c d e f g = Some r -> exists n msg, r = Reject n msg.
Proof.
  unfold Portal.sales_checks. repeat case_match; intros [=]; subst; eauto.
Qed.

(** What a successful PUT /api/sales/:id of [server.js] went through. *)
Lemma edit_json user rid student_id name phone email event_id pm txn db flds db' :
  exec (Portal.edit user rid student_id name phone email event_id pm txn) db
  = (Json flds, db') ->
  Portal.sales_checks rid student_id name phone email event_id pm txn = None
  /\ exists owner cost dbm,
      fst (registration_owner rid db) = Data owner
      /\ Portal.canMutate user owner = true
      /\ fst (events_cost (ToString event_id) db) = Data cost
      /\ keeps_sales db dbm
      /\ registrations_update rid (Portal.edit_registration event_id pm txn cost) dbm
         = (Data (), db').
Proof.
  unfold Portal.edit.
  destruct (Portal.sales_checks rid student_id name phone email event_id pm txn)
    as [r|] eqn:Hc.
  { apply sales_checks_reject in Hc as (n & msg & ->). by rewrite exec_ret. }
  intros H. split; [done|].
  rewrite exec_await, registration_owner_db in H.
  destruct (fst (registration_owner rid db)) as [owner|] eqn:Ho; [|done].
  destruct (Portal.canMutate user owner) eqn:Hm; [|done]. simpl in H.
  rewrite exec_await, events_cost_db in H.
  destruct (fst (events_cost (ToString event_id) db)) as [cost|] eqn:Hev; [|done].
  rewrite !exec_await in H.
  exists owner, cost,
    (snd (students_update (ToString student_id)
            (set_contact (sanitize name) (ToString phone) (toLowerCase (sanitize email))) db)).
  split_and!; [done..|apply students_update_keeps|].
  destruct (fst (registrations_update _ _ _)) as [[]|e] eqn:Hi; [|done].
  rewrite exec_ret in H. injection H as _ <-. rewrite <- Hi. apply surjective_pair_eq.
Qed.

(** C10: whatever [transaction_id] the request carries, a registration
    written by a successful create or edit has a null [transaction_id]
    when its [payment_method] is [cash], and a non-null one only when it
    is [upi]: in [server.js] the row appended by POST /api/register and
    the row rewritten by PUT /api/sales/:id, in the multi-event revision
    every row appended by the batch. *)
Theorem cash_stores_no_transaction_id (user : identity) (rid : list N)
    (body : gmap string jsval) (db : Db) :
  (forall flds db',
     exec (Portal.post_register user body) db = (Json flds, db') ->
     exists r, Registrations db' = Registrations db ++ [r] /\ txn_rule r)
  /\ (forall flds db',
        exec (Portal.put_sales user rid body) db = (Json flds, db') ->
        forall r, r ∈ Registrations db' -> rg_id r = rid -> txn_rule r)
  /\ (forall flds db',
        exec (Batch.post_register user body) db = (Json flds, db') ->
        exists rows, Registrations db' = Registrations db ++ rows
                     /\ Forall txn_rule rows).
Proof.
  split_and!.
  - intros flds db' H. apply register_json in H
      as (Hc & cost & st & dbm & _ & (_ & Hr & _) & _ & Hi).
    apply portal_checks_method in Hc.
    apply registrations_insert_data in Hi as (Hregs & _).
    simpl in Hregs. rewrite Hr in Hregs.
    eexists. split; [exact Hregs|]. by apply txn_for_rule.
  - intros flds db' H r Hin Hid. apply edit_json in H
      as (Hc & owner & cost & dbm & _ & _ & _ & _ & Hi).
    apply sales_checks_method in Hc.
    apply registrations_update_data in Hi as (Hregs & _). rewrite Hregs in Hin.
    apply list_elem_of_fmap in Hin as (r0 & -> & _).
    case_decide as Hr0; [by apply txn_for_rule|]. done.
  - intros flds db' H. apply batch_json in H
      as (Hc & ids & st & dbm & _ & (_ & Hr & _) & _ & Hi & _).
    apply batch_checks_method in Hc.
    apply registrations_insert_data in Hi as (Hregs & _). rewrite Hr in Hregs.
    eexists. split; [exact Hregs|].
    apply Forall_forall. intros r (rid' & o & Ho & ->)%number_elem.
    unfold Batch.new_rows in Ho. apply list_elem_of_fmap in Ho as (eid & -> & _).
    by apply txn_for_rule.
Qed.

(** ** Authoritative pricing *)

Lemma eventMap_snoc l e : Batch.eventMap (l ++ [e]) = <[ev_id e := ev_cost e]> (Batch.eventMap l).
Proof. unfold Batch.eventMap. by rewrite foldl_snoc. Qed.

Lemma eventMap_some l k c :
  Batch.eventMap l !! k = Some c -> exists e, e ∈ l /\ ev_id e = k /\ ev_cost e = c.
Proof.
  induction l as [|e l IH] using rev_ind.
  - unfold Batch.eventMap. simpl. by rewrite lookup_empty.
  - rewrite eventMap_snoc. destruct (decide (ev_id e = k)) as [<-|Hne].
    + rewrite lookup_insert_eq. intros [= <-]. exists e. split; [|done].
      apply elem_of_app. right. left.
    + rewrite lookup_insert_ne by done. intros (e' & Hin & ? & ?)%IH.
      exists e'. split; [|done]. apply elem_of_app. by left.
Qed.

Lemma eventMap_is_some l k :
  k ∈ map ev_id l -> is_Some (Batch.eventMap l !! k).
Proof.
  induction l as [|e l IH] using rev_ind; [by intros ?%elem_of_nil|].
  rewrite map_app, eventMap_snoc. simpl.
  destruct (decide (ev_id e = k)) as [<-|Hne].
  - rewrite lookup_insert_eq. eauto.
  - rewrite lookup_insert_ne by done.
    intros [Hin|Hin]%elem_of_app; [by apply IH|].
    apply list_elem_of_singleton in Hin. congruence.
Qed.

Lemma field_insert_ne body k v k' : k <> k' -> field (<[k:=v]> body) k' = field body k'.
Proof. intros Hne. unfold field. by rewrite lookup_insert_ne. Qed.

Lemma registered_for_row db sid e :
  registered_for db sid e
  <-> exists r, r ∈ Registrations db /\ rg_student r = sid /\ rg_event r = e.
Proof.
  unfold registered_for. rewrite list_elem_of_fmap. unfold pair_of. split.
  - intros (r & [= -> ->] & Hin). by exists r.
  - intros (r & Hin & <- & <-). by exists r.
Qed.

Lemma has_is_registered sid ids db v :
  Batch.has (Batch.alreadyRegistered (fst (registrations_of sid (map ToString ids) db))) v
  = true ->
  exists e, v = JStr e /\ registered_for db sid e.
Proof.
  destruct v as [| | | |e|]; try done. simpl. intros Hin%bool_decide_eq_true.
  exists e. split; [done|]. unfold Batch.alreadyRegistered, registrations_of in Hin.
  simpl in Hin. apply elem_of_list_to_set, list_elem_of_fmap in Hin as (r & -> & Hr).
  apply list_elem_of_filter in Hr as [[Hs _] Hr]. apply registered_for_row. by exists r.
Qed.

(** The rows a successful batch POST /api/register has inserted: the
    route goes on only with a non-empty list of new event ids. *)
Lemma batch_json_fresh user student_id name phone email event_ids pm txn db flds db' :
  exec (Batch.register user student_id name phone email event_ids pm txn) db
  = (Json flds, db') ->
  exists ids st dbm,
    event_ids = JArr ids
    /\ keeps_sales db dbm
    /\ let eventsData := filter (fun e => ev_id e ∈ map ToString ids) (Events db) in
       let registered :=
         Batch.alreadyRegistered (fst (registrations_of (st_id st) (map ToString ids) dbm)) in
       let fresh := Batch.newEventIds registered ids in
       fresh <> []
       /\ registrations_insert (Batch.new_rows user pm txn eventsData (st_id st) fresh) dbm
          = (Data (), db').
Proof.
  unfold Batch.register.
  destruct (Batch.register_checks student_id name phone email event_ids pm txn)
    as [r|] eqn:Hc.
  { apply batch_checks_reject in Hc as (n & msg & ->). by rewrite exec_ret. }
  intros H.
  apply batch_checks_array in Hc as (ids & -> & _). simpl in H.
  rewrite exec_await in H. simpl in H.
  destruct (length (filter _ (Events db)) =? 0); [done|].
  rewrite exec_or_return in H.
  destruct (batch_upsert (toUpperCase (sanitize student_id)) (sanitize name)
              (toLowerCase (sanitize email)) (ToString phone) db) as [Hkeep Hup].
  destruct (fst (exec (Batch.upsert_student _ _ _ _) db)) as [refusal|sid] eqn:Hu.
  { destruct Hup as (_ & n & msg & ->). done. }
  destruct Hup as (st & Hsel & <-).
  exists ids, st, (snd (exec (Batch.upsert_student (toUpperCase (sanitize student_id))
                     (sanitize name) (toLowerCase (sanitize email)) (ToString phone)) db)).
  do 2 (split; [done|]). cbv zeta.
  revert H. unfold Batch.register_new. rewrite exec_await. simpl fst. simpl snd.
  match goal with |- context [Nat.eqb (length ?l) 0] =>
    destruct (Nat.eqb_spec (length l) 0) as [|Hfresh] end; [done|].
  rewrite exec_await.
  destruct (fst (registrations_insert _ _)) as [[]|e] eqn:Hi; [|done].
  rewrite exec_ret. intros [= _ <-]. split.
  - intros E. by rewrite E in Hfresh.
  - rewrite <- Hi. apply surjective_pair_eq.
Qed.

(** C1: a registration written by POST /api/register carries as
    [amount_paid] the cost the Events table holds for its event: in
    [server.js] the one row appended has the cost of the one event with
    the requested id; in the multi-event revision a success appends at
    least one row, every appended row is for the resolved student and
    for a requested id, every requested id that the student did not hold
    gets a row, and every appended row whose event exists has that
    event's cost.  The route reads nothing of the body but its named
    properties, so adding or changing any other property ([amount],
    [cost], [amount_paid], ...) leaves the handler, hence the stored
    amount, the same. *)
Theorem amount_paid_is_stored_cost (user : identity) (body : gmap string jsval)
    (db : Db) :
  (forall flds db',
     exec (Portal.post_register user body) db = (Json flds, db') ->
     exists r e,
       Registrations db' = Registrations db ++ [r]
       /\ Events db' = Events db
       /\ rg_event r = ToString (field body "event_id")
       /\ filter (fun e => ev_id e = rg_event r) (Events db) = [e]
       /\ rg_amount r = ev_cost e)
  /\ (forall flds db',
        exec (Batch.post_register user body) db = (Json flds, db') ->
        exists ids sid rows,
          field body "event_ids" = JArr ids
          /\ Registrations db' = Registrations db ++ rows
          /\ Events db' = Events db
          /\ rows <> []
          /\ Forall (fun r => rg_student r = sid
                              /\ exists i, i ∈ ids /\ rg_event r = ToString i) rows
          /\ (forall e, JStr e ∈ ids -> ~ registered_for db sid e ->
                exists r, r ∈ rows /\ rg_event r = e)
          /\ forall r, r ∈ rows -> event_exists db (rg_event r) ->
               exists e, e ∈ Events db /\ ev_id e = rg_event r /\ rg_amount r = ev_cost e)
  /\ (forall (k : string) (v : jsval),
        k ∉ portal_keys ->
        Portal.post_register user (<[k:=v]> body) = Portal.post_register user body)
  /\ (forall (k : string) (v : jsval),
        k ∉ batch_keys ->
        Batch.post_register user (<[k:=v]> body) = Batch.post_register user body).
Proof.
  split_and!.
  - intros flds db' H. apply register_json in H
      as (_ & cost & st & dbm & Hev & (He & Hr & _) & _ & Hi).
    apply events_cost_data in Hev as (e & Hf & ->).
    apply registrations_insert_data in Hi as (Hregs & Hevs & _).
    simpl in Hregs. rewrite Hr in Hregs.
    eexists _, e. split_and!; [exact Hregs|congruence|done..].
  - intros flds db' H. apply batch_json_fresh in H
      as (ids & st & dbm & Hids & (He & Hr & _) & Hfresh & Hi).
    apply registrations_insert_data in Hi as (Hregs & Hevs & _). rewrite Hr in Hregs.
    set (registered := Batch.alreadyRegistered
           (fst (registrations_of (st_id st) (map ToString ids) dbm))) in *.
    exists ids, (st_id st). eexists.
    split_and!; [exact Hids|exact Hregs|congruence|..].
    + destruct (Batch.newEventIds registered ids); [done|]. simpl. done.
    + apply Forall_forall. intros r (rid' & o & Ho & ->)%number_elem.
      unfold Batch.new_rows in Ho. apply list_elem_of_fmap in Ho as (eid & -> & Heid).
      simpl. split; [done|]. exists eid. split; [|done].
      unfold Batch.newEventIds in Heid. apply list_elem_of_In, filter_In in Heid as [Heid _].
      by apply list_elem_of_In.
    + intros e Hin Hnot.
      assert (Batch.has registered (JStr e) = false) as Hh.
      { destruct (Batch.has registered (JStr e)) eqn:Hh; [|done]. exfalso.
        apply has_is_registered in Hh as (e' & [= <-] & Hreg).
        apply Hnot. unfold registered_for in *. by rewrite <- Hr. }
      assert ((st_id st, e)
              ∈ map pair_of (number (serial dbm)
                               (Batch.new_rows user (field body "payment_method")
                                  (field body "transaction_id")
                                  (filter (fun e0 => ev_id e0 ∈ map ToString ids) (Events db))
                                  (st_id st) (Batch.newEventIds registered ids)))) as Hp.
      { rewrite number_pairs. apply list_elem_of_fmap.
        eexists (MkNewRegistration (st_id st) (JStr e) _ _ _ _). split; [done|].
        unfold Batch.new_rows. apply list_elem_of_fmap. exists (JStr e). split; [done|].
        unfold Batch.newEventIds. apply list_elem_of_In, filter_In.
        split; [by apply list_elem_of_In|]. by rewrite Hh. }
      apply list_elem_of_fmap in Hp as (r & Hpair & Hr').
      exists r. split; [exact Hr'|]. unfold pair_of in Hpair. congruence.
    + intros r (rid' & o & Ho & ->)%number_elem Hex.
      unfold Batch.new_rows in Ho. apply list_elem_of_fmap in Ho as (eid & -> & Heid).
      simpl in *. unfold Batch.cost_of.
      set (eventsData := filter _ (Events db)).
      assert (ToString eid ∈ map ev_id eventsData) as Hk.
      { unfold event_exists in Hex. apply list_elem_of_fmap in Hex as (e & Heq & Hin).
        apply list_elem_of_fmap. exists e. split; [done|].
        apply list_elem_of_filter. split; [|done]. rewrite <- Heq.
        apply list_elem_of_fmap. exists eid. split; [done|].
        unfold Batch.newEventIds in Heid. apply list_elem_of_In, filter_In in Heid as [Heid _].
        by apply list_elem_of_In. }
      apply eventMap_is_some in Hk as [c Hc]. rewrite Hc. simpl.
      apply eventMap_some in Hc as (e & [_ Hin]%list_elem_of_filter & Hid & Hcost).
      by exists e.
  - intros k v Hk. unfold Portal.post_register, portal_keys in *.
    rewrite !field_insert_ne; [done|intros ->; apply Hk; set_solver..].
  - intros k v Hk. unfold Batch.post_register, batch_keys in *.
    rewrite !field_insert_ne; [done|intros ->; apply Hk; set_solver..].
Qed.

(** ** Batch counts *)

Lemma ToString_JStr (l : list (list N)) : map ToString (map JStr l) = l.
Proof. induction l as [|s l IH]; simpl; [done|]. by rewrite IH. Qed.

Lemma alreadyRegistered_strings db sid (eids : list (list N)) :
  Batch.alreadyRegistered (fst (registrations_of sid (map ToString (map JStr eids)) db))
  = list_to_set (filter (registered_for db sid) eids).
Proof.
  rewrite ToString_JStr. unfold Batch.alreadyRegistered, registrations_of. simpl.
  apply set_eq. intros e. rewrite !elem_of_list_to_set, list_elem_of_fmap. split.
  - intros (r & -> & [[Hs He] Hin]%list_elem_of_filter).
    apply list_elem_of_filter. split; [|done]. apply registered_for_row. by exists r.
  - intros [(r & Hin & Hs & He)%registered_for_row Heids]%list_elem_of_filter.
    exists r. split; [done|]. apply list_elem_of_filter. by subst.
Qed.

Lemma newEventIds_strings (S : gset (list N)) (eids : list (list N)) :
  Batch.newEventIds S (map JStr eids) = map JStr (filter (fun e => e ∉ S) eids).
Proof.
  unfold Batch.newEventIds. induction eids as [|e eids IH]; [done|]. simpl.
  rewrite filter_cons, IH. destruct (decide (e ∈ S)) as [Hin|Hin].
  - rewrite (bool_decide_eq_true_2 _ Hin). simpl. by rewrite decide_False by auto.
  - rewrite (bool_decide_eq_false_2 _ Hin). simpl. by rewrite decide_True.
Qed.

Lemma filter_split_length {A : Type} (P : A -> Prop) `{!forall a, Decision (P a)}
    (l : list A) :
  length (filter P l) + length (filter (fun a => ~ P a) l) = length l.
Proof.
  induction l as [|a l IH]; [done|]. rewrite !filter_cons.
  destruct (decide (P a)); [rewrite decide_False by auto|rewrite decide_True by auto];
    simpl; lia.
Qed.

Lemma filter_ext_elem {A : Type} (P Q : A -> Prop) `{!forall a, Decision (P a)}
    `{!forall a, Decision (Q a)} (l : list A) :
  (forall a, a ∈ l -> P a <-> Q a) -> filter P l = filter Q l.
Proof.
  induction l as [|a l IH]; intros HPQ; [done|]. rewrite !filter_cons.
  rewrite IH by (intros b Hb; apply HPQ; by right).
  destruct (decide (P a)) as [Hp|Hp].
  - rewrite decide_True; [done|]. by apply (HPQ a); [left|].
  - rewrite decide_False; [done|]. intros Hq. apply Hp. by apply (HPQ a); [left|].
Qed.

(** On string ids the route's partition is the partition by
    [registered_for]. *)
Lemma fresh_strings db sid (eids : list (list N)) :
  Batch.newEventIds
    (Batch.alreadyRegistered (fst (registrations_of sid (map ToString (map JStr eids)) db)))
    (map JStr eids)
  = map JStr (filter (fun e => ~ registered_for db sid e) eids).
Proof.
  rewrite alreadyRegistered_strings, newEventIds_strings. f_equal.
  apply filter_ext_elem. intros e He.
  rewrite elem_of_list_to_set, list_elem_of_filter. tauto.
Qed.

Lemma new_rows_pairs user pm txn eventsData sid n (l : list (list N)) :
  map pair_of (number n (Batch.new_rows user pm txn eventsData sid (map JStr l)))
  = map (fun e => (sid, e)) l.
Proof.
  rewrite number_pairs. unfold Batch.new_rows. rewrite <- !list_fmap_compose.
  by apply list_fmap_ext.
Qed.

Lemma new_rows_events user pm txn eventsData sid n (l : list (list N)) :
  map rg_event (number n (Batch.new_rows user pm txn eventsData sid (map JStr l))) = l.
Proof.
  revert n. induction l as [|e l IH]; intros n; simpl; [done|]. by rewrite IH.
Qed.

(** From the duplicate check on, for string ids: of [N] distinct ids
    with [K] registered, [N - K] rows are appended, or the request is
    refused when none is left. *)
Lemma register_new_counts user (eids : list (list N)) pm txn eventsData sid db :
  NoDup eids ->
  registrations_unique (Registrations db) ->
  Forall (event_exists db) eids ->
  let k := length (filter (registered_for db sid) eids) in
  let n := length eids in
  (k < n ->
   exists db' rows,
     exec (Batch.register_new user (map JStr eids) pm txn eventsData sid) db
     = (Json [("ok"%string, JBool true);
              ("count"%string, JNum (Z.of_nat (n - k)));
              ("skipped"%string, JNum (Z.of_nat k))], db')
     /\ Registrations db' = Registrations db ++ rows
     /\ length rows = n - k)
  /\ (k = n ->
      exec (Batch.register_new user (map JStr eids) pm txn eventsData sid) db
      = (Reject 400 (lit "Student is already registered for all selected events."), db)).
Proof.
  intros Hnd Huniq Hex k n.
  pose proof (filter_split_length (registered_for db sid) eids) as Hlen.
  unfold Batch.register_new. rewrite exec_await. cbv zeta.
  rewrite fresh_strings, alreadyRegistered_strings, length_map.
  change (snd (registrations_of sid (map ToString (map JStr eids)) db)) with db.
  set (fr := filter (fun e => ~ registered_for db sid e) eids) in *.
  fold k n in Hlen. split.
  - intros HK. destruct (Nat.eqb_spec (length fr) 0) as [E|_]; [lia|].
    rewrite exec_await.
    set (rows := Batch.new_rows user pm txn eventsData sid (map JStr fr)).
    assert (registrations_unique (Registrations db ++ number (serial db) rows)) as Hu.
    { unfold registrations_unique. rewrite map_app. subst rows. rewrite new_rows_pairs.
      apply NoDup_app. split_and!; [done| |].
      - intros p Hp [e [-> He]]%list_elem_of_fmap.
        apply list_elem_of_filter in He as [He _]. by apply He.
      - apply NoDup_fmap_2; [|by apply NoDup_filter]. by intros ?? [=]. }
    assert (events_known db (number (serial db) rows)) as Hk.
    { unfold events_known. destruct (event_fk db); [|done].
      apply Forall_forall. intros r Hr.
      assert (rg_event r ∈ map rg_event (number (serial db) rows)) as He
        by by apply list_elem_of_fmap_2.
      subst rows. rewrite new_rows_events in He.
      apply list_elem_of_filter in He as [_ He].
      by eapply Forall_forall in Hex. }
    assert (length rows = n - k) as Hrows.
    { subst rows. unfold Batch.new_rows. rewrite !length_map. lia. }
    assert (size (list_to_set (filter (registered_for db sid) eids) : gset (list N)) = k)
      as Hsize.
    { apply size_list_to_set. by apply NoDup_filter. }
    unfold registrations_insert. rewrite decide_True, decide_True by done. simpl.
    rewrite exec_ret, Hrows, Hsize. eexists _, _.
    split_and!; [done|done|by rewrite number_length].
  - intros HK. destruct (Nat.eqb_spec (length fr) 0) as [_|E]; [|lia]. by rewrite exec_ret.
Qed.

Lemma batch_checks_length a b c d e f g :
  Batch.register_checks a b c d e f g = None -> Batch.has_length e = true.
Proof.
  unfold Batch.register_checks. repeat case_match; intros [=]; try done.
  destruct (Batch.has_length e); [done|].
  match goal with H : _ || _ = false |- _ => revert H end.
  rewrite !orb_false_iff. simpl. intros [[_ [=]] _].
Qed.

Lemma registered_for_keeps db dbm sid (eids : list (list N)) :
  keeps_sales db dbm ->
  filter (registered_for dbm sid) eids = filter (registered_for db sid) eids.
Proof.
  intros (_ & Hr & _). apply filter_ext_elem. intros e _.
  unfold registered_for. by rewrite Hr.
Qed.

(** C2: a valid batch of [n] distinct event ids, all existing, for a
    student the route resolves to [sid] (found, or created by the
    student block), [k] of them already registered for [sid]: when
    [k < n] the reply is [{ok, count: n-k, skipped: k}] and exactly
    [n - k] rows are appended to Registrations; when [k = n] the reply is
    the 400 refusal and Registrations is unchanged. *)
Theorem batch_counts (user : identity) (body : gmap string jsval) (db : Db)
    (eids : list (list N)) (sid : list N) (dbm : Db) :
  Batch.register_refusal body = None ->
  field body "event_ids" = JArr (map JStr eids) ->
  NoDup eids ->
  Forall (event_exists db) eids ->
  registrations_unique (Registrations db) ->
  exec (Batch.upsert_of body) db = (inr sid, dbm) ->
  let n := length eids in
  let k := length (filter (registered_for db sid) eids) in
  k <= n
  /\ (k < n ->
      exists db' rows,
        exec (Batch.post_register user body) db
        = (Json [("ok"%string, JBool true);
                 ("count"%string, JNum (Z.of_nat (n - k)));
                 ("skipped"%string, JNum (Z.of_nat k))], db')
        /\ Registrations db' = Registrations db ++ rows
        /\ length rows = n - k)
  /\ (k = n ->
      exec (Batch.post_register user body) db
      = (Reject 400 (lit "Student is already registered for all selected events."), dbm)
      /\ Registrations dbm = Registrations db).
Proof.
  intros Hc Hids Hnd Hex Huniq Hup n k.
  split; [apply length_filter|].
  pose proof (batch_upsert (toUpperCase (sanitize (field body "student_id")))
                (sanitize (field body "name")) (toLowerCase (sanitize (field body "email")))
                (ToString (field body "phone")) db) as [Hkeep _].
  unfold Batch.upsert_of in Hup. rewrite Hup in Hkeep. simpl in Hkeep.
  assert (exec (Batch.post_register user body) db
          = exec (Batch.register_new user (map JStr eids) (field body "payment_method")
                    (field body "transaction_id")
                    (filter (fun e => ev_id e ∈ eids) (Events db)) sid) dbm) as ->.
  { unfold Batch.register_refusal in Hc. pose proof (batch_checks_length _ _ _ _ _ _ _ Hc) as Hl.
    unfold Batch.post_register, Batch.register. rewrite Hc, Hids. simpl.
    rewrite exec_await. simpl. rewrite ToString_JStr.
    destruct (Nat.eqb_spec (length (filter (fun e => ev_id e ∈ eids) (Events db))) 0)
      as [E|_].
    - exfalso. rewrite Hids in Hl. destruct eids as [|e eids]; [done|].
      inversion_clear Hex as [|?? He _]. unfold event_exists in He.
      apply list_elem_of_fmap in He as (ev & -> & Hin).
      assert (ev ∈ filter (fun e0 => ev_id e0 ∈ ev_id ev :: eids) (Events db)) as Hf.
      { apply list_elem_of_filter. split; [left|done]. }
      destruct (filter _ (Events db)); [by apply elem_of_nil in Hf|done].
    - rewrite exec_or_return, Hup. done. }
  assert (Forall (event_exists dbm) eids) as Hex'.
  { destruct Hkeep as (He & _). unfold event_exists. by rewrite He. }
  assert (registrations_unique (Registrations dbm)) as Huniq'.
  { destruct Hkeep as (_ & Hr & _). by rewrite Hr. }
  destruct (register_new_counts user eids (field body "payment_method")
              (field body "transaction_id") (filter (fun e => ev_id e ∈ eids) (Events db))
              sid dbm Hnd Huniq' Hex') as [Hlt Heq].
  rewrite (registered_for_keeps db dbm sid eids Hkeep) in Hlt, Heq.
  destruct Hkeep as (_ & Hr & _). split.
  - intros Hk. destruct (Hlt Hk) as (db' & rows & -> & Hregs & Hlen).
    exists db', rows. rewrite <- Hr. done.
  - intros Hk. by rewrite (Heq Hk).
Qed.

(** ** One registration per student and event *)







(** The three ways the part after the student block ends. *)
Lemma register_new_cases user ids pm txn eventsData sid db :
  let registered :=
    Batch.alreadyRegistered (fst (registrations_of sid (map ToString ids) db)) in
  let fresh := Batch.newEventIds registered ids in
  let rows := Batch.new_rows user pm txn eventsData sid fresh in
  exec (Batch.register_new user ids pm txn eventsData sid) db =
  if Nat.eqb (length fresh) 0
  then (Reject 400 (lit "Student is already registered for all selected events."), db)
  else match fst (registrations_insert rows db) with
       | Data _ =>
           (Json [("ok"%string, JBool true);
                  ("count"%string, JNum (Z.of_nat (length rows)));
                  ("skipped"%string, JNum (Z.of_nat (size registered)))],
            snd (registrations_insert rows db))
       | Error e =>
           (Reject 500 (lit "Failed to create registration: " ++ message e), db)
       end.
Proof.
  intros registered fresh rows. unfold Batch.register_new. rewrite exec_await.
  change (snd (registrations_of sid (map ToString ids) db)) with db.
  fold registered. fold fresh. destruct (Nat.eqb (length fresh) 0); [done|].
  fold rows. rewrite exec_await.
  destruct (fst (registrations_insert rows db)) as [[]|e] eqn:Hi; rewrite exec_ret; [done|].
  by rewrite (registrations_insert_error _ _ _ Hi).
Qed.


(** After a successful batch every requested string id is registered
    for the student, once. *)
Lemma batch_registers_all user body db flds db1 ids e :
  exec (Batch.post_register user body) db = (Json flds, db1) ->
  field body "event_ids" = JArr ids -> JStr e ∈ ids ->
  exists st,
    filter (fun s => st_code s = Some (toUpperCase (sanitize (field body "student_id"))))
           (Students db1) = [st]
    /\ registered_for db1 (st_id st) e
    /\ registrations_unique (Registrations db1)
    /\ Events db1 = Events db.
Proof.
  intros H Hids He. apply batch_json in H
    as (_ & ids' & st & dbm & Hids' & (Hev & _) & Hsel & Hi & _).
  rewrite Hids in Hids'. injection Hids' as <-.
  apply registrations_insert_data in Hi as (Hregs & Hevs & Hstu & _ & Huniq & _).
  exists st. split_and!; [by rewrite Hstu| |by rewrite Hregs|congruence].
  unfold registered_for. rewrite Hregs, map_app. apply elem_of_app.
  destruct (Batch.has (Batch.alreadyRegistered
              (fst (registrations_of (st_id st) (map ToString ids) dbm))) (JStr e)) eqn:Hh.
  - left. by apply has_is_registered in Hh as (e' & [= <-] & Hreg).
  - right. rewrite number_pairs. apply list_elem_of_fmap.
    eexists (MkNewRegistration (st_id st) (JStr e) _ _ _ _). split; [done|].
    unfold Batch.new_rows. apply list_elem_of_fmap. exists (JStr e). split; [done|].
    unfold Batch.newEventIds. apply list_elem_of_In, filter_In.
    split; [by apply list_elem_of_In|]. by rewrite Hh.
Qed.



(** ** Concrete runs *)

Import Sample.

(** C3, on the code: a batch for the quiz (which exists) and for an id
    that no event carries passes the event check, because the route
    only tests that the read returned some row.  The student block runs
    and creates Asha; then, with the referential check, the insert of
    both rows fails as a whole and the reply is 500, and without it both
    rows are stored, the second with no amount. *)
Theorem missing_event_passes_the_check :
  let body := batch_body [JStr quiz; JStr ghost] "cash" JUndefined in
  let strict := exec (Batch.post_register alice body) (fresh_db true) in
  let loose := exec (Batch.post_register alice body) (fresh_db false) in
  fst strict = Reject 500 (lit "Failed to create registration: " ++ message fk_violation)
  /\ map st_code (Students (snd strict)) = [Some (lit "S1")]
  /\ Registrations (snd strict) = []
  /\ fst loose = Json [("ok"%string, JBool true); ("count"%string, JNum 2);
                       ("skipped"%string, JNum 0)]
  /\ map st_code (Students (snd loose)) = [Some (lit "S1")]
  /\ map (fun r => (rg_event r, rg_amount r)) (Registrations (snd loose))
     = [(quiz, JNum 100); (ghost, JUndefined)].
Proof. vm_compute. by repeat split. Qed.

(** C5, on the code: Asha is known and unregistered; while Alice's batch
    for the quiz and the dance waits between its duplicate check and its
    insert (its fifth database call), another request registers Asha for
    the quiz.  The insert is refused with 23505 and no row of the batch
    is stored, but the reply is 500, not the 400 that the single-event
    route gives on the same signal; a batch naming the quiz twice ends
    the same way with nobody else running. *)
Theorem batch_conflict_is_answered_500 :
  let body := batch_body [JStr quiz; JStr dance] "cash" JUndefined in
  let raced := run (racing 4 rival) 0 (Batch.post_register alice body) (known_db true) in
  let twice :=
    exec (Batch.post_register alice (batch_body [JStr quiz; JStr quiz] "cash" JUndefined))
         (known_db true) in
  let single :=
    run (racing 3 rival) 0
        (Portal.post_register alice (single_body quiz "cash" JUndefined []))
        (known_db true) in
  fst raced
  = Reject 500 (lit "Failed to create registration: " ++ message unique_violation)
  /\ Registrations (snd raced) = Registrations (rival (known_db true))
  /\ fst twice
     = Reject 500 (lit "Failed to create registration: " ++ message unique_violation)
  /\ Registrations (snd twice) = []
  /\ fst single = Reject 400 (lit "Student already registered for this event.")
  /\ Registrations (snd single) = Registrations (rival (known_db true)).
Proof. vm_compute. by repeat split. Qed.

(** Whatever the database holds when the batch insert is refused, the
    reply is 500 with the gateway's message and the database is left as
    the insert found it. *)
Lemma batch_insert_refused user ids pm txn eventsData sid db e :
  let fresh :=
    Batch.newEventIds
      (Batch.alreadyRegistered (fst (registrations_of sid (map ToString ids) db))) ids in
  fresh <> [] ->
  fst (registrations_insert (Batch.new_rows user pm txn eventsData sid fresh) db) = Error e ->
  exec (Batch.register_new user ids pm txn eventsData sid) db
  = (Reject 500 (lit "Failed to create registration: " ++ message e), db).
Proof.
  intros fresh Hne Hi. rewrite register_new_cases. fold fresh.
  destruct fresh; [done|]. simpl length. simpl Nat.eqb. cbv iota. by rewrite Hi.
Qed.

(** ** The theorems at work on the sample deployment *)

(** Alice logs in at time 0: her token resolves one millisecond before
    the twelve hours are over, and no longer at twelve hours, with Bob
    logging in meanwhile; and it is refused right after her logout. *)
Lemma session_lifetime_witness :
  let tok := lit "5f2a" in
  let alices : gmap string jsval :=
    {[ "email"%string := JStr (lit "alice@club.org");
       "password"%string := JStr (lit "secret-pw") ]} in
  let issued := snd (post_login alices (Some alice) tok idle) in
  let bobs := Login {[ "email"%string := JStr (lit "bob@club.org");
                       "password"%string := JStr (lit "secret-pw") ]}
                    (Some bob) (lit "77e1") in
  requireAuth (JStr tok) (do_steps [Elapse 43199999] issued) = inr alice
  /\ requireAuth (JStr tok) (do_steps [Elapse 40000000; bobs; Elapse 3200000] issued)
     = inl (Reject 401 (lit "Not logged in."))
  /\ requireAuth (JStr tok)
       (snd (post_logout (JStr tok) (do_steps [Elapse 43199999] issued)))
     = inl (Reject 401 (lit "Not logged in.")).
Proof.
  intros tok alices issued bobs. split_and!.
  - destruct (session_lifetime idle alices (Some alice) tok
                [("token"%string, JStr tok); ("name"%string, JStr (user_name alice));
                 ("role"%string, JStr (user_role alice))] [Elapse 43199999])
      as (ident & Hfound & _ & _ & H & _).
    + discriminate.
    + intros d Hd. inversion Hd.
    + repeat constructor.
    + reflexivity.
    + injection Hfound as <-. fold issued in H. rewrite H. reflexivity.
  - destruct (session_lifetime idle alices (Some alice) tok
                [("token"%string, JStr tok); ("name"%string, JStr (user_name alice));
                 ("role"%string, JStr (user_role alice))]
                [Elapse 40000000; bobs; Elapse 3200000])
      as (ident & Hfound & _ & _ & H & _).
    + discriminate.
    + intros d Hd. inversion Hd.
    + repeat constructor. discriminate.
    + reflexivity.
    + injection Hfound as <-. fold issued in H. rewrite H. reflexivity.
  - destruct (session_lifetime idle alices (Some alice) tok
                [("token"%string, JStr tok); ("name"%string, JStr (user_name alice));
                 ("role"%string, JStr (user_role alice))] [Elapse 43199999])
      as (ident & _ & _ & _ & _ & H & _).
    + discriminate.
    + intros d Hd. inversion Hd.
    + repeat constructor.
    + reflexivity.
    + fold issued in H. exact H.
Defined.

(** Alice may neither edit nor delete the registration Bob sold. *)
Lemma guard_refuses_strangers_witness :
  let body := edit_body dance "cash" (JStr (lit "T9")) in
  exec (Portal.put_sales alice (gen_id 1) body) (sold_db true)
  = (Reject 403 (lit "Not authorized."), sold_db true)
  /\ exec (Portal.delete_sales alice (gen_id 1)) (sold_db true)
     = (Reject 403 (lit "Not authorized."), sold_db true).
Proof.
  intros body.
  destruct (guard_refuses_strangers (sold_db true) (gen_id 1) (user_id bob) body alice
              (First.Member (user_id alice) (user_name alice) (user_email alice)))
    as (_ & H & _).
  - vm_compute. reflexivity.
  - vm_compute. reflexivity.
  - vm_compute. reflexivity.
  - apply H; vm_compute; discriminate.
Defined.

(** The quiz and the dance for Asha, who already holds the quiz: one row
    created, one id skipped. *)
Lemma batch_counts_witness :
  let body := batch_body [JStr quiz; JStr dance] "cash" JUndefined in
  exists db' rows,
    exec (Batch.post_register alice body) (sold_db true)
    = (Json [("ok"%string, JBool true); ("count"%string, JNum 1);
             ("skipped"%string, JNum 1)], db')
    /\ Registrations db' = Registrations (sold_db true) ++ rows
    /\ length rows = 1.
Proof.
  intros body.
  destruct (batch_counts alice body (sold_db true) [quiz; dance] (gen_id 0)
              (snd (exec (Batch.upsert_of body) (sold_db true)))) as (_ & H & _).
  - vm_compute. reflexivity.
  - reflexivity.
  - apply (bool_decide_unpack _). vm_compute. exact I.
  - apply (bool_decide_unpack _). vm_compute. exact I.
  - apply (bool_decide_unpack _). vm_compute. exact I.
  - vm_compute. reflexivity.
  - apply H. vm_compute. lia.
Defined.

(** A cash sale of the quiz to Asha, the client also sending an amount
    of 1 and a transaction id: the row stored has the quiz's cost; and a
    batch for the quiz and the dance stores a row for each, at each
    event's cost. *)
Lemma amount_paid_is_stored_cost_witness :
  let body := single_body quiz "cash" (JStr (lit "T1")) [("amount"%string, JNum 1)] in
  let batch := batch_body [JStr quiz; JStr dance] "cash" JUndefined in
  (exists r e,
     Registrations (snd (exec (Portal.post_register alice body) (known_db true)))
     = Registrations (known_db true) ++ [r]
     /\ Events (snd (exec (Portal.post_register alice body) (known_db true)))
        = Events (known_db true)
     /\ rg_event r = ToString (field body "event_id")
     /\ filter (fun e => ev_id e = rg_event r) (Events (known_db true)) = [e]
     /\ rg_amount r = ev_cost e)
  /\ (exists ids sid rows,
        field batch "event_ids" = JArr ids
        /\ Registrations (snd (exec (Batch.post_register alice batch) (known_db true)))
           = Registrations (known_db true) ++ rows
        /\ Events (snd (exec (Batch.post_register alice batch) (known_db true)))
           = Events (known_db true)
        /\ rows <> []
        /\ Forall (fun r => rg_student r = sid
                            /\ exists i, i ∈ ids /\ rg_event r = ToString i) rows
        /\ (forall e, JStr e ∈ ids -> ~ registered_for (known_db true) sid e ->
              exists r, r ∈ rows /\ rg_event r = e)
        /\ forall r, r ∈ rows -> event_exists (known_db true) (rg_event r) ->
             exists e, e ∈ Events (known_db true) /\ ev_id e = rg_event r
                       /\ rg_amount r = ev_cost e).
Proof.
  intros body batch. split.
  - destruct (amount_paid_is_stored_cost alice body (known_db true)) as (H & _).
    apply (H [("ok"%string, JBool true)]). vm_compute. reflexivity.
  - destruct (amount_paid_is_stored_cost alice batch (known_db true)) as (_ & H & _).
    apply (H [("ok"%string, JBool true); ("count"%string, JNum 2);
              ("skipped"%string, JNum 0)]).
    vm_compute. reflexivity.
Defined.

(** The same sale: the transaction id the client sent is not stored;
    likewise when Bob, the seller, edits his sale to cash, and for every
    row of a batch paid by UPI. *)
Lemma cash_stores_no_transaction_id_witness :
  let body := single_body quiz "cash" (JStr (lit "T1")) [] in
  let change := edit_body dance "cash" (JStr (lit "T9")) in
  let batch := batch_body [JStr quiz; JStr dance] "upi" (JStr (lit "T7")) in
  (exists r,
     Registrations (snd (exec (Portal.post_register alice body) (known_db true)))
     = Registrations (known_db true) ++ [r]
     /\ txn_rule r)
  /\ (forall r,
        r ∈ Registrations (snd (exec (Portal.put_sales bob (gen_id 1) change) (sold_db true))) ->
        rg_id r = gen_id 1 -> txn_rule r)
  /\ (exists rows,
        Registrations (snd (exec (Batch.post_register alice batch) (known_db true)))
        = Registrations (known_db true) ++ rows
        /\ Forall txn_rule rows).
Proof.
  intros body change batch. split_and!.
  - destruct (cash_stores_no_transaction_id alice (gen_id 1) body (known_db true)) as (H & _).
    apply (H [("ok"%string, JBool true)]). vm_compute. reflexivity.
  - destruct (cash_stores_no_transaction_id bob (gen_id 1) change (sold_db true))
      as (_ & H & _).
    apply (H [("ok"%string, JBool true)]). vm_compute. reflexivity.
  - destruct (cash_stores_no_transaction_id alice (gen_id 1) batch (known_db true))
      as (_ & _ & H).
    apply (H [("ok"%string, JBool true); ("count"%string, JNum 2);
              ("skipped"%string, JNum 0)]).
    vm_compute. reflexivity.
Defined.


(** * Further properties *)

(** ** Validators, continued *)

Lemma re_test_cons k n p s :
  re_test ((k, n) :: p) s = true <->
  exists pre rest, s = pre ++ rest /\ length pre = n
                   /\ Forall (fun c => in_class k c = true) pre /\ re_test p rest = true.
Proof.
  simpl. destruct (eat k n s) as [rest|] eqn:E.
  - pose proof (proj1 (eat_spec k n s rest) E) as (pre & -> & Hl & Hp). split.
    + intros Hr. by exists pre, rest.
    + intros (pre' & rest' & Heq & Hl' & Hp' & Hr).
      assert (pre' = pre) as ->.
      { apply (f_equal (take n)) in Heq.
        by rewrite !take_app_length' in Heq. }
      apply app_inv_head in Heq. by subst.
  - split; [done|]. intros (pre & rest & -> & Hl & Hp & _).
    assert (eat k n (pre ++ rest) = Some rest) as E'; [|congruence].
    apply eat_spec. by exists pre.
Qed.

Lemma in_class_hex c : in_class HexI c = true <-> is_hex c.
Proof.
  unfold is_hex. simpl. rewrite !orb_true_iff, !andb_true_iff, !N.leb_le. tauto.
Qed.

Lemma hyphen_only (pre : list N) :
  length pre = 1 -> Forall (fun c => in_class (Chr 45) c = true) pre -> pre = [45%N].
Proof.
  destruct pre as [|c [|]]; try done. intros _ Hc. inversion_clear Hc as [|?? H _].
  simpl in H. by apply N.eqb_eq in H as ->.
Qed.

Lemma hex_group_class n (pre : list N) :
  length pre = n /\ Forall (fun c => in_class HexI c = true) pre <-> hex_group n pre.
Proof.
  unfold hex_group. split; intros [Hl Hp]; (split; [done|]);
    (eapply Forall_impl; [exact Hp|]); intros c; apply in_class_hex.
Qed.

(** X1: [isUUID v] holds exactly when the text of [v] is five groups of
    hexadecimal digits, upper or lower case, of lengths 8-4-4-4-12 joined
    by hyphens; such a text has 36 code units. *)
Theorem isUUID_shape (v : jsval) :
  (isUUID v = true <-> uuid_shape (ToString v))
  /\ (isUUID v = true -> length (ToString v) = 36).
Proof.
  assert (isUUID v = true <-> uuid_shape (ToString v)) as Hiff.
  { unfold isUUID, uuid_re, uuid_shape. generalize (ToString v) as s. intros s.
    split.
    - intros H.
      apply re_test_cons in H as (a & r1 & -> & La & Ha & H).
      apply re_test_cons in H as (h1 & r2 & -> & L1 & H1 & H).
      apply re_test_cons in H as (b & r3 & -> & Lb & Hb & H).
      apply re_test_cons in H as (h2 & r4 & -> & L2 & H2 & H).
      apply re_test_cons in H as (c & r5 & -> & Lc & Hc & H).
      apply re_test_cons in H as (h3 & r6 & -> & L3 & H3 & H).
      apply re_test_cons in H as (d & r7 & -> & Ld & Hd & H).
      apply re_test_cons in H as (h4 & r8 & -> & L4 & H4 & H).
      apply re_test_cons in H as (e & r9 & -> & Le & He & H).
      destruct r9; [|done].
      rewrite (hyphen_only h1), (hyphen_only h2), (hyphen_only h3), (hyphen_only h4)
        by done.
      exists a, b, c, d, e. rewrite app_nil_r. simpl.
      split; [done|]. split_and!; by apply hex_group_class.
    - intros (a & b & c & d & e & -> & Ha & Hb & Hc & Hd & He).
      apply hex_group_class in Ha as [La Ha], Hb as [Lb Hb], Hc as [Lc Hc],
        Hd as [Ld Hd], He as [Le He].
      apply re_test_cons. exists a, (45%N :: b ++ 45%N :: c ++ 45%N :: d ++ 45%N :: e).
      split_and!; [done..|].
      apply re_test_cons. exists [45%N], (b ++ 45%N :: c ++ 45%N :: d ++ 45%N :: e).
      split_and!; [done|done|by repeat constructor|].
      apply re_test_cons. exists b, (45%N :: c ++ 45%N :: d ++ 45%N :: e).
      split_and!; [done..|].
      apply re_test_cons. exists [45%N], (c ++ 45%N :: d ++ 45%N :: e).
      split_and!; [done|done|by repeat constructor|].
      apply re_test_cons. exists c, (45%N :: d ++ 45%N :: e).
      split_and!; [done..|].
      apply re_test_cons. exists [45%N], (d ++ 45%N :: e).
      split_and!; [done|done|by repeat constructor|].
      apply re_test_cons. exists d, (45%N :: e).
      split_and!; [done..|].
      apply re_test_cons. exists [45%N], e.
      split_and!; [done|done|by repeat constructor|].
      apply re_test_cons. exists e, []. rewrite app_nil_r. by split_and!. }
  split; [exact Hiff|].
  intros (a & b & c & d & e & -> & [La _] & [Lb _] & [Lc _] & [Ld _] & [Le _])%Hiff.
  repeat (rewrite length_app || rewrite length_cons). lia.
Qed.

Lemma trim_fixed (s : list N) : trim s = s <-> starts_clean s /\ ends_clean s.
Proof.
  unfold ends_clean. split.
  - intros H. split.
    + rewrite <- H. unfold trim. apply trim_end_clean, trim_start_clean.
    + rewrite <- H. unfold trim, trim_end. rewrite rev_involutive. apply trim_start_clean.
  - intros [Hs He]. unfold trim, trim_end. rewrite (trim_start_id s Hs).
    rewrite (trim_start_id (rev s) He). apply rev_involutive.
Qed.

(** X2: What [sanitize] guarantees and what it leaves alone: its result
    never contains one of the five deleted characters and never exceeds
    500 code units; and a string comes back unchanged exactly when it
    has none of those characters, no white space at either end and at
    most 500 code units. *)
Theorem sanitize_guarantee (v : jsval) :
  Forall (fun c => dangerous c = false) (sanitize v)
  /\ length (sanitize v) <= 500
  /\ (forall s : list N,
        sanitize (JStr s) = s
        <-> harmless s /\ starts_clean s /\ ends_clean s /\ length s <= 500).
Proof.
  split; [apply sanitize_harmless|]. split; [apply sanitize_short|].
  intros s. split.
  - intros H.
    assert (harmless s) as Hh by (rewrite <- H; apply sanitize_harmless).
    assert (length s <= 500) as Hl by (rewrite <- H; apply sanitize_short).
    rewrite sanitize_clean in H by done. apply trim_fixed in H as [? ?]. done.
  - intros (Hh & Hs & He & Hl). rewrite sanitize_clean by done. by apply trim_fixed.
Qed.

(** ** Session store, continued *)

Lemma expire_some (now : Z) (l : list (Z * list N)) (m : gmap (list N) identity)
    (k : list N) (ident : identity) :
  foldl (expire now) m l !! k = Some ident -> m !! k = Some ident.
Proof.
  revert m. induction l as [|t l IH]; intros m; simpl; [done|].
  intros H%IH. unfold expire in H. destruct (fst t <=? now)%Z; [|done].
  destruct (decide (snd t = k)) as [<-|Hne].
  - by rewrite lookup_delete_eq in H.
  - by rewrite lookup_delete_ne in H.
Qed.

Lemma TTL_positive : (0 < TTL)%Z.
Proof. done. Qed.

Lemma timed_step (e : step) (p : Proc) : sessions_timed p -> sessions_timed (do_step e p).
Proof.
  intros Hp. destruct e as [body found token|header|ms]; simpl.
  - unfold post_login.
    repeat (match goal with |- context [if ?b then _ else _] => destruct b end;
            simpl; [done|]).
    destruct found as [data|]; simpl; [|done].
    intros tok ident. simpl. destruct (decide (token = tok)) as [->|Hne].
    + intros _. exists (clock p + TTL)%Z. split.
      * apply elem_of_app. right. left.
      * pose proof TTL_positive. lia.
    + rewrite lookup_insert_ne by done. intros (d & Hd & Hc)%Hp.
      exists d. split; [|done]. apply elem_of_app. by left.
  - unfold post_logout. destruct (requireAuth header p); simpl; [done|].
    intros tok ident. simpl. destruct (decide (ToString header = tok)) as [->|Hne].
    + by rewrite lookup_delete_eq.
    + rewrite lookup_delete_ne by done. apply Hp.
  - intros tok ident. simpl. intros Hs.
    pose proof (expire_some _ _ _ _ _ Hs) as (d & Hd & Hc)%Hp.
    destruct (Z.le_gt_cases d (clock p + Z.max 0 ms)) as [Hle|Hgt].
    + by rewrite (expire_due _ _ _ _ _ Hd Hle) in Hs.
    + pose proof (Z.le_max_l 0 ms).
      exists d. split; [|lia]. apply list_elem_of_filter. split; [simpl; lia|done].
Qed.

(** X3: The session store does not leak: from the start of the process,
    after any logins, logouts and waits, every session has a pending
    timer due within the next twelve hours, so twelve hours without any
    request leave the map empty.  This holds even when a token comes up
    twice. *)
Theorem sessions_never_leak (t0 : Z) (es : list step) :
  let p := do_steps es (started t0) in
  sessions_timed p /\ sessions (do_step (Elapse TTL) p) = ∅.
Proof.
  intros p.
  assert (sessions_timed p) as Hp.
  { subst p.
    assert (forall q, sessions_timed q -> sessions_timed (do_steps es q)) as Hall.
    { induction es as [|e es IH]; intros q Hq; simpl; [done|]. by apply IH, timed_step. }
    apply Hall. intros tok ident. simpl. by rewrite lookup_empty. }
  split; [done|].
  apply map_empty. intros tok. simpl.
  destruct (foldl _ _ _ !! tok) as [ident|] eqn:Hs; [|done]. exfalso.
  pose proof (expire_some _ _ _ _ _ Hs) as (d & Hd & Hc)%Hp.
  rewrite (expire_due _ _ _ _ d Hd) in Hs; [done|].
  pose proof TTL_positive. lia.
Qed.

(** X4: A logout revokes the token it presents and nothing else: any other
    token resolves as before, and the timers are untouched; a logout with
    a token that does not resolve is answered 401 and changes nothing. *)
Theorem logout_revokes_only_its_token (header : jsval) (tok : list N) (p : Proc) :
  (header <> JStr tok ->
   requireAuth (JStr tok) (snd (post_logout header p)) = requireAuth (JStr tok) p)
  /\ timers (snd (post_logout header p)) = timers p
  /\ (forall refusal, requireAuth header p = inl refusal ->
        post_logout header p = (Reject 401 (lit "Not logged in."), p)).
Proof.
  split_and!.
  - intros Hne. unfold post_logout. destruct (requireAuth header p) eqn:Ha; [done|].
    simpl. destruct header as [| | | |s|]; try done. simpl in *.
    destruct tok as [|c tok]; [done|]. simpl.
    rewrite lookup_delete_ne; [done|]. congruence.
  - unfold post_logout. by destruct (requireAuth header p).
  - intros refusal Ha. unfold post_logout. rewrite Ha. f_equal.
    unfold requireAuth in Ha. repeat case_match; by simplify_eq.
Qed.

(** ** Members *)

Lemma Forall_filter_keep {A : Type} (P : A -> Prop) (Q : A -> Prop)
    `{!forall a, Decision (Q a)} (l : list A) :
  Forall P l -> Forall P (filter Q l).
Proof.
  rewrite !Forall_forall. intros Hl a [_ Ha]%list_elem_of_filter. by apply Hl.
Qed.

Section Members.
Variable sha256 : list N -> list N.
Implicit Types (t : Admin.Table) (user : identity) (body : gmap string jsval).

Lemma requireAdmin_none user : requireAdmin user = None <-> user_role user = lit "admin".
Proof.
  unfold requireAdmin. destruct (decide (user_role user = lit "admin")) as [H|H].
  - by rewrite (bool_decide_eq_true_2 _ H).
  - rewrite (bool_decide_eq_false_2 _ H). split; [done|]. intros E. by destruct H.
Qed.

Lemma requireAdmin_some user r :
  requireAdmin user = Some r -> r = Reject 403 (lit "Admin access required.").
Proof. unfold requireAdmin. case_match; by intros [=]. Qed.

Lemma build_updates_roles body u :
  Admin.build_updates sha256 body = inr u ->
  forall r, Admin.up_role u = Some r -> r = lit "admin" \/ r = lit "member".
Proof.
  unfold Admin.build_updates. repeat case_match; intros [= <-]; simpl; try done.
  all: intros r [= <-].
  all: match goal with H : _ && (_ || _) = true |- _ =>
         apply andb_true_iff in H as [_ H]; apply orb_true_iff in H as [H|H] end.
  all: unfold is_text in *; destruct (field body "role"); try done.
  all: match goal with H : bool_decide _ = true |- _ =>
         apply bool_decide_eq_true in H; subst end; auto.
Qed.

(** X5: Whatever is sent to the three members routes, and whoever sends it,
    every stored role stays one of [admin] and [member]: POST normalises
    the requested role, PUT takes a role only from that list. *)
Theorem members_roles_stay_listed user body (mid : list N) t :
  roles_listed (Admin.members t) ->
  roles_listed (Admin.members (snd (Admin.post_members sha256 user body t)))
  /\ roles_listed (Admin.members (snd (Admin.put_members sha256 user mid body t)))
  /\ roles_listed (Admin.members (snd (Admin.delete_members user mid t))).
Proof.
  intros Ht. split_and!.
  - unfold Admin.post_members. destruct (requireAdmin user); [done|].
    repeat (match goal with |- context [if ?b then _ else _] => destruct b eqn:? end;
            simpl; try done).
    all: unfold Admin.members_insert; case_decide; simpl; try done.
    all: apply Forall_app; split; [done|]; apply Forall_singleton; simpl.
    all: (by left) || (by right).
  - unfold Admin.put_members. destruct (requireAdmin user); [done|].
    destruct (isUUID (JStr mid)); [|done]. simpl.
    destruct (Admin.build_updates sha256 body) as [r|u] eqn:Hu; [done|].
    destruct (Admin.no_updates u); [done|].
    unfold Admin.members_update. case_decide; simpl; [|done].
    apply Forall_fmap, Forall_forall. intros m Hm. simpl.
    eapply Forall_forall in Ht; [|exact Hm]. case_decide; [|done].
    unfold Admin.apply_updates. simpl.
    destruct (Admin.up_role u) as [r|] eqn:Hr; simpl; [|done].
    by eapply build_updates_roles.
  - unfold Admin.delete_members. destruct (requireAdmin user); [done|].
    destruct (isUUID (JStr mid)); [|done]. simpl. case_bool_decide; [done|]. simpl.
    by apply Forall_filter_keep.
Qed.

(** The cases of POST /api/members. *)
Lemma post_members_cases user body t :
  match Admin.post_members sha256 user body t with
  | (Json f, t') =>
      user_role user = lit "admin"
      /\ f = [("ok"%string, JBool true)]
      /\ exists m,
          Admin.members t' = Admin.members t ++ [m]
          /\ Admin.mb_role m
             = (if is_text "admin" (field body "role") then lit "admin" else lit "member")
          /\ Admin.mb_password m = sha256 (ToString (or_empty (field body "password")))
          /\ 8 <= length (ToString (or_empty (field body "password")))
          /\ Admin.mb_name m = sanitize (or_empty (field body "name"))
          /\ Admin.mb_name m <> []
          /\ Admin.mb_email m = toLowerCase (sanitize (or_empty (field body "email")))
          /\ isEmail (JStr (Admin.mb_email m)) = true
          /\ Admin.mb_email m ∉ map Admin.mb_email (Admin.members t)
  | (Reject n _, t') => (n = 400 \/ n = 403 \/ n = 500)%Z /\ t' = t
  end.
Proof.
  unfold Admin.post_members. destruct (requireAdmin user) as [r|] eqn:Ha.
  { apply requireAdmin_some in Ha as ->. auto. }
  apply requireAdmin_none in Ha.
  destruct (Nat.eqb_spec (length (sanitize (or_empty (field body "name")))) 0)
    as [|Hname]; [auto|].
  destruct (isEmail _) eqn:Hemail; simpl; [|auto].
  destruct (Nat.ltb_spec (length (ToString (or_empty (field body "password")))) 8)
    as [|Hpw]; [auto|].
  unfold Admin.members_insert. case_decide as Hu; simpl; [|auto].
  split_and!; [done..|]. eexists. split; [done|]. simpl.
  split_and!; try done.
  - intros E. by rewrite E in Hname.
  - unfold Admin.emails_unique in Hu. rewrite map_app in Hu.
    apply NoDup_app in Hu as (_ & Hu & _). intros Hin. apply (Hu _ Hin). left.
Qed.


(** X6: What POST /api/members does with a name, an email and a password
    whose numbers, if any, are safe integers, the email within Basic
    Latin.  A success was asked by an admin and appends exactly one
    member, whose role is [admin] only if the body's [role] is the
    string [admin] and [member] otherwise, whose password is the digest
    of a text of at least 8 code units, whose name is the sanitized one
    and not empty, and whose email is the sanitized one in lower case,
    passes [isEmail] and was not in the table.  Any other reply is 400,
    403 or 500 and leaves the table as it was. *)
Theorem post_members_outcome user body t :
  Forall (fun k => printable (field body k)) ["name"; "email"; "password"]%string ->
  basic_latin (ToString (or_empty (field body "email"))) ->
  match Admin.post_members sha256 user body t with
  | (Json f, t') =>
      user_role user = lit "admin"
      /\ f = [("ok"%string, JBool true)]
      /\ exists m,
          Admin.members t' = Admin.members t ++ [m]
          /\ Admin.mb_role m
             = (if is_text "admin" (field body "role") then lit "admin" else lit "member")
          /\ Admin.mb_password m = sha256 (ToString (or_empty (field body "password")))
          /\ 8 <= length (ToString (or_empty (field body "password")))
          /\ Admin.mb_name m = sanitize (or_empty (field body "name"))
          /\ Admin.mb_name m <> []
          /\ Admin.mb_email m = toLowerCase (sanitize (or_empty (field body "email")))
          /\ isEmail (JStr (Admin.mb_email m)) = true
          /\ Admin.mb_email m ∉ map Admin.mb_email (Admin.members t)
  | (Reject n _, t') => (n = 400 \/ n = 403 \/ n = 500)%Z /\ t' = t
  end.
Proof. intros _ _. apply post_members_cases. Qed.

Lemma lower_ws (c : N) : is_ws (lower c) = is_ws c.
Proof.
  unfold lower. destruct ((65 <=? c) && (c <=? 90))%N eqn:E; [|done].
  apply andb_true_iff in E as [E1 E2]. apply N.leb_le in E1, E2.
  unfold is_ws.
  repeat match goal with
  | |- context [(?a <=? ?b)%N] => destruct (N.leb_spec a b); try lia
  | |- context [(?a =? ?b)%N] => destruct (N.eqb_spec a b); try lia
  end; done.
Qed.

Lemma lower_starts_clean (s : list N) : starts_clean s -> starts_clean (toLowerCase s).
Proof. destruct s as [|c s]; simpl; [done|]. by rewrite lower_ws. Qed.

Lemma lower_ends_clean (s : list N) : ends_clean s -> ends_clean (toLowerCase s).
Proof.
  unfold ends_clean, toLowerCase. rewrite <- map_rev. apply lower_starts_clean.
Qed.

Lemma lower_at (s : list N) : 64%N ∈ toLowerCase s -> 64%N ∈ s.
Proof.
  unfold toLowerCase. intros (c & Hc & Hin)%list_elem_of_fmap.
  assert (c = 64%N) as ->; [|done].
  unfold lower in Hc. destruct ((65 <=? c) && (c <=? 90))%N eqn:E; [|done].
  apply andb_true_iff in E as [E1 E2]. apply N.leb_le in E1, E2. lia.
Qed.

(** X7: A member created by POST /api/members with an email within Basic
    Latin, markup-free and without white space around it, can log in
    with that email in any spelling of its letters in upper or lower
    case and the same password (a text, or a safe integer):
    POST /api/login finds the row, answers with the token, and the token
    resolves to the member with the role that was stored. *)
Theorem created_member_can_log_in user body t f t' (e e' : list N)
    (attempt : gmap string jsval) (token : list N) (p : Proc) :
  Admin.post_members sha256 user body t = (Json f, t') ->
  field body "email" = JStr e ->
  basic_latin e -> harmless e -> starts_clean e -> ends_clean e ->
  field attempt "email" = JStr e' ->
  basic_latin e' -> toLowerCase e' = toLowerCase e ->
  printable (field body "password") -> printable (field attempt "password") ->
  truthy (field attempt "password") = true ->
  ToString (field attempt "password") = ToString (or_empty (field body "password")) ->
  token <> [] ->
  exists ident,
    Admin.login sha256 attempt token t' p
    = (Json [("token"%string, JStr token); ("name"%string, JStr (user_name ident));
             ("role"%string, JStr (user_role ident))],
       session_create token ident p)
    /\ user_email ident = toLowerCase e
    /\ user_role ident
       = (if is_text "admin" (field body "role") then lit "admin" else lit "member")
    /\ requireAuth (JStr token) (snd (Admin.login sha256 attempt token t' p)) = inr ident.
Proof.
  intros Hpost He _ Hh Hs Hend Hae _ Hcase _ _ Hpw Hsame Htok.
  pose proof (post_members_cases user body t) as Hc. rewrite Hpost in Hc.
  destruct Hc as (_ & _ & m & Hm & Hrole & Hpass & _ & _ & _ & Hemail & Hvalid & Hnew).
  rewrite He in Hemail.
  assert (e <> []) as Hne.
  { intros ->. rewrite Hemail in Hvalid. done. }
  assert (or_empty (JStr e) = JStr e) as Hor by (by destruct e).
  rewrite Hor in Hemail.
  assert (sanitize (JStr e) = take 500 e) as Hsan.
  { unfold sanitize, slice0. simpl.
    rewrite (proj2 (trim_fixed e)) by done. by rewrite strip_id. }
  assert (length e <= 254) as Hlen.
  { rewrite Hemail in Hvalid. simpl in Hvalid.
    apply andb_true_iff in Hvalid as [_ Hl%Nat.leb_le].
    unfold toLowerCase in Hl. rewrite length_map, Hsan, length_take in Hl. lia. }
  rewrite Hsan, take_ge in Hemail by lia.
  assert (length e' = length e) as Hlen'.
  { apply (f_equal length) in Hcase. unfold toLowerCase in Hcase.
    by rewrite !length_map in Hcase. }
  assert (isEmail (JStr e') = true) as Hraw.
  { rewrite Hemail in Hvalid. simpl in *.
    apply andb_true_iff in Hvalid as [Hat _]. apply andb_true_iff. split.
    - apply includes_spec, lower_at. rewrite Hcase. by apply includes_spec.
    - apply Nat.leb_le. lia. }
  assert (trim (toLowerCase e') = toLowerCase e) as Htrim.
  { rewrite Hcase. apply trim_fixed.
    split; [by apply lower_starts_clean|by apply lower_ends_clean]. }
  set (ident := {| user_id := Admin.mb_id m; user_name := Admin.mb_name m;
                   user_email := Admin.mb_email m; user_role := Admin.mb_role m |}).
  assert (Admin.members_find (trim (toLowerCase (ToString (field attempt "email"))))
            (sha256 (ToString (field attempt "password"))) t' = Some ident) as Hfind.
  { unfold Admin.members_find. rewrite Hae. simpl ToString. rewrite Htrim, Hm, filter_app.
    assert (filter (fun m0 => Admin.mb_email m0 = toLowerCase e
                              /\ Admin.mb_password m0
                                 = sha256 (ToString (field attempt "password")))
                   (Admin.members t) = []) as ->.
    { destruct (filter _ (Admin.members t)) as [|m0 l] eqn:E; [done|]. exfalso.
      assert (m0 ∈ filter (fun m0 => Admin.mb_email m0 = toLowerCase e
                                     /\ Admin.mb_password m0
                                        = sha256 (ToString (field attempt "password")))
                          (Admin.members t)) as Hin by (rewrite E; left).
      apply list_elem_of_filter in Hin as [[Hem _] Hin]. apply Hnew.
      rewrite Hemail, <- Hem. by apply list_elem_of_fmap_2. }
    simpl. rewrite filter_cons, decide_True; [done|]. by rewrite Hsame. }
  exists ident. unfold Admin.login. rewrite Hfind. unfold post_login.
  fold (field attempt "email"). fold (field attempt "password").
  rewrite Hae, Hpw, Hraw. simpl truthy.
  destruct e' as [|c e0]; [by destruct e|]. simpl.
  split_and!; [done|done|done|].
  unfold requireAuth, truthy. destruct token; [done|]. simpl.
  by rewrite lookup_insert_eq.
Qed.

(** X8: DELETE /api/members/:id removes no row whose id has other digits
    than the named one.  It does not remove the caller's own row when
    the named id and the caller's id are in the lower-case spelling, the
    one the gateway prints; on success no row with the named id is
    left.  With an [id] column of type [uuid] the guard can be passed:
    an admin who names another spelling of their own id (upper-case
    digits) is not refused and loses their own row. *)
Theorem delete_members_spares_the_caller user (mid : list N) t (m : Admin.Member) :
  m ∈ Admin.members t ->
  (~ same_digits (Admin.mb_id m) mid ->
   m ∈ Admin.members (snd (Admin.delete_members user mid t)))
  /\ (Admin.mb_id m = user_id user -> lower_case mid -> lower_case (user_id user) ->
      m ∈ Admin.members (snd (Admin.delete_members user mid t)))
  /\ (forall f, fst (Admin.delete_members user mid t) = Json f ->
        Admin.mb_id m = mid -> m ∉ Admin.members (snd (Admin.delete_members user mid t)))
  /\ (Admin.id_uuid t = true -> user_role user = lit "admin" ->
      isUUID (JStr mid) = true -> Admin.mb_id m = user_id user ->
      mid <> user_id user -> same_digits (user_id user) mid ->
      fst (Admin.delete_members user mid t) = ok_true
      /\ m ∉ Admin.members (snd (Admin.delete_members user mid t))).
Proof.
  intros Hm. unfold Admin.delete_members.
  destruct (requireAdmin user) as [r|] eqn:Ha.
  { pose proof Ha as ->%requireAdmin_some. split_and!; try done.
    intros _ Hadmin%requireAdmin_none. congruence. }
  destruct (isUUID (JStr mid)); [|by split_and!]. simpl.
  case_bool_decide as Hself; simpl; [by split_and!|]. split_and!.
  - intros Hd. apply list_elem_of_filter. split; [|done].
    unfold Admin.same_id. intros Hs. apply Hd. unfold same_digits.
    destruct (Admin.id_uuid t); [done|]. by rewrite Hs.
  - intros Hid Hl1 Hl2. apply list_elem_of_filter. split; [|done].
    unfold Admin.same_id, lower_case in *. rewrite Hid. intros Hs. apply Hself.
    destruct (Admin.id_uuid t); [|done]. by rewrite <- Hl1, <- Hs.
  - intros f _ Hid [Hne _]%list_elem_of_filter. apply Hne.
    unfold Admin.same_id. rewrite Hid. by destruct (Admin.id_uuid t).
  - intros Hu _ _ Hid _ Hs. split; [done|].
    intros [Hne _]%list_elem_of_filter. apply Hne.
    unfold Admin.same_id. by rewrite Hu, Hid.
Qed.

End Members.

(** ** What the write routes keep true of the stored rows *)

Lemma keeps_ret {A : Type} (I : Db -> Prop) (a : A) : keeps I (Ret a).
Proof. by intros db Hdb. Qed.

Lemma keeps_await {A X : Type} (I : Db -> Prop) (op : Db -> X * Db) (k : X -> Prog A) :
  (forall db, I db -> I (snd (op db))) -> (forall x, keeps I (k x)) ->
  keeps I (Await op k).
Proof. intros Hop Hk db Hdb. rewrite exec_await. by apply Hk, Hop. Qed.

Lemma keeps_or_return {A : Type} (I : Db -> Prop) (p : Prog (reply + A))
    (k : A -> Prog reply) :
  keeps I p -> (forall a, keeps I (k a)) -> keeps I (or_return p k).
Proof.
  intros Hp Hk db Hdb. rewrite exec_or_return.
  destruct (fst (exec p db)); simpl; [by apply Hp|]. by apply Hk, Hp.
Qed.

Lemma clean_events_cost eid db : stored_clean db -> stored_clean (snd (events_cost eid db)).
Proof. by rewrite events_cost_db. Qed.

Lemma clean_students_maybe (P : Student -> Prop) `{!forall s, Decision (P s)} db :
  stored_clean db -> stored_clean (snd (students_maybe P db)).
Proof. by rewrite students_maybe_db. Qed.

Lemma clean_registration_owner rid db :
  stored_clean db -> stored_clean (snd (registration_owner rid db)).
Proof. by rewrite registration_owner_db. Qed.

Lemma clean_students_update sid (changes : Student -> Student) db :
  (forall s, student_clean s -> student_clean (changes s)) ->
  stored_clean db -> stored_clean (snd (students_update sid changes db)).
Proof.
  intros Hch [Hs Hr]. unfold students_update. case_decide; simpl; [|done].
  split; [|done]. simpl. apply Forall_fmap, Forall_forall. intros s Hin. simpl.
  eapply Forall_forall in Hs; [|exact Hin]. case_decide; auto.
Qed.

Lemma clean_students_insert code name email phone db :
  harmless name -> harmless email -> length phone = 10 -> Forall is_digit phone ->
  stored_clean db -> stored_clean (snd (students_insert code name email phone db)).
Proof.
  intros Hn He Hl Hd [Hs Hr]. unfold students_insert. case_decide; simpl; [|done].
  split; [|done]. simpl. apply Forall_app. split; [done|]. by apply Forall_singleton.
Qed.

Lemma clean_registrations_insert rows db :
  Forall (fun o => forall rid, registration_clean (stored rid o)) rows ->
  stored_clean db -> stored_clean (snd (registrations_insert rows db)).
Proof.
  intros Hrows [Hs Hr]. unfold registrations_insert. repeat case_decide; simpl; try done.
  split; [done|]. simpl. apply Forall_app. split; [done|].
  apply Forall_forall. intros r (rid & o & Ho & ->)%number_elem.
  eapply Forall_forall in Hrows; [|exact Ho]. apply Hrows.
Qed.

Lemma clean_registrations_update rid (changes : Registration -> Registration) db :
  (forall r, registration_clean (changes r)) ->
  stored_clean db -> stored_clean (snd (registrations_update rid changes db)).
Proof.
  intros Hch [Hs Hr]. unfold registrations_update. repeat case_decide; simpl; try done.
  split; [done|]. simpl. apply Forall_fmap, Forall_forall. intros r Hin. simpl.
  eapply Forall_forall in Hr; [|exact Hin]. case_decide; auto.
Qed.

Lemma clean_registrations_delete rid db :
  stored_clean db -> stored_clean (snd (registrations_delete rid db)).
Proof. intros [Hs Hr]. split; [done|]. simpl. by apply Forall_filter_keep. Qed.

Lemma lower_harmless (s : list N) : harmless s -> harmless (toLowerCase s).
Proof.
  unfold harmless, toLowerCase. intros H. apply Forall_fmap.
  eapply Forall_impl; [exact H|]. intros c Hc. simpl. unfold lower.
  destruct ((65 <=? c) && (c <=? 90))%N eqn:E; [|done].
  apply andb_true_iff in E as [E1 E2]. apply N.leb_le in E1, E2. unfold dangerous.
  repeat match goal with
  | |- context [(?a =? ?b)%N] => destruct (N.eqb_spec a b); try lia
  end; done.
Qed.

(** The row a method and a transaction id lead to, once the two checks
    on them have passed. *)
Lemma written_txn_clean (pm txn : jsval) :
  method_listed pm = true -> is_text "upi" pm && negb (truthy txn) = false ->
  (ToString pm = lit "cash" /\ txn_for pm (clean_txn txn) = JNull)
  \/ (ToString pm = lit "upi"
      /\ exists t, txn_for pm (clean_txn txn) = JStr t /\ harmless t /\ length t <= 500).
Proof.
  intros [-> | ->]%method_listed_cases Hupi; [by left|]. right. split; [done|].
  simpl in Hupi. destruct (truthy txn) eqn:Ht; [|done].
  exists (sanitize txn). unfold txn_for, clean_txn. rewrite Ht. simpl.
  split_and!; [done|apply sanitize_harmless|apply sanitize_short].
Qed.

(** What passing the checks of the four routes says about the phone,
    the method and the transaction id. *)
Lemma portal_checks_sound a b c d e f :
  Portal.register_checks a b c d e f = None ->
  isPhone b = true /\ method_listed e = true /\ is_text "upi" e && negb (truthy f) = false.
Proof.
  unfold Portal.register_checks. repeat case_match; intros [=].
  repeat match goal with H : negb _ = false |- _ => apply negb_false_iff in H end. done.
Qed.

Lemma batch_checks_sound a b c d e f g :
  Batch.register_checks a b c d e f g = None ->
  isPhone c = true /\ method_listed f = true /\ is_text "upi" f && negb (truthy g) = false.
Proof.
  unfold Batch.register_checks. repeat case_match; intros [=]; try done.
  repeat match goal with H : negb _ = false |- _ => apply negb_false_iff in H end. done.
Qed.

Lemma sales_checks_sound rid a b c d e f g :
  Portal.sales_checks rid a b c d e f g = None ->
  isPhone c = true /\ method_listed f = true /\ is_text "upi" f && negb (truthy g) = false.
Proof.
  unfold Portal.sales_checks. repeat case_match; intros [=].
  repeat match goal with H : negb _ = false |- _ => apply negb_false_iff in H end. done.
Qed.

Lemma first_checks_sound rid a b c d e f g :
  First.sales_checks rid a b c d e f g = None ->
  isPhone c = true /\ method_listed f = true /\ is_text "upi" f && negb (truthy g) = false.
Proof.
  unfold First.sales_checks. repeat case_match; intros [=].
  repeat match goal with H : negb _ = false |- _ => apply negb_false_iff in H end. done.
Qed.

Lemma phone_digits (v : jsval) :
  isPhone v = true -> length (ToString v) = 10 /\ Forall is_digit (ToString v).
Proof. apply phone_re_spec. Qed.

Lemma set_name_email_clean name email s :
  harmless name -> harmless email -> student_clean s ->
  student_clean (set_name_email name email s).
Proof. intros Hn He (_ & _ & Hl & Hd). by split_and!. Qed.

Lemma set_contact_clean name phone email s :
  harmless name -> harmless email -> length phone = 10 -> Forall is_digit phone ->
  student_clean (set_contact name phone email s).
Proof. intros. by split_and!. Qed.

Lemma keeps_portal_upsert name email phone :
  harmless name -> harmless email -> length phone = 10 -> Forall is_digit phone ->
  keeps stored_clean (Portal.upsert_student name email phone).
Proof.
  intros Hn He Hl Hd. unfold Portal.upsert_student.
  apply keeps_await; [intros db; apply clean_students_maybe|].
  assert (keeps stored_clean
    (let! inserted := students_insert None name email phone in
     match inserted with
     | Error stuErr =>
         if decide (code stuErr = lit "23505")
         then Ret (inl (Reject 400 (lit "Email already used by another student.")))
         else Ret (inl (Reject 500 (lit "Failed to save student.")))
     | Data newStu => Ret (inr (st_id newStu))
     end)) as Hins.
  { apply keeps_await; [intros db; by apply clean_students_insert|].
    intros [row|e]; [apply keeps_ret|]. case_decide; apply keeps_ret. }
  intros [[st|]|e]; try exact Hins.
  apply keeps_await; [|intros; apply keeps_ret].
  intros db. apply clean_students_update. intros s. by apply set_name_email_clean.
Qed.

Lemma keeps_batch_upsert sc name email phone :
  harmless name -> harmless email -> length phone = 10 -> Forall is_digit phone ->
  keeps stored_clean (Batch.upsert_student sc name email phone).
Proof.
  intros Hn He Hl Hd. unfold Batch.upsert_student.
  apply keeps_await; [intros db; apply clean_students_maybe|].
  assert (keeps stored_clean
    (let! inserted := students_insert (Some sc) name email phone in
     match inserted with
     | Error stuErr =>
         if decide (code stuErr = lit "23505")
         then Ret (inl (Reject 400 (lit "Phone or email already used by another student.")))
         else Ret (inl (Reject 500 (lit "Failed to save student.")))
     | Data newStu => Ret (inr (st_id newStu))
     end)) as Hins.
  { apply keeps_await; [intros db; by apply clean_students_insert|].
    intros [row|e]; [apply keeps_ret|]. case_decide; apply keeps_ret. }
  intros [[st|]|e]; try exact Hins.
  apply keeps_await; [|intros; apply keeps_ret].
  intros db. apply clean_students_update. intros s _. by apply set_contact_clean.
Qed.

Lemma keeps_portal_register user a b c d e f :
  keeps stored_clean (Portal.register user a b c d e f).
Proof.
  unfold Portal.register.
  destruct (Portal.register_checks a b c d e f) eqn:Hc; [apply keeps_ret|].
  apply portal_checks_sound in Hc as (Hp%phone_digits & Hm & Hu). destruct Hp as [Hl Hd].
  apply keeps_await; [intros db; apply clean_events_cost|].
  intros [cost|err]; [|apply keeps_ret].
  apply keeps_or_return.
  { apply keeps_portal_upsert; [apply sanitize_harmless| |done..].
    apply lower_harmless, sanitize_harmless. }
  intros sid. unfold Portal.register_insert.
  apply keeps_await.
  - intros db. apply clean_registrations_insert. apply Forall_singleton. intros rid.
    unfold registration_clean. simpl. by apply written_txn_clean.
  - intros [[]|err]; [apply keeps_ret|]. case_decide; apply keeps_ret.
Qed.

Lemma keeps_batch_register user a b c d e f g :
  keeps stored_clean (Batch.register user a b c d e f g).
Proof.
  unfold Batch.register.
  destruct (Batch.register_checks a b c d e f g) eqn:Hc; [apply keeps_ret|].
  apply batch_checks_sound in Hc as (Hp%phone_digits & Hm & Hu). destruct Hp as [Hl Hd].
  apply keeps_await; [by intros db|].
  intros [eventsData|err]; [|apply keeps_ret].
  destruct (length eventsData =? 0); [apply keeps_ret|].
  apply keeps_or_return.
  { apply keeps_batch_upsert; [apply sanitize_harmless| |done..].
    apply lower_harmless, sanitize_harmless. }
  intros sid. unfold Batch.register_new.
  apply keeps_await; [by intros db|]. intros regs.
  destruct (length _ =? 0); [apply keeps_ret|].
  apply keeps_await.
  - intros db. apply clean_registrations_insert. apply Forall_forall.
    intros o (eid & -> & _)%list_elem_of_fmap rid.
    unfold registration_clean. simpl. by apply written_txn_clean.
  - intros [[]|err]; apply keeps_ret.
Qed.

Lemma edit_registration_clean d f g cost r :
  method_listed f = true -> is_text "upi" f && negb (truthy g) = false ->
  registration_clean (Portal.edit_registration d f g cost r).
Proof. intros Hm Hu. unfold registration_clean. simpl. by apply written_txn_clean. Qed.

Lemma keeps_portal_edit user rid a b c d e f g :
  keeps stored_clean (Portal.edit user rid a b c d e f g).
Proof.
  unfold Portal.edit.
  destruct (Portal.sales_checks rid a b c d e f g) eqn:Hc; [apply keeps_ret|].
  apply sales_checks_sound in Hc as (Hp%phone_digits & Hm & Hu). destruct Hp as [Hl Hd].
  apply keeps_await; [intros db; apply clean_registration_owner|].
  intros [owner|err]; [|apply keeps_ret].
  destruct (negb (Portal.canMutate user owner)); [apply keeps_ret|].
  apply keeps_await; [intros db; apply clean_events_cost|].
  intros [cost|err]; [|apply keeps_ret].
  apply keeps_await.
  { intros db. apply clean_students_update. intros s _.
    apply set_contact_clean; [apply sanitize_harmless| |done..].
    apply lower_harmless, sanitize_harmless. }
  intros _. apply keeps_await.
  - intros db. apply clean_registrations_update. intros r.
    by apply edit_registration_clean.
  - intros [[]|err]; apply keeps_ret.
Qed.

Lemma keeps_first_edit sp rid a b c d e f g :
  keeps stored_clean (First.edit sp rid a b c d e f g).
Proof.
  unfold First.edit.
  destruct (First.sales_checks rid a b c d e f g) eqn:Hc; [apply keeps_ret|].
  apply first_checks_sound in Hc as (Hp%phone_digits & Hm & Hu). destruct Hp as [Hl Hd].
  apply keeps_await; [intros db; apply clean_registration_owner|].
  intros check. destruct (negb (First.owns sp check)); [apply keeps_ret|].
  apply keeps_await; [intros db; apply clean_events_cost|].
  intros [cost|err]; [|apply keeps_ret].
  apply keeps_await.
  { intros db. apply clean_students_update. intros s _.
    apply set_contact_clean; [apply sanitize_harmless| |done..].
    apply lower_harmless, sanitize_harmless. }
  intros [[]|err]; [|apply keeps_ret]. apply keeps_await.
  - intros db. apply clean_registrations_update. intros r.
    by apply edit_registration_clean.
  - intros [[]|err]; apply keeps_ret.
Qed.

Lemma keeps_portal_delete user rid : keeps stored_clean (Portal.delete_sales user rid).
Proof.
  unfold Portal.delete_sales. destruct (negb (isUUID (JStr rid))); [apply keeps_ret|].
  apply keeps_await; [intros db; apply clean_registration_owner|].
  intros [owner|err]; [|apply keeps_ret].
  destruct (negb (Portal.canMutate user owner)); [apply keeps_ret|].
  apply keeps_await; [intros db; apply clean_registrations_delete|].
  intros [[]|err]; apply keeps_ret.
Qed.

Lemma keeps_first_delete sp rid : keeps stored_clean (First.delete_sales sp rid).
Proof.
  unfold First.delete_sales. destruct (negb (isUUID (JStr rid))); [apply keeps_ret|].
  apply keeps_await; [intros db; apply clean_registration_owner|].
  intros check. destruct (negb (First.owns sp check)); [apply keeps_ret|].
  apply keeps_await; [intros db; apply clean_registrations_delete|].
  intros [[]|err]; apply keeps_ret.
Qed.

(** X9: Whatever they are sent and whatever they answer, the routes that
    write students and registrations keep the stored rows well formed:
    no student name or email with one of the five markup characters,
    every phone ten digits, every registration either [cash] with a null
    transaction id or [upi] with a markup-free transaction id of at most
    500 code units. *)
Theorem routes_keep_rows_clean (db : Db) (user : identity) (sp : First.member)
    (rid : list N) (body : gmap string jsval) :
  stored_clean db ->
  stored_clean (snd (exec (Portal.post_register user body) db))
  /\ stored_clean (snd (exec (Batch.post_register user body) db))
  /\ stored_clean (snd (exec (Portal.put_sales user rid body) db))
  /\ stored_clean (snd (exec (Portal.delete_sales user rid) db))
  /\ stored_clean (snd (exec (First.put_sales sp rid body) db))
  /\ stored_clean (snd (exec (First.delete_sales sp rid) db)).
Proof.
  intros Hdb. split_and!.
  - by apply keeps_portal_register.
  - by apply keeps_batch_register.
  - by apply keeps_portal_edit.
  - by apply keeps_portal_delete.
  - by apply keeps_first_edit.
  - by apply keeps_first_delete.
Qed.

(** ** How the register routes end *)

Lemma register_checks_400 a b c d e f r :
  Portal.register_checks a b c d e f = Some r -> exists msg, r = Reject 400 msg.
Proof.
  unfold Portal.register_checks. repeat case_match; intros [=]; subst; eauto.
Qed.

Lemma batch_checks_400 a b c d e f g r :
  Batch.register_checks a b c d e f g = Some r -> exists msg, r = Reject 400 msg.
Proof.
  unfold Batch.register_checks. repeat case_match; intros [=]; subst; eauto.
Qed.

Lemma portal_upsert_status name email phone db r :
  fst (exec (Portal.upsert_student name email phone) db) = inl r ->
  exists n msg, r = Reject n msg /\ (n = 400 \/ n = 500)%Z.
Proof.
  unfold Portal.upsert_student. rewrite exec_await.
  destruct (fst (students_maybe _ db)) as [[st|]|e];
    rewrite exec_await; try (by rewrite exec_ret).
  all: destruct (fst (students_insert _ _ _ _ _)); [by rewrite exec_ret|].
  all: case_decide; rewrite exec_ret; intros [= <-]; eauto.
Qed.

Lemma batch_upsert_status sc name email phone db r :
  fst (exec (Batch.upsert_student sc name email phone) db) = inl r ->
  exists n msg, r = Reject n msg /\ (n = 400 \/ n = 500)%Z.
Proof.
  unfold Batch.upsert_student. rewrite exec_await.
  destruct (fst (students_maybe _ db)) as [[st|]|e];
    rewrite exec_await; try (by rewrite exec_ret).
  all: destruct (fst (students_insert _ _ _ _ _)); [by rewrite exec_ret|].
  all: case_decide; rewrite exec_ret; intros [= <-]; eauto.
Qed.

Lemma keeps_sales_trans db1 db2 db3 :
  keeps_sales db1 db2 -> keeps_sales db2 db3 -> keeps_sales db1 db3.
Proof. intros (?&?&?) (?&?&?). split_and!; congruence. Qed.

(** A refusal of the single-event register route of [server.js]. *)
Lemma register_reject user a b c d e f db n msg db' :
  exec (Portal.register user a b c d e f) db = (Reject n msg, db') ->
  (n = 400 \/ n = 500)%Z /\ keeps_sales db db'.
Proof.
  unfold Portal.register.
  destruct (Portal.register_checks a b c d e f) as [r|] eqn:Hc.
  { apply register_checks_400 in Hc as (m & ->). rewrite exec_ret.
    intros [= <- _ <-]. split; [by left|apply keeps_sales_refl]. }
  rewrite exec_await, events_cost_db.
  destruct (fst (events_cost (ToString d) db)) as [cost|err].
  2:{ rewrite exec_ret. intros [= <- _ <-]. split; [by left|apply keeps_sales_refl]. }
  rewrite exec_or_return.
  destruct (portal_upsert (sanitize a) (toLowerCase (sanitize c)) (ToString b) db)
    as [Hkeep _].
  destruct (fst (exec (Portal.upsert_student _ _ _) db)) as [r|sid] eqn:Hu.
  { apply portal_upsert_status in Hu as (n' & m & -> & Hn). by intros [= <- _ <-]. }
  unfold Portal.register_insert. rewrite exec_await.
  destruct (fst (registrations_insert _ _)) as [[]|err] eqn:Hi; [by rewrite exec_ret|].
  rewrite (registrations_insert_error _ _ _ Hi).
  case_decide; rewrite exec_ret; intros [= <- _ <-]; auto.
Qed.

(** A refusal of the multi-event register route. *)
Lemma batch_reject user a b c d e f g db n msg db' :
  exec (Batch.register user a b c d e f g) db = (Reject n msg, db') ->
  (n = 400 \/ n = 500)%Z /\ keeps_sales db db'.
Proof.
  unfold Batch.register.
  destruct (Batch.register_checks a b c d e f g) as [r|] eqn:Hc.
  { apply batch_checks_400 in Hc as (m & ->). rewrite exec_ret.
    intros [= <- _ <-]. split; [by left|apply keeps_sales_refl]. }
  rewrite exec_await. simpl fst. simpl snd. cbv beta iota.
  match goal with |- context [Nat.eqb ?x 0] => destruct (Nat.eqb x 0) end.
  { rewrite exec_ret. intros [= <- _ <-]. split; [by left|apply keeps_sales_refl]. }
  rewrite exec_or_return.
  destruct (batch_upsert (toUpperCase (sanitize a)) (sanitize b) (toLowerCase (sanitize d))
              (ToString c) db) as [Hkeep _].
  destruct (fst (exec (Batch.upsert_student _ _ _ _) db)) as [r|sid] eqn:Hu.
  { apply batch_upsert_status in Hu as (n' & m & -> & Hn). by intros [= <- _ <-]. }
  rewrite register_new_cases. cbv zeta.
  match goal with |- context [Nat.eqb ?x 0] => destruct (Nat.eqb x 0) end;
    [intros [= <- _ <-]; auto|].
  destruct (fst (registrations_insert _ _)) as [[]|err] eqn:Hi; [done|].
  intros [= <- _ <-]. auto.
Qed.

(** X10: How POST /api/register of [server.js] ends, whatever it is sent: a
    success appends exactly one registration, sold by the session's
    member and for the event and method of the body; every other reply
    is 400 or 500 and leaves the Registrations table as it was; the
    Events table is never written. *)
Theorem single_register_outcome (user : identity) (body : gmap string jsval) (db : Db) :
  match exec (Portal.post_register user body) db with
  | (Json f, db') =>
      f = [("ok"%string, JBool true)]
      /\ Events db' = Events db
      /\ exists row,
          Registrations db' = Registrations db ++ [row]
          /\ rg_member row = user_id user
          /\ rg_event row = ToString (field body "event_id")
          /\ rg_method row = ToString (field body "payment_method")
  | (Reject n _, db') =>
      (n = 400 \/ n = 500)%Z /\ Events db' = Events db
      /\ Registrations db' = Registrations db
  end.
Proof.
  destruct (exec (Portal.post_register user body) db) as [[f|n msg] db'] eqn:H.
  - unfold Portal.post_register in H.
    assert (f = [("ok"%string, JBool true)]) as ->.
    { revert H. unfold Portal.register. destruct (Portal.register_checks _ _ _ _ _ _) eqn:Hc.
      { apply register_checks_400 in Hc as (m & ->). by rewrite exec_ret. }
      rewrite exec_await. destruct (fst (events_cost _ _)); [|by rewrite exec_ret].
      rewrite exec_or_return. destruct (fst (exec (Portal.upsert_student _ _ _) _)) eqn:Hu.
      { apply portal_upsert_status in Hu as (n' & m & -> & _). done. }
      unfold Portal.register_insert. rewrite exec_await.
      destruct (fst (registrations_insert _ _)) as [[]|err].
      - rewrite exec_ret. by intros [= <- _].
      - case_decide; by rewrite exec_ret. }
    apply register_json in H as (_ & cost & st & dbm & _ & (He & Hr & _) & _ & Hi).
    apply registrations_insert_data in Hi as (Hregs & Hevs & _).
    split; [done|]. split; [congruence|].
    eexists. split; [rewrite Hregs, Hr; done|]. done.
  - apply register_reject in H as (Hn & He & Hr & _). done.
Qed.

(** A successful batch reports a count that is not zero. *)
Lemma batch_json_count user a b c d e f g db flds db' :
  exec (Batch.register user a b c d e f g) db = (Json flds, db') ->
  exists n k, flds = [("ok"%string, JBool true); ("count"%string, JNum (Z.of_nat n));
                      ("skipped"%string, JNum (Z.of_nat k))] /\ n <> 0.
Proof.
  unfold Batch.register.
  destruct (Batch.register_checks a b c d e f g) as [r|] eqn:Hc.
  { apply batch_checks_400 in Hc as (m & ->). by rewrite exec_ret. }
  rewrite exec_await. simpl fst. simpl snd. cbv beta iota.
  match goal with |- context [Nat.eqb ?x 0] => destruct (Nat.eqb x 0) end;
    [by rewrite exec_ret|].
  rewrite exec_or_return.
  destruct (fst (exec (Batch.upsert_student _ _ _ _) db)) as [r|sid] eqn:Hu.
  { apply batch_upsert_status in Hu as (n' & m & -> & Hn). done. }
  rewrite register_new_cases. cbv zeta.
  destruct (Nat.eqb_spec (length (Batch.newEventIds
    (Batch.alreadyRegistered (fst (registrations_of sid (map ToString (default [] (Batch.elements e)))
       (snd (exec (Batch.upsert_student (toUpperCase (sanitize a)) (sanitize b)
               (toLowerCase (sanitize d)) (ToString c)) db)))))
    (default [] (Batch.elements e)))) 0) as [|Hn]; [done|].
  destruct (fst (registrations_insert _ _)) as [[]|err] eqn:Hi; [|done].
  intros [= <- _]. eexists _, _. split; [done|].
  unfold Batch.new_rows. by rewrite length_map.
Qed.

(** X11: How the multi-event POST /api/register ends, whatever it is sent: a
    success appends at least one registration, as many as the [count]
    it reports, all sold by the session's member and all for one
    student; every other reply is 400 or 500 and leaves the
    Registrations table as it was; the Events table is never written. *)
Theorem batch_register_outcome (user : identity) (body : gmap string jsval) (db : Db) :
  match exec (Batch.post_register user body) db with
  | (Json f, db') =>
      Events db' = Events db
      /\ exists rows k sid,
          f = [("ok"%string, JBool true);
               ("count"%string, JNum (Z.of_nat (length rows)));
               ("skipped"%string, JNum (Z.of_nat k))]
          /\ Registrations db' = Registrations db ++ rows
          /\ rows <> []
          /\ Forall (fun r => rg_member r = user_id user /\ rg_student r = sid) rows
  | (Reject n _, db') =>
      (n = 400 \/ n = 500)%Z /\ Events db' = Events db
      /\ Registrations db' = Registrations db
  end.
Proof.
  destruct (exec (Batch.post_register user body) db) as [[f|n msg] db'] eqn:H.
  - unfold Batch.post_register in H.
    pose proof (batch_json_count _ _ _ _ _ _ _ _ _ _ _ H) as (c & k' & Hf' & Hc).
    apply batch_json in H as (_ & ids & st & dbm & _ & (He & Hr & _) & _ & Hi & Hf).
    apply registrations_insert_data in Hi as (Hregs & Hevs & _).
    split; [congruence|].
    eexists _, _, (st_id st). split_and!.
    + rewrite Hf. rewrite number_length. unfold Batch.new_rows. by rewrite length_map.
    + by rewrite Hregs, Hr.
    + intros Hnil. apply (f_equal length) in Hnil.
      rewrite number_length in Hnil. unfold Batch.new_rows in Hnil.
      rewrite length_map in Hnil. simpl in Hnil.
      rewrite Hf in Hf'. injection Hf' as Hcount _. lia.
    + apply Forall_forall. intros r (rid & o & Ho & ->)%number_elem.
      unfold Batch.new_rows in Ho. by apply list_elem_of_fmap in Ho as (eid & -> & _).
  - apply batch_reject in H as (Hn & He & Hr & _). done.
Qed.

(** ** Editing and deleting a sale ([server.js]) *)

Lemma sales_checks_400 rid a b c d e f g r :
  Portal.sales_checks rid a b c d e f g = Some r -> exists msg, r = Reject 400 msg.
Proof.
  unfold Portal.sales_checks. repeat case_match; intros [=]; subst; eauto.
Qed.

Lemma registrations_update_error rid changes db e :
  fst (registrations_update rid changes db) = Error e ->
  snd (registrations_update rid changes db) = db.
Proof. unfold registrations_update. repeat case_decide; simpl; by intros [=]. Qed.

(** A refusal of PUT /api/sales/:id. *)
Lemma edit_reject user rid a b c d e f g db n msg db' :
  exec (Portal.edit user rid a b c d e f g) db = (Reject n msg, db') ->
  (n = 400 \/ n = 403 \/ n = 404 \/ n = 500)%Z /\ keeps_sales db db'.
Proof.
  unfold Portal.edit.
  destruct (Portal.sales_checks rid a b c d e f g) as [r|] eqn:Hc.
  { apply sales_checks_400 in Hc as (m & ->). rewrite exec_ret.
    intros [= <- _ <-]. split; [auto|apply keeps_sales_refl]. }
  rewrite exec_await, registration_owner_db.
  destruct (fst (registration_owner rid db)) as [owner|err].
  2:{ rewrite exec_ret. intros [= <- _ <-]. split; [auto|apply keeps_sales_refl]. }
  destruct (negb (Portal.canMutate user owner)).
  { rewrite exec_ret. intros [= <- _ <-]. split; [auto|apply keeps_sales_refl]. }
  rewrite exec_await, events_cost_db.
  destruct (fst (events_cost (ToString e) db)) as [cost|err].
  2:{ rewrite exec_ret. intros [= <- _ <-]. split; [auto|apply keeps_sales_refl]. }
  rewrite !exec_await.
  destruct (fst (registrations_update _ _ _)) as [[]|err] eqn:Hi; [by rewrite exec_ret|].
  rewrite (registrations_update_error _ _ _ _ Hi), exec_ret.
  intros [= <- _ <-]. split; [auto 10|apply students_update_keeps].
Qed.

(** X12: How PUT /api/sales/:id of [server.js] ends.  A success was sent by
    an admin or by the member that sold the registration; it adds and
    removes no row and changes neither the seller nor the student of any
    row; the rows with the given id now carry the event of the body and
    that event's stored cost; every other row is as before.  Any other
    reply is 400, 403, 404 or 500 and leaves the Registrations table as
    it was.  Events is never written. *)
Theorem edit_outcome (user : identity) (rid : list N) (body : gmap string jsval) (db : Db) :
  match exec (Portal.put_sales user rid body) db with
  | (Json f, db') =>
      (exists owner, fst (registration_owner rid db) = Data owner
                     /\ (user_role user = lit "admin" \/ user_id user = owner))
      /\ Events db' = Events db
      /\ map rg_id (Registrations db') = map rg_id (Registrations db)
      /\ map rg_member (Registrations db') = map rg_member (Registrations db)
      /\ map rg_student (Registrations db') = map rg_student (Registrations db)
      /\ (exists e,
           filter (fun e => ev_id e = ToString (field body "event_id")) (Events db) = [e]
           /\ forall r, r ∈ Registrations db' -> rg_id r = rid ->
                rg_event r = ev_id e /\ rg_amount r = ev_cost e)
      /\ (forall r, rg_id r <> rid -> r ∈ Registrations db' <-> r ∈ Registrations db)
  | (Reject n _, db') =>
      (n = 400 \/ n = 403 \/ n = 404 \/ n = 500)%Z
      /\ Events db' = Events db /\ Registrations db' = Registrations db
  end.
Proof.
  destruct (exec (Portal.put_sales user rid body) db) as [[f|n msg] db'] eqn:H.
  - unfold Portal.put_sales in H.
    apply edit_json in H as (_ & owner & cost & dbm & Ho & Hm & Hev & (He & Hr & _) & Hi).
    apply registrations_update_data in Hi as (Hregs & Hevs).
    apply events_cost_data in Hev as (e & Hf & ->).
    rewrite Hregs, Hr. split_and!.
    + exists owner. split; [done|]. by apply canMutate_spec.
    + congruence.
    + rewrite <- list_fmap_compose. apply list_fmap_ext. intros i r _. simpl. by case_decide.
    + rewrite <- list_fmap_compose. apply list_fmap_ext. intros i r _. simpl. by case_decide.
    + rewrite <- list_fmap_compose. apply list_fmap_ext. intros i r _. simpl. by case_decide.
    + exists e. split; [done|].
      assert (ev_id e = ToString (field body "event_id")) as Heid.
      { assert (e ∈ filter (fun e0 => ev_id e0 = ToString (field body "event_id"))
                          (Events db)) as [? _]%list_elem_of_filter by (rewrite Hf; left).
        done. }
      intros r (r0 & -> & Hin)%list_elem_of_fmap Hid.
      case_decide as Hr0; [|done]. simpl. by rewrite Heid.
    + intros r Hne. rewrite list_elem_of_fmap. split.
      * intros (r0 & -> & Hin). case_decide as Hr0; [|done]. by destruct Hne.
      * intros Hin. exists r. split; [|done]. by rewrite decide_False.
  - unfold Portal.put_sales in H. apply edit_reject in H as (Hn & He & Hr & _). done.
Qed.

(** X13: A successful DELETE /api/sales/:id was sent by an admin or by the
    seller; it removes the rows with the given id and nothing else, and
    from then on a delete or a well-formed edit of that id, by anyone,
    is answered 404. *)
Theorem delete_then_not_found (user other : identity) (rid : list N)
    (body : gmap string jsval) (db db' : Db) (f : list (string * jsval)) :
  exec (Portal.delete_sales user rid) db = (Json f, db') ->
  (exists owner, fst (registration_owner rid db) = Data owner
                 /\ (user_role user = lit "admin" \/ user_id user = owner))
  /\ Registrations db' = filter (fun r => rg_id r <> rid) (Registrations db)
  /\ Students db' = Students db /\ Events db' = Events db
  /\ exec (Portal.delete_sales other rid) db' = (Reject 404 (lit "Not found."), db')
  /\ (Portal.sales_refusal rid body = None ->
      exec (Portal.put_sales other rid body) db'
      = (Reject 404 (lit "Registration not found."), db')).
Proof.
  unfold Portal.delete_sales at 1.
  destruct (isUUID (JStr rid)) eqn:Hid; simpl negb; cbv iota; [|by rewrite exec_ret].
  rewrite exec_await, registration_owner_db.
  destruct (fst (registration_owner rid db)) as [owner|err] eqn:Ho; [|by rewrite exec_ret].
  destruct (Portal.canMutate user owner) eqn:Hm; simpl negb; cbv iota;
    [|by rewrite exec_ret].
  rewrite exec_await. simpl. rewrite exec_ret. intros [= _ <-].
  assert (forall X (k : result (list N) -> Prog X),
            exec (Await (registration_owner rid) k)
                 (with_registrations (filter (fun r => rg_id r <> rid) (Registrations db)) db)
            = exec (k (Error not_single))
                   (with_registrations (filter (fun r => rg_id r <> rid) (Registrations db)) db))
    as Hgone.
  { intros X k. rewrite exec_await, registration_owner_db. f_equal.
    unfold registration_owner. simpl.
    assert (filter (fun r => rg_id r = rid)
              (filter (fun r => rg_id r <> rid) (Registrations db)) = []) as ->; [|done].
    destruct (filter _ (filter _ _)) as [|r l] eqn:E; [done|]. exfalso.
    assert (r ∈ filter (fun r => rg_id r = rid)
                  (filter (fun r => rg_id r <> rid) (Registrations db))) as Hin
      by (rewrite E; left).
    apply list_elem_of_filter in Hin as [Heq [Hne _]%list_elem_of_filter]. done. }
  split_and!; try done.
  - exists owner. split; [done|]. by apply canMutate_spec.
  - unfold Portal.delete_sales. rewrite Hid. simpl negb. cbv iota. by rewrite Hgone.
  - intros Hc. unfold Portal.sales_refusal in Hc. unfold Portal.put_sales, Portal.edit.
    rewrite Hc. by rewrite Hgone.
Qed.

(** ** Who sees a sale (GET /api/sales) *)

(** X14: A member's list holds only registrations that member sold.  A sale
    made through POST /api/register appears in the seller's list and in
    every admin's, and leaves the list of every other member as it was. *)
Theorem sale_shows_to_seller_and_admins (seller : identity) (body : gmap string jsval)
    (db db' : Db) (f : list (string * jsval)) :
  exec (Portal.post_register seller body) db = (Json f, db') ->
  exists row,
    Registrations db' = Registrations db ++ [row]
    /\ row ∈ sales_of seller db'
    /\ (forall other, user_role other = lit "admin" -> row ∈ sales_of other db')
    /\ (forall other, user_role other <> lit "admin" ->
          user_id other <> user_id seller ->
          sales_of other db' = sales_of other db
          /\ forall r, r ∈ sales_of other db' -> rg_member r = user_id other).
Proof.
  intros H. unfold Portal.post_register in H.
  apply register_json in H as (_ & cost & st & dbm & _ & (_ & Hr & _) & _ & Hi).
  apply registrations_insert_data in Hi as (Hregs & _). simpl in Hregs. rewrite Hr in Hregs.
  eexists. split; [exact Hregs|]. unfold sales_of. rewrite Hregs. split_and!.
  - case_bool_decide; simpl.
    + apply elem_of_app. right. left.
    + apply list_elem_of_filter. split; [done|]. apply elem_of_app. right. left.
  - intros other Ha. rewrite (bool_decide_eq_true_2 _ Ha). simpl.
    apply elem_of_app. right. left.
  - intros other Ha Hne. rewrite (bool_decide_eq_false_2 _ Ha). simpl. split.
    + rewrite filter_app. simpl. rewrite filter_cons. simpl.
      rewrite decide_False by congruence. by rewrite filter_nil, app_nil_r.
    + by intros r [Hm _]%list_elem_of_filter.
Qed.

(** ** Looking a student up (multi-event revision) *)

Lemma batch_checks_student a b c d e f g :
  Batch.register_checks a b c d e f g = None -> truthy a = true.
Proof.
  unfold Batch.register_checks. repeat case_match; intros [=]; try done.
  destruct (truthy a); [done|]. done.
Qed.

(** What the lookup answers once the code is not empty. *)
Lemma students_lookup_found body st db :
  toUpperCase (sanitize (or_empty (field body "student_id"))) <> [] ->
  filter (fun s => st_code s
                   = Some (toUpperCase (sanitize (or_empty (field body "student_id")))))
         (Students db) = [st] ->
  exec (students_lookup body) db
  = (LookupFound st (map rg_event
                       (filter (fun r => rg_student r = st_id st) (Registrations db))), db).
Proof.
  intros Hne Hsel. unfold students_lookup.
  destruct (Nat.eqb_spec (length (toUpperCase (sanitize (or_empty (field body "student_id"))))) 0)
    as [E|_].
  { apply length_zero_iff_nil in E. done. }
  rewrite exec_await, students_maybe_db. unfold students_maybe at 1. rewrite Hsel. simpl.
  by rewrite exec_await, exec_ret.
Qed.

Lemma upper_nil (s : list N) : toUpperCase s = [] <-> s = [].
Proof. by destruct s. Qed.

(** X15: After a successful batch registration, POST /api/students/lookup
    with the same student id finds a student and lists every requested
    event among its registered ones, provided the id does not sanitize
    to the empty text (which the register route accepts and the lookup
    refuses).  For an id within Basic Latin the student found carries
    the sanitized id in upper case. *)
Theorem lookup_after_batch (user : identity) (body ask : gmap string jsval)
    (db db1 : Db) (f : list (string * jsval)) (ids : list jsval) (e : list N) :
  exec (Batch.post_register user body) db = (Json f, db1) ->
  field body "event_ids" = JArr ids -> JStr e ∈ ids ->
  field ask "student_id" = field body "student_id" ->
  sanitize (field body "student_id") <> [] ->
  exists st regs,
    exec (students_lookup ask) db1 = (LookupFound st regs, db1)
    /\ st ∈ Students db1
    /\ regs = map rg_event (filter (fun r => rg_student r = st_id st) (Registrations db1))
    /\ e ∈ regs
    /\ (basic_latin (sanitize (field body "student_id")) ->
        st_code st = Some (toUpperCase (sanitize (field body "student_id")))).
Proof.
  intros H Hids He Hask Hne.
  assert (truthy (field body "student_id") = true) as Ht.
  { unfold Batch.post_register in H. apply batch_json in H as (Hc & _).
    by apply batch_checks_student in Hc. }
  destruct (batch_registers_all _ _ _ _ _ _ _ H Hids He) as (st & Hsel & Hreg & _).
  assert (or_empty (field ask "student_id") = field body "student_id") as Hor.
  { rewrite Hask. unfold or_empty. by rewrite Ht. }
  assert (st ∈ filter (fun s => st_code s
                                = Some (toUpperCase (sanitize (field body "student_id"))))
                     (Students db1)) as [Hcode Hin]%list_elem_of_filter
    by (rewrite Hsel; left).
  exists st, (map rg_event (filter (fun r => rg_student r = st_id st) (Registrations db1))).
  split_and!; [|done|done| |done].
  - apply students_lookup_found; rewrite Hor; [|done]. by rewrite upper_nil.
  - apply registered_for_row in Hreg as (r & Hr & Hs & Hev).
    apply list_elem_of_fmap. exists r. split; [done|]. by apply list_elem_of_filter.
Qed.


(** ** The register route of the first revision, against [server.js] *)

Lemma early_checks_agree a b c d e f :
  match Early.register_checks a b c d e f, Portal.register_checks a b c d e f with
  | None, None => True
  | Some r1, Some r2 => status_of r1 = 400%Z /\ status_of r2 = 400%Z
  | _, _ => False
  end.
Proof.
  unfold Early.register_checks, Portal.register_checks.
  change (isPhone (JStr (ToString b))) with (isPhone b).
  change (isUUID (JStr (ToString d))) with (isUUID d).
  repeat (match goal with |- context [if ?x then _ else _] => destruct x end; try done).
Qed.

Lemma early_upsert_agrees name email phone db :
  snd (exec (Early.upsert_student name email phone) db)
  = snd (exec (Portal.upsert_student name email phone) db)
  /\ match fst (exec (Early.upsert_student name email phone) db),
           fst (exec (Portal.upsert_student name email phone) db) with
     | inr a, inr b => a = b
     | inl r1, inl r2 => status_of r1 = status_of r2
     | _, _ => False
     end.
Proof.
  unfold Early.upsert_student, Portal.upsert_student. rewrite !exec_await.
  destruct (fst (students_maybe _ db)) as [[st|]|e];
    rewrite ?exec_await, ?exec_ret; simpl; try done.
  all: destruct (fst (students_insert None name email phone _)) as [row|err];
    try case_decide; rewrite !exec_ret; simpl; done.
Qed.

Lemma early_insert_agrees sp user d e f cost sid db :
  First.sp_id sp = user_id user ->
  snd (exec (Early.register_insert sp d e f cost sid) db)
  = snd (exec (Portal.register_insert user d e f cost sid) db)
  /\ status_of (fst (exec (Early.register_insert sp d e f cost sid) db))
     = status_of (fst (exec (Portal.register_insert user d e f cost sid) db)).
Proof.
  intros Hid. unfold Early.register_insert, Portal.register_insert, Portal.new_row.
  cbv zeta. rewrite !exec_await, Hid.
  destruct (fst (registrations_insert _ db)) as [[]|err];
    try case_decide; rewrite !exec_ret; simpl; done.
Qed.

(** X16: The rewrite of POST /api/register between the first revision and
    [server.js] changed the wording of four messages and nothing else:
    for the same member, body and database, both leave the same database
    behind and answer with the same status. *)
Theorem first_register_agrees (sp : First.member) (user : identity)
    (body : gmap string jsval) (db : Db) :
  First.sp_id sp = user_id user ->
  snd (exec (Early.post_register sp body) db)
  = snd (exec (Portal.post_register user body) db)
  /\ status_of (fst (exec (Early.post_register sp body) db))
     = status_of (fst (exec (Portal.post_register user body) db)).
Proof.
  intros Hid. unfold Early.post_register, Portal.post_register,
    Early.register, Portal.register.
  pose proof (early_checks_agree (field body "name") (field body "phone")
    (field body "email") (field body "event_id") (field body "payment_method")
    (field body "transaction_id")) as Hc.
  destruct (Early.register_checks _ _ _ _ _ _) as [r1|],
           (Portal.register_checks _ _ _ _ _ _) as [r2|]; try done.
  { rewrite !exec_ret. simpl. destruct Hc as [-> ->]. done. }
  cbv zeta. rewrite !exec_await.
  destruct (fst (events_cost _ db)) as [cost|err]; [|by rewrite !exec_ret].
  rewrite !exec_or_return.
  destruct (early_upsert_agrees (sanitize (field body "name"))
              (toLowerCase (sanitize (field body "email")))
              (ToString (field body "phone")) (snd (events_cost (ToString (field body "event_id")) db)))
    as [Hdb Hres].
  destruct (fst (exec (Early.upsert_student _ _ _) _)) as [r1|s1],
           (fst (exec (Portal.upsert_student _ _ _) _)) as [r2|s2]; try done.
  subst s2. rewrite Hdb. by apply early_insert_agrees.
Qed.

(** ** The student desk (multi-event revision) *)

(** Under a unique key, the rows with a given key value are the row one
    already knows. *)
Lemma unique_key_selects {A : Type} (key : A -> option (list N)) (k : list N)
    (l : list A) (a : A) :
  NoDup (omap key l) -> a ∈ l -> key a = Some k ->
  filter (fun x => key x = Some k) l = [a].
Proof.
  induction l as [|x l IH]; intros Hu Ha Hk; [by apply elem_of_nil in Ha|].
  assert (forall y, y ∈ l -> key y = Some k -> k ∈ omap key l) as Hin.
  { intros y Hy Hky. apply list_elem_of_omap. by exists y. }
  rewrite filter_cons. simpl in Hu.
  destruct (decide (key x = Some k)) as [Hx|Hx].
  - rewrite Hx in Hu. apply NoDup_cons in Hu as [Hnot _].
    assert (filter (fun x => key x = Some k) l = []) as ->.
    { destruct (filter (fun x => key x = Some k) l) as [|y l'] eqn:E; [done|]. exfalso.
      assert (y ∈ filter (fun x => key x = Some k) l) as [Hy1 Hy2]%list_elem_of_filter
        by (rewrite E; left).
      by apply Hnot, (Hin y). }
    apply elem_of_cons in Ha as [->|Ha]; [done|]. exfalso. by apply Hnot, (Hin a).
  - apply elem_of_cons in Ha as [->|Ha]; [done|]. apply IH; [|done..].
    destruct (key x); [by apply NoDup_cons in Hu as [_ ?]|done].
Qed.

Lemma unique_key_few {A : Type} (key : A -> option (list N)) (k : list N) (l : list A) :
  NoDup (omap key l) ->
  filter (fun x => key x = Some k) l = []
  \/ exists a, filter (fun x => key x = Some k) l = [a].
Proof.
  intros Hu. destruct (filter (fun x => key x = Some k) l) as [|a l'] eqn:E; [by left|].
  right. exists a.
  assert (a ∈ filter (fun x => key x = Some k) l) as [Hk Ha]%list_elem_of_filter
    by (rewrite E; left).
  rewrite <- E. by apply unique_key_selects.
Qed.

Lemma NoDup_map_omap {A : Type} (f : A -> list N) (l : list A) :
  NoDup (map f l) -> NoDup (omap (fun s => Some (f s)) l).
Proof.
  induction l as [|s l IH]; simpl; intros Hp; [constructor|].
  apply NoDup_cons in Hp as [Hs Hp]. constructor; [|by apply IH].
  rewrite list_elem_of_omap. intros (x & Hx & [= E]).
  apply Hs. rewrite <- E. by apply list_elem_of_fmap_2.
Qed.

(** When a unique key is looked up with [.maybeSingle()] and no row
    comes back, there is none. *)
Lemma maybe_none_absent (P : Student -> Prop) `{!forall s, Decision (P s)}
    (key : Student -> option (list N)) (k : list N) (db : Db) :
  (forall s, P s <-> key s = Some k) ->
  NoDup (omap key (Students db)) ->
  match fst (students_maybe P db) with Data (Some _) => False | _ => True end ->
  filter P (Students db) = [].
Proof.
  intros HP Hu. unfold students_maybe.
  rewrite (list_filter_iff P (fun s => key s = Some k)) by done.
  by destruct (unique_key_few key k (Students db) Hu) as [->|[a ->]].
Qed.

Lemma absent_data (r : result (option Student)) :
  Desk.absent (Desk.data_of r) = true ->
  match r with Data (Some _) => False | _ => True end.
Proof. by destruct r as [[s|]|e]. Qed.

Lemma lookup_new_code (body : gmap string jsval) (db : Db) :
  NoDup (omap st_code (Students db)) ->
  fst (exec (students_lookup body) db) = LookupNew ->
  truthy (field body "student_id") = true
  /\ toUpperCase (sanitize (field body "student_id")) <> []
  /\ filter (fun s => st_code s = Some (toUpperCase (sanitize (field body "student_id"))))
            (Students db) = [].
Proof.
  intros Hu. unfold students_lookup, or_empty.
  destruct (truthy (field body "student_id")) eqn:Ht; [|done].
  destruct (Nat.eqb_spec (length (toUpperCase (sanitize (field body "student_id")))) 0)
    as [|Hne]; [done|].
  rewrite exec_await, students_maybe_db. intros H. split_and!; [done| |].
  - intros E. by rewrite E in Hne.
  - apply (maybe_none_absent _ st_code (toUpperCase (sanitize (field body "student_id"))));
      [done|done|].
    by destruct (fst (students_maybe _ db)) as [[s|]|e].
Qed.

Lemma check_unique_phone (ask : gmap string jsval) (db : Db) (o : option (list N)) :
  field ask "field" = JStr (lit "phone") ->
  NoDup (map st_phone (Students db)) ->
  fst (exec (Desk.check_unique ask) db) = Desk.UniqueAnswer true o ->
  isPhone (field ask "value") = true
  /\ filter (fun s => st_phone s = ToString (field ask "value")) (Students db) = [].
Proof.
  intros Hf Hu. unfold Desk.check_unique. rewrite Hf.
  destruct (truthy (field ask "value")); [|done].
  change (negb (truthy (JStr (lit "phone"))) || negb true) with false.
  change (is_text "phone" (JStr (lit "phone"))) with true. cbv iota.
  destruct (isPhone (field ask "value")); [|done]. simpl negb. cbv iota.
  rewrite exec_await, exec_ret. simpl. intros [= Ha _]. split; [done|].
  apply (maybe_none_absent _ (fun s => Some (st_phone s)) (ToString (field ask "value"))).
  - intros s. split; congruence.
  - by apply NoDup_map_omap.
  - by apply absent_data.
Qed.

Lemma check_unique_email (ask : gmap string jsval) (db : Db) (e : list N)
    (o : option (list N)) :
  field ask "field" = JStr (lit "email") -> field ask "value" = JStr e ->
  NoDup (map st_email (Students db)) ->
  fst (exec (Desk.check_unique ask) db) = Desk.UniqueAnswer true o ->
  isEmail (JStr e) = true
  /\ filter (fun s => st_email s = toLowerCase e) (Students db) = [].
Proof.
  intros Hf Hv Hu. unfold Desk.check_unique. rewrite Hf, Hv.
  destruct (truthy (JStr e)); [|done].
  change (negb (truthy (JStr (lit "email"))) || negb true) with false.
  change (is_text "phone" (JStr (lit "email"))) with false.
  change (is_text "email" (JStr (lit "email"))) with true. cbv iota.
  destruct (isEmail (JStr e)); [|done]. simpl negb. cbv iota.
  rewrite exec_await, exec_ret. simpl. intros [= Ha _]. split; [done|].
  apply (maybe_none_absent _ (fun s => Some (st_email s)) (toLowerCase e)).
  - intros s. split; congruence.
  - by apply NoDup_map_omap.
  - by apply absent_data.
Qed.

Lemma clean_email_kept (e : list N) :
  harmless e -> starts_clean e -> ends_clean e -> isEmail (JStr e) = true ->
  sanitize (JStr e) = e.
Proof.
  intros Hh Hs He Hv. simpl in Hv. apply andb_true_iff in Hv as [_ Hl%Nat.leb_le].
  rewrite sanitize_clean by (done || lia). by apply trim_fixed.
Qed.

(** X17: The new-student flow of the desk.  When the lookup by student id
    answers [new] and check-unique answers [unique: true] for the phone
    and for the email, the student block of POST /api/register stores
    the student, as one new row with a new id, the sanitized name and
    the phone: it cannot run into [Phone or email already used].  This
    needs the email to be free of markup and of white space around it:
    check-unique looks for the lower-cased text, the register route
    stores the sanitized one.  For a student id and an email within
    Basic Latin, the row carries the id in upper case and the email in
    lower case. *)
Theorem checked_new_student_is_stored (body askp aske : gmap string jsval) (db : Db)
    (e : list N) (o1 o2 : option (list N)) :
  students_unique (Students db) ->
  fst (exec (students_lookup body) db) = LookupNew ->
  field askp "field" = JStr (lit "phone") -> field askp "value" = field body "phone" ->
  fst (exec (Desk.check_unique askp) db) = Desk.UniqueAnswer true o1 ->
  field body "email" = JStr e -> harmless e -> starts_clean e -> ends_clean e ->
  field aske "field" = JStr (lit "email") -> field aske "value" = JStr e ->
  fst (exec (Desk.check_unique aske) db) = Desk.UniqueAnswer true o2 ->
  exists row,
    exec (Batch.upsert_of body) db
    = (inr (st_id row), bump (with_students (Students db ++ [row]) db))
    /\ st_id row = gen_id (serial db)
    /\ st_name row = sanitize (field body "name")
    /\ st_phone row = ToString (field body "phone")
    /\ students_unique (Students db ++ [row])
    /\ (basic_latin (sanitize (field body "student_id")) ->
        st_code row = Some (toUpperCase (sanitize (field body "student_id"))))
    /\ (basic_latin e -> st_email row = toLowerCase e).
Proof.
  intros (Hup & Hue & Huc) Hl Hpf Hpv Hp Hbe Hh Hs Hend Hef Hev He.
  apply lookup_new_code in Hl as (_ & _ & Hcode); [|done].
  apply check_unique_phone in Hp as [_ Hphone]; [|done..]. rewrite Hpv in Hphone.
  apply check_unique_email with (e := e) in He as [Hvalid Hemail]; [|done..].
  set (row := {| st_id := gen_id (serial db);
                 st_code := Some (toUpperCase (sanitize (field body "student_id")));
                 st_name := sanitize (field body "name");
                 st_phone := ToString (field body "phone");
                 st_email := toLowerCase e |}).
  assert (students_unique (Students db ++ [row])) as Hu.
  { unfold students_unique. rewrite !map_app, omap_app. simpl.
    split_and!; apply NoDup_app; (split; [done|]); (split; [|apply NoDup_singleton]).
    - intros x (s & -> & Hin)%list_elem_of_fmap Hx%list_elem_of_singleton.
      by apply (filter_nil_not_elem_of _ _ s Hphone).
    - intros x (s & -> & Hin)%list_elem_of_fmap Hx%list_elem_of_singleton.
      by apply (filter_nil_not_elem_of _ _ s Hemail).
    - intros x (s & Hin & Hs')%list_elem_of_omap Hx%list_elem_of_singleton.
      apply (filter_nil_not_elem_of _ _ s Hcode); [congruence|done]. }
  exists row. split_and!; try done.
  unfold Batch.upsert_of, Batch.upsert_student.
  rewrite exec_await. unfold students_maybe at 1 2. rewrite Hcode. simpl.
  rewrite exec_await. unfold students_insert.
  rewrite Hbe, (clean_email_kept e) by done. fold row.
  by rewrite decide_True.
Qed.

Lemma upper_harmless (s : list N) : harmless s -> harmless (toUpperCase s).
Proof.
  unfold harmless, toUpperCase. intros H. apply Forall_fmap.
  eapply Forall_impl; [exact H|]. intros c Hc. simpl. unfold upper.
  destruct ((97 <=? c) && (c <=? 122))%N eqn:E; [|done].
  apply andb_true_iff in E as [E1 E2]. apply N.leb_le in E1, E2. unfold dangerous.
  repeat match goal with
  | |- context [(?a =? ?b)%N] => destruct (N.eqb_spec a b); try lia
  end; done.
Qed.

(** What a successful PUT /api/students/:id has done. *)
Lemma put_students_json user sid body db f db' :
  exec (Desk.put_students user sid body) db = (Json f, db') ->
  user_role user = lit "admin" /\ isUUID (JStr sid) = true
  /\ f = [("ok"%string, JBool true)]
  /\ sanitize (or_empty (field body "name")) <> []
  /\ isPhone (JStr (trim (ToString (or_empty (field body "phone"))))) = true
  /\ toUpperCase (sanitize (or_empty (field body "student_id"))) <> []
  /\ students_unique (Students db')
  /\ db' = with_students
             (map (fun s => if decide (st_id s = sid)
                            then Desk.set_all
                                   (sanitize (or_empty (field body "name")))
                                   (trim (ToString (or_empty (field body "phone"))))
                                   (toLowerCase (sanitize (or_empty (field body "email"))))
                                   (toUpperCase (sanitize (or_empty (field body "student_id"))))
                                   s
                            else s)
                  (Students db)) db.
Proof.
  unfold Desk.put_students. destruct (requireAdmin user) as [r|] eqn:Ha.
  { apply requireAdmin_some in Ha as ->. by rewrite exec_ret. }
  apply requireAdmin_none in Ha.
  destruct (isUUID (JStr sid)); cbn [negb]; [|by rewrite exec_ret]. cbv zeta.
  destruct (Nat.eqb_spec (length (sanitize (or_empty (field body "name")))) 0)
    as [|Hname]; [by rewrite exec_ret|].
  destruct (isPhone _) eqn:Hphone; cbn [negb]; [|by rewrite exec_ret].
  destruct (isEmail _) eqn:Hemail; cbn [negb]; [|by rewrite exec_ret].
  destruct (Nat.eqb_spec
              (length (toUpperCase (sanitize (or_empty (field body "student_id"))))) 0)
    as [|Hcode]; [by rewrite exec_ret|].
  rewrite exec_await. unfold students_update. case_decide as Hu; simpl.
  - rewrite exec_ret. intros [= <- <-]. split_and!; try done.
    + intros E. by rewrite E in Hname.
    + intros E. by rewrite E in Hcode.
  - by rewrite exec_ret.
Qed.

Lemma put_students_reject user sid body db n msg db' :
  exec (Desk.put_students user sid body) db = (Reject n msg, db') ->
  (n = 400 \/ n = 403 \/ n = 500)%Z /\ db' = db.
Proof.
  unfold Desk.put_students. destruct (requireAdmin user) as [r|] eqn:Ha.
  { apply requireAdmin_some in Ha as ->. rewrite exec_ret. intros [= <- _ <-]. auto. }
  destruct (isUUID (JStr sid)); cbn [negb];
    [|rewrite exec_ret; intros [= <- _ <-]; auto]. cbv zeta.
  repeat (match goal with |- context [if ?b then _ else _] =>
            destruct b; [rewrite exec_ret; intros [= <- _ <-]; auto|] end).
  rewrite exec_await. unfold students_update. case_decide as Hu; simpl.
  - by rewrite exec_ret.
  - rewrite exec_ret. intros [= <- _ <-]. auto.
Qed.

(** X18: What PUT /api/students/:id does.  A success was asked by an admin;
    it leaves events and registrations alone, keeps the number of
    students, the rows with another id and the uniqueness of phone, email
    and student id; a row with the named id is left with a markup-free
    non-empty name, a markup-free email, a phone of ten digits and a
    markup-free non-empty student id.  Any other reply is 400, 403 or 500
    and leaves the database as it was. *)
Theorem student_edit_outcome (user : identity) (sid : list N)
    (body : gmap string jsval) (db : Db) :
  match exec (Desk.put_students user sid body) db with
  | (Json _, db') =>
      user_role user = lit "admin"
      /\ keeps_sales db db'
      /\ students_unique (Students db')
      /\ length (Students db') = length (Students db)
      /\ (forall s, s ∈ Students db -> st_id s <> sid -> s ∈ Students db')
      /\ (forall s, s ∈ Students db' -> st_id s = sid ->
            student_clean s /\ st_name s <> []
            /\ exists c, st_code s = Some c /\ c <> [] /\ harmless c)
  | (Reject n _, db') => (n = 400 \/ n = 403 \/ n = 500)%Z /\ db' = db
  end.
Proof.
  destruct (exec (Desk.put_students user sid body) db) as [[f|n msg] db'] eqn:H;
    [|by eapply put_students_reject].
  apply put_students_json in H as (Ha & _ & _ & Hname & Hphone & Hcode & Hu & ->).
  simpl in *. split_and!; try done.
  - by rewrite length_map.
  - intros s Hs Hid. apply list_elem_of_fmap. exists s. split; [|done]. by rewrite decide_False.
  - intros s (s0 & -> & Hs0)%list_elem_of_fmap. case_decide as Hid; [|done]. intros _.
    simpl. split_and!; [|done|].
    + apply phone_digits in Hphone as [Hl Hd]. split_and!; try done.
      * apply sanitize_harmless.
      * apply lower_harmless, sanitize_harmless.
    + eexists. split_and!; [done|done|]. apply upper_harmless, sanitize_harmless.
Qed.

(** X19: After an admin has edited a student, POST /api/students/lookup with
    the student id that was sent finds that student, with the name and
    the phone the edit wrote and the events of its registrations; for an
    email within Basic Latin, with that email in lower case. *)
Theorem edited_student_is_found (user : identity) (sid : list N)
    (body ask : gmap string jsval) (db db' : Db) (f : list (string * jsval))
    (s0 : Student) :
  exec (Desk.put_students user sid body) db = (Json f, db') ->
  s0 ∈ Students db -> st_id s0 = sid ->
  field ask "student_id" = field body "student_id" ->
  exists st,
    exec (students_lookup ask) db'
    = (LookupFound st (map rg_event
                         (filter (fun r => rg_student r = sid) (Registrations db))), db')
    /\ st ∈ Students db'
    /\ st_id st = sid
    /\ st_name st = sanitize (or_empty (field body "name"))
    /\ st_phone st = trim (ToString (or_empty (field body "phone")))
    /\ (basic_latin (sanitize (or_empty (field body "email"))) ->
        st_email st = toLowerCase (sanitize (or_empty (field body "email")))).
Proof.
  intros H Hs0 <- Hask.
  apply put_students_json in H as (_ & _ & _ & _ & _ & Hcode & Hu & ->).
  set (st := Desk.set_all (sanitize (or_empty (field body "name")))
               (trim (ToString (or_empty (field body "phone"))))
               (toLowerCase (sanitize (or_empty (field body "email"))))
               (toUpperCase (sanitize (or_empty (field body "student_id")))) s0).
  assert (st ∈ map (fun s => if decide (st_id s = st_id s0)
                             then Desk.set_all (sanitize (or_empty (field body "name")))
                                    (trim (ToString (or_empty (field body "phone"))))
                                    (toLowerCase (sanitize (or_empty (field body "email"))))
                                    (toUpperCase (sanitize (or_empty (field body "student_id"))))
                                    s
                             else s) (Students db)) as Hin.
  { apply list_elem_of_fmap. exists s0. split; [|done]. by rewrite decide_True. }
  exists st. split_and!; try done.
  rewrite (students_lookup_found ask st); [done|by rewrite Hask|].
  rewrite Hask. destruct Hu as (_ & _ & Hu). simpl in *.
  by apply unique_key_selects.
Qed.

(** ** The further theorems at work on the sample deployment *)

(** Root adds Carol asking for the role [owner], then renames Alice
    asking for it again, then deletes her: every stored role stays
    listed. *)
Lemma members_roles_stay_listed_witness :
  roles_listed (Admin.members
                  (snd (Admin.post_members Office.digest root Office.carol_body Office.staff)))
  /\ roles_listed (Admin.members
                     (snd (Admin.put_members Office.digest root (user_id alice)
                             Office.carol_body Office.staff)))
  /\ roles_listed (Admin.members
                     (snd (Admin.delete_members root (user_id alice) Office.staff))).
Proof.
  apply (members_roles_stay_listed Office.digest root Office.carol_body (user_id alice)
           Office.staff).
  apply Forall_cons. split; [left; reflexivity|].
  apply Forall_singleton. right. reflexivity.
Defined.

(** Carol, added with the email [Carol@Club.org], logs in with
    [carol@CLUB.org]: the session is hers, as a member, under the
    lower-cased email. *)
Lemma created_member_can_log_in_witness :
  let t' := snd (Admin.post_members Office.digest root Office.carol_body Office.staff) in
  exists ident,
    Admin.login Office.digest Office.carol_login (lit "5f2a") t' idle
    = (Json [("token"%string, JStr (lit "5f2a")); ("name"%string, JStr (user_name ident));
             ("role"%string, JStr (user_role ident))],
       session_create (lit "5f2a") ident idle)
    /\ user_email ident = toLowerCase (lit "Carol@Club.org")
    /\ user_role ident
       = (if is_text "admin" (field Office.carol_body "role")
          then lit "admin" else lit "member")
    /\ requireAuth (JStr (lit "5f2a"))
         (snd (Admin.login Office.digest Office.carol_login (lit "5f2a") t' idle))
       = inr ident.
Proof.
  intros t'.
  apply (created_member_can_log_in Office.digest root Office.carol_body Office.staff
           [("ok"%string, JBool true)] t' (lit "Carol@Club.org") (lit "carol@CLUB.org")).
  - vm_compute. reflexivity.
  - vm_compute. reflexivity.
  - repeat constructor.
  - repeat constructor.
  - reflexivity.
  - reflexivity.
  - vm_compute. reflexivity.
  - repeat constructor.
  - vm_compute. reflexivity.
  - vm_compute. exact I.
  - vm_compute. exact I.
  - reflexivity.
  - vm_compute. reflexivity.
  - discriminate.
Defined.

(** Dora deletes Alice: Dora's own row stays, Alice's is gone.  With
    uuid ids, Dora naming her own id in upper case is answered 200 and
    her row is gone. *)
Lemma delete_members_spares_the_caller_witness :
  let t' := snd (Admin.delete_members Office.dora (user_id alice) (Office.board true)) in
  let own := lit "DDDDDDDD-DDDD-4DDD-8DDD-DDDDDDDDDDDD" in
  Office.dora_row ∈ Admin.members t'
  /\ Forall (fun m => Admin.mb_id m <> user_id alice) (Admin.members t')
  /\ fst (Admin.delete_members Office.dora own (Office.board true)) = ok_true
  /\ Office.dora_row
     ∉ Admin.members (snd (Admin.delete_members Office.dora own (Office.board true))).
Proof.
  intros t' own.
  assert (Office.dora_row ∈ Admin.members (Office.board true)) as Hin by left.
  split_and!.
  - destruct (delete_members_spares_the_caller Office.dora (user_id alice)
                (Office.board true) Office.dora_row Hin) as (_ & H & _).
    apply H; reflexivity.
  - vm_compute. repeat constructor. discriminate.
  - destruct (delete_members_spares_the_caller Office.dora own
                (Office.board true) Office.dora_row Hin) as (_ & _ & _ & H).
    apply H; try reflexivity. discriminate.
  - destruct (delete_members_spares_the_caller Office.dora own
                (Office.board true) Office.dora_row Hin) as (_ & _ & _ & H).
    apply H; try reflexivity. discriminate.
Defined.

(** Bob sends a body with a UPI transaction id that carries markup to
    each write route: the stored rows stay clean. *)
Lemma routes_keep_rows_clean_witness :
  let body := edit_body dance "upi" (JStr (lit "<T9>")) in
  let sp := First.Member (user_id bob) (user_name bob) (user_email bob) in
  stored_clean (snd (exec (Portal.post_register bob body) (sold_db true)))
  /\ stored_clean (snd (exec (Batch.post_register bob body) (sold_db true)))
  /\ stored_clean (snd (exec (Portal.put_sales bob (gen_id 1) body) (sold_db true)))
  /\ stored_clean (snd (exec (Portal.delete_sales bob (gen_id 1)) (sold_db true)))
  /\ stored_clean (snd (exec (First.put_sales sp (gen_id 1) body)
                          (sold_db true)))
  /\ stored_clean (snd (exec (First.delete_sales sp (gen_id 1))
                          (sold_db true))).
Proof.
  intros body sp.
  apply (routes_keep_rows_clean (sold_db true) bob sp (gen_id 1) body).
  split.
  - apply Forall_singleton. split_and!.
    + repeat constructor.
    + repeat constructor.
    + reflexivity.
    + apply (bool_decide_unpack _). vm_compute. exact I.
  - apply Forall_singleton. left. split; reflexivity.
Defined.

(** Bob deletes his sale; Root then finds nothing to delete or edit. *)
Lemma delete_then_not_found_witness :
  let body := edit_body dance "cash" JUndefined in
  let db' := snd (exec (Portal.delete_sales bob (gen_id 1)) (sold_db true)) in
  Registrations db' = []
  /\ exec (Portal.delete_sales root (gen_id 1)) db' = (Reject 404 (lit "Not found."), db')
  /\ exec (Portal.put_sales root (gen_id 1) body) db'
     = (Reject 404 (lit "Registration not found."), db').
Proof.
  intros body db'.
  destruct (delete_then_not_found bob root (gen_id 1) body (sold_db true) db'
              [("ok"%string, JBool true)]) as (_ & Hr & _ & _ & Hd & He).
  - vm_compute. reflexivity.
  - split_and!.
    + rewrite Hr. vm_compute. reflexivity.
    + exact Hd.
    + apply He. vm_compute. reflexivity.
Defined.

(** Alice sells Asha the quiz: the row is in her list and in Root's, and
    Bob's list is what it was. *)
Lemma sale_shows_to_seller_and_admins_witness :
  let body := single_body quiz "cash" JUndefined [] in
  let db' := snd (exec (Portal.post_register alice body) (known_db true)) in
  exists row,
    Registrations db' = Registrations (known_db true) ++ [row]
    /\ row ∈ sales_of alice db'
    /\ row ∈ sales_of root db'
    /\ sales_of bob db' = sales_of bob (known_db true).
Proof.
  intros body db'.
  destruct (sale_shows_to_seller_and_admins alice body (known_db true) db'
              [("ok"%string, JBool true)]) as (row & Hrow & Hown & Hadmin & Hother).
  - vm_compute. reflexivity.
  - exists row. split_and!; [exact Hrow|exact Hown| |].
    + apply Hadmin. reflexivity.
    + apply Hother; vm_compute; discriminate.
Defined.

(** Alice registers Asha for the quiz and the dance; the lookup of [s1]
    then finds Asha and lists the dance. *)
Lemma lookup_after_batch_witness :
  let body := batch_body [JStr quiz; JStr dance] "cash" JUndefined in
  let ask : gmap string jsval := {[ "student_id"%string := JStr (lit "s1") ]} in
  let db1 := snd (exec (Batch.post_register alice body) (known_db true)) in
  exists st regs,
    exec (students_lookup ask) db1 = (LookupFound st regs, db1)
    /\ st_code st = Some (lit "S1")
    /\ dance ∈ regs.
Proof.
  intros body ask db1.
  destruct (lookup_after_batch alice body ask (known_db true) db1
              [("ok"%string, JBool true); ("count"%string, JNum 2);
               ("skipped"%string, JNum 0)] [JStr quiz; JStr dance] dance)
    as (st & regs & Hfound & _ & _ & Hin & Hcode).
  - vm_compute. reflexivity.
  - reflexivity.
  - right. left.
  - reflexivity.
  - vm_compute. discriminate.
  - exists st, regs. split_and!; [exact Hfound| |exact Hin].
    rewrite Hcode; [reflexivity|]. vm_compute. repeat constructor.
Defined.

(** The same sale through the first revision and through [server.js]. *)
Lemma first_register_agrees_witness :
  let body := single_body quiz "upi" (JStr (lit "T1")) [] in
  snd (exec (Early.post_register Office.early_alice body) (known_db true))
  = snd (exec (Portal.post_register alice body) (known_db true))
  /\ status_of (fst (exec (Early.post_register Office.early_alice body) (known_db true)))
     = status_of (fst (exec (Portal.post_register alice body) (known_db true))).
Proof.
  intros body.
  apply (first_register_agrees Office.early_alice alice body (known_db true)).
  reflexivity.
Defined.

(** Ravi is new to the database that knows Asha; his phone and email are
    reported unique; the student block then stores him. *)
Lemma checked_new_student_is_stored_witness :
  exists row,
    exec (Batch.upsert_of Office.ravi_body) (known_db true)
    = (inr (gen_id 1), bump (with_students [asha; row] (known_db true)))
    /\ st_name row = lit "Ravi"
    /\ st_code row = Some (lit "S2")
    /\ st_email row = lit "ravi@mail.in".
Proof.
  destruct (checked_new_student_is_stored Office.ravi_body
              (Office.ask_unique "phone" (lit "9123456780"))
              (Office.ask_unique "email" (lit "Ravi@mail.in"))
              (known_db true) (lit "Ravi@mail.in") None None)
    as (row & Hrun & Hid & Hname & _ & _ & Hcode & Hemail).
  - apply (bool_decide_unpack _). vm_compute. exact I.
  - vm_compute. reflexivity.
  - reflexivity.
  - reflexivity.
  - vm_compute. reflexivity.
  - reflexivity.
  - repeat constructor.
  - reflexivity.
  - reflexivity.
  - reflexivity.
  - reflexivity.
  - vm_compute. reflexivity.
  - exists row. split_and!.
    + rewrite Hrun, Hid. reflexivity.
    + rewrite Hname. reflexivity.
    + rewrite Hcode; [reflexivity|]. vm_compute. repeat constructor.
    + rewrite Hemail; [reflexivity|]. repeat constructor.
Defined.

(** Root corrects Asha's row; the lookup of the new student id finds her
    with the corrected fields and her registration for the quiz. *)
Lemma edited_student_is_found_witness :
  let ask : gmap string jsval := {[ "student_id"%string := JStr (lit "s-1") ]} in
  let db' := snd (exec (Desk.put_students root (gen_id 0) Office.asha_fix) (sold_db true)) in
  exists st,
    exec (students_lookup ask) db' = (LookupFound st [quiz], db')
    /\ st_id st = gen_id 0
    /\ st_name st = lit "Asha K"
    /\ st_phone st = lit "9876543210"
    /\ st_email st = lit "asha.k@mail.in".
Proof.
  intros ask db'.
  destruct (edited_student_is_found root (gen_id 0) Office.asha_fix ask (sold_db true) db'
              [("ok"%string, JBool true)] asha)
    as (st & Hfound & _ & Hid & Hname & Hphone & Hemail).
  - vm_compute. reflexivity.
  - left.
  - reflexivity.
  - reflexivity.
  - exists st. split_and!.
    + exact Hfound.
    + exact Hid.
    + rewrite Hname. reflexivity.
    + rewrite Hphone. reflexivity.
    + rewrite Hemail; [reflexivity|]. vm_compute. repeat constructor.
Defined.

(** The quiz's identifier has the shape, hence 36 code units. *)
Lemma isUUID_shape_witness : uuid_shape quiz /\ length quiz = 36.
Proof.
  destruct (isUUID_shape (JStr quiz)) as [Hshape Hlen]. split.
  - apply Hshape. reflexivity.
  - apply Hlen. reflexivity.
Defined.

(** A name wrapped in markup comes out harmless; a plain one comes back
    as it was. *)
Lemma sanitize_guarantee_witness :
  harmless (sanitize (JStr (lit " <b>Asha</b> ")))
  /\ sanitize (JStr (lit "Asha")) = lit "Asha".
Proof.
  split.
  - destruct (sanitize_guarantee (JStr (lit " <b>Asha</b> "))) as (H & _). exact H.
  - destruct (sanitize_guarantee (JStr (lit "Asha"))) as (_ & _ & H). apply H. split_and!.
    + repeat constructor.
    + reflexivity.
    + reflexivity.
    + simpl. lia.
Defined.

(** Bob logs in at time 0, an hour passes, Alice logs in and out:
    twelve hours later nothing is left. *)
Lemma sessions_never_leak_witness :
  let bobs := Login {[ "email"%string := JStr (lit "bob@club.org");
                       "password"%string := JStr (lit "secret-pw") ]}
                    (Some bob) (lit "77e1") in
  let alices := Login {[ "email"%string := JStr (lit "alice@club.org");
                         "password"%string := JStr (lit "secret-pw") ]}
                      (Some alice) (lit "5f2a") in
  sessions (do_step (Elapse TTL)
              (do_steps [bobs; Elapse 3600000; alices; Logout (JStr (lit "5f2a"))]
                        (started 0))) = ∅.
Proof.
  intros bobs alices.
  destruct (sessions_never_leak 0 [bobs; Elapse 3600000; alices; Logout (JStr (lit "5f2a"))])
    as [_ H].
  exact H.
Defined.

(** Bob logs out: Alice's token still resolves to her. *)
Lemma logout_revokes_only_its_token_witness :
  let p := session_create (lit "5f2a") alice (session_create (lit "77e1") bob idle) in
  requireAuth (JStr (lit "5f2a")) (snd (post_logout (JStr (lit "77e1")) p)) = inr alice.
Proof.
  intros p.
  destruct (logout_revokes_only_its_token (JStr (lit "77e1")) (lit "5f2a") p) as (H & _).
  rewrite H.
  - reflexivity.
  - discriminate.
Defined.

(** Root adds Carol, who asked to be an [owner]: she is stored as a
    member under the lower-cased email. *)
Lemma post_members_outcome_witness :
  let t' := snd (Admin.post_members Office.digest root Office.carol_body Office.staff) in
  exists m,
    Admin.members t' = Admin.members Office.staff ++ [m]
    /\ Admin.mb_role m = lit "member"
    /\ Admin.mb_email m = lit "carol@club.org".
Proof.
  intros t'.
  assert (Forall (fun k => printable (field Office.carol_body k))
            ["name"; "email"; "password"]%string) as Hp by (repeat constructor).
  assert (basic_latin (ToString (or_empty (field Office.carol_body "email")))) as Hb
    by (vm_compute; repeat constructor).
  pose proof (post_members_outcome Office.digest root Office.carol_body Office.staff Hp Hb)
    as H.
  assert (Admin.post_members Office.digest root Office.carol_body Office.staff
          = (Json [("ok"%string, JBool true)], t')) as E by (vm_compute; reflexivity).
  rewrite E in H.
  destruct H as (_ & _ & m & Hm & Hrole & _ & _ & _ & _ & Hemail & _).
  exists m. split_and!.
  - exact Hm.
  - rewrite Hrole. reflexivity.
  - rewrite Hemail. vm_compute. reflexivity.
Defined.

(** Alice sells Asha the quiz by UPI: one row more, sold by Alice. *)
Lemma single_register_outcome_witness :
  let body := single_body quiz "upi" (JStr (lit "T1")) [] in
  let db' := snd (exec (Portal.post_register alice body) (known_db true)) in
  exists row,
    Registrations db' = Registrations (known_db true) ++ [row]
    /\ rg_member row = user_id alice /\ rg_event row = quiz.
Proof.
  intros body db'.
  pose proof (single_register_outcome alice body (known_db true)) as H.
  assert (exec (Portal.post_register alice body) (known_db true)
          = (Json [("ok"%string, JBool true)], db')) as E by (vm_compute; reflexivity).
  rewrite E in H. destruct H as (_ & _ & row & Hrow & Hm & He & _).
  exists row. split_and!.
  - exact Hrow.
  - exact Hm.
  - rewrite He. reflexivity.
Defined.

(** Alice's batch for the quiz and the dance for Asha, who holds the
    quiz: one row more, sold by Alice. *)
Lemma batch_register_outcome_witness :
  let body := batch_body [JStr quiz; JStr dance] "cash" JUndefined in
  let db' := snd (exec (Batch.post_register alice body) (sold_db true)) in
  exists rows,
    Registrations db' = Registrations (sold_db true) ++ rows
    /\ length rows = 1
    /\ Forall (fun r => rg_member r = user_id alice) rows.
Proof.
  intros body db'.
  pose proof (batch_register_outcome alice body (sold_db true)) as H.
  assert (exec (Batch.post_register alice body) (sold_db true)
          = (Json [("ok"%string, JBool true); ("count"%string, JNum 1);
                   ("skipped"%string, JNum 1)], db')) as E by (vm_compute; reflexivity).
  rewrite E in H. destruct H as (_ & rows & k & sid & Hf & Hrows & _ & Hall).
  exists rows. split_and!.
  - exact Hrows.
  - injection Hf as Hc _. lia.
  - eapply Forall_impl; [exact Hall|]. intros r [Hr _]. exact Hr.
Defined.

(** Bob moves his sale from the quiz to the dance: the row now carries
    the dance and its stored cost. *)
Lemma edit_outcome_witness :
  let body := edit_body dance "cash" JUndefined in
  let db' := snd (exec (Portal.put_sales bob (gen_id 1) body) (sold_db true)) in
  Forall (fun r => rg_id r = gen_id 1 -> rg_event r = dance /\ rg_amount r = JNum 250)
         (Registrations db').
Proof.
  intros body db'.
  pose proof (edit_outcome bob (gen_id 1) body (sold_db true)) as H.
  assert (exec (Portal.put_sales bob (gen_id 1) body) (sold_db true)
          = (Json [("ok"%string, JBool true)], db')) as E by (vm_compute; reflexivity).
  rewrite E in H. destruct H as (_ & _ & _ & _ & _ & (e & He & Hr) & _).
  assert (e = {| ev_id := dance; ev_title := lit "Dance"; ev_cost := JNum 250 |}) as ->.
  { vm_compute in He. injection He as <-. reflexivity. }
  apply Forall_forall. exact Hr.
Defined.

(** Root corrects Asha's row: her registration is untouched and her row
    is clean. *)
Lemma student_edit_outcome_witness :
  let db' := snd (exec (Desk.put_students root (gen_id 0) Office.asha_fix) (sold_db true)) in
  Registrations db' = Registrations (sold_db true)
  /\ forall s, s ∈ Students db' -> st_id s = gen_id 0 -> student_clean s.
Proof.
  intros db'.
  pose proof (student_edit_outcome root (gen_id 0) Office.asha_fix (sold_db true)) as H.
  assert (exec (Desk.put_students root (gen_id 0) Office.asha_fix) (sold_db true)
          = (Json [("ok"%string, JBool true)], db')) as E by (vm_compute; reflexivity).
  rewrite E in H. destruct H as (_ & (_ & Hr & _) & _ & _ & _ & Hs).
  split; [exact Hr|]. intros s Hin Hid. destruct (Hs s Hin Hid) as [Hc _]. exact Hc.
Defined.
